(** * PX-M1UR receiver core (driver/m1ur_device.c)

    A shallow embedding of the stream synchronizer
    ([m1ur_device_stream_process], [m1ur_device_stream_handler]) and of the
    control plane ([m1ur_chrdev_tune], [m1ur_chrdev_set_stream_id],
    [m1ur_chrdev_set_capture]) together with the properties the
    specification states about them, and of the power, open, close, attach
    and detach paths ([m1ur_backend_set_power], [m1ur_backend_init],
    [m1ur_backend_term], [m1ur_chrdev_open], [m1ur_chrdev_release],
    [m1ur_chrdev_read_cnr_raw], [m1ur_device_load_config],
    [m1ur_device_init], [m1ur_device_release], [m1ur_device_term]) with
    properties read off the code.

    Conventions.
    - A C [u32] is a [Z] in [0, 2^32); every [u32] operation of the source
      is written with its wrap-around ([u32 x = x mod 2^32]).
    - A buffer is the [list Z] of its bytes and a pointer into it is a [Z]
      offset.  An access that leaves the buffer is [Fault].
    - Loops that the source does not bound run on fuel; running out of it is
      [Timeout]. *)

From Stdlib Require Import ZArith List Lia Bool.
Import ListNotations.
Open Scope Z_scope.

Module Stream.

(** ** Machine integers *)

Definition u32 (x : Z) : Z := x mod 2 ^ 32.

(** [size_t] of an LP64 kernel. *)
Definition size_t (x : Z) : Z := x mod 2 ^ 64.

Definition M1UR_DEVICE_TS_SYNC_COUNT : Z := 4.
Definition M1UR_DEVICE_TS_SYNC_SIZE : Z := 188 * M1UR_DEVICE_TS_SYNC_COUNT.

(** ** Results of running C code *)

Inductive outcome (A : Type) : Type :=
| Done (a : A)      (* the call returned *)
| Fault             (* an access left its object *)
| Timeout.          (* the fuel ran out before the call returned *)

Arguments Done {A} a.
Arguments Fault {A}.
Arguments Timeout {A}.

(** ** Memory *)

(** [p[0]] for a pointer at offset [a] of the buffer [mem]. *)
Definition load (mem : list Z) (a : Z) : option Z :=
  if a <? 0 then None else nth_error mem (Z.to_nat a).

(** The [n] bytes at offset [a] of [mem]. *)
Definition bytes_at (mem : list Z) (a n : Z) : option (list Z) :=
  if (0 <=? a) && (0 <=? n) && (a + n <=? Z.of_nat (length mem))
  then Some (firstn (Z.to_nat n) (skipn (Z.to_nat a) mem))
  else None.

(** [memcpy(dst + doff, src + soff, n)]: the new contents of [dst]. *)
Definition memcpy (dst : list Z) (doff : Z) (src : list Z) (soff n : Z)
  : option (list Z) :=
  match bytes_at src soff n with
  | Some bs =>
      if (0 <=? doff) && (doff + n <=? Z.of_nat (length dst))
      then Some (firstn (Z.to_nat doff) dst ++ bs
                   ++ skipn (Z.to_nat (doff + n)) dst)
      else None
  | None => None
  end.

(** Modelled from the spec: [ptx_chrdev_put_stream] is declared outside this
    file.  The packet sink "receives (buffer_pointer, length)"; it is
    modelled as taking a copy of the [n] bytes at [p], which is the block
    the consumer sees. *)
Definition ptx_chrdev_put_stream (mem : list Z) (p n : Z) : option (list Z) :=
  bytes_at mem p n.

(** ** m1ur_device_stream_process *)

(** The inner [while (true)] loop: counts in [i] the 188-byte slots from [p]
    that lie in the window and start with 0x47.  Returns [(i, sync_remain)]. *)
Fixpoint sync_scan (fuel : nat) (mem : list Z) (p remain i : Z)
  : outcome (Z * bool) :=
  match fuel with
  | O => Timeout
  | S fuel' =>
      if u32 ((i + 1) * 188) <=? remain then
        match load mem (p + u32 (i * 188)) with
        | None => Fault
        | Some b =>
            if b =? 0x47
            then sync_scan fuel' mem p remain (u32 (i + 1))
            else Done (i, false)
        end
      else Done (i, true)
  end.

(** The outer [while (remain)] loop.  [n] is the fuel of each inner scan.
    Returns the blocks given to the sink, in order, and the final
    [(p, remain)] stored back through [buf] and [len]. *)
Fixpoint process_loop (n fuel : nat) (mem : list Z) (p remain : Z)
  : outcome (list (list Z) * Z * Z) :=
  match fuel with
  | O => Timeout
  | S fuel' =>
      if remain =? 0 then Done ([], p, remain)
      else
        match sync_scan n mem p remain 0 with
        | Done (i, sync_remain) =>
            if i <? M1UR_DEVICE_TS_SYNC_COUNT
            then process_loop n fuel' mem (p + 1) (u32 (remain - 1))
            else
              match ptx_chrdev_put_stream mem p (u32 (188 * i)) with
              | None => Fault
              | Some blk =>
                  let p' := p + u32 (188 * i) in
                  let remain' := u32 (remain - u32 (188 * i)) in
                  if sync_remain then Done ([blk], p', remain')
                  else
                    match process_loop n fuel' mem p' remain' with
                    | Done (blks, q, r) => Done (blk :: blks, q, r)
                    | Fault => Fault
                    | Timeout => Timeout
                    end
              end
        | Fault => Fault
        | Timeout => Timeout
        end
  end.

Definition m1ur_device_stream_process (fuel : nat) (mem : list Z)
  (p remain : Z) : outcome (list (list Z) * Z * Z) :=
  process_loop fuel fuel mem p remain.

(** ** m1ur_device_stream_handler *)

(** [struct m1ur_stream_context]; the [chrdev] back-reference names the sink
    and is left out. *)
Record m1ur_stream_context : Type := {
  remain_buf : list Z;   (* u8 remain_buf[M1UR_DEVICE_TS_SYNC_SIZE] *)
  remain_len : Z         (* size_t remain_len *)
}.

(** The last part of the handler: the pass over the chunk from [p] and the
    copy of what it leaves into the carry-over buffer. *)
Definition handler_tail (fuel : nat) (ctx : m1ur_stream_context)
  (buf : list Z) (p remain : Z) (emitted : list (list Z))
  : outcome (m1ur_stream_context * list (list Z)) :=
  match m1ur_device_stream_process fuel buf p remain with
  | Done (blks, p', remain') =>
      if remain' =? 0 then Done (ctx, emitted ++ blks)
      else
        match memcpy (remain_buf ctx) 0 buf p' remain' with
        | Some rb =>
            Done ({| remain_buf := rb; remain_len := remain' |},
                  emitted ++ blks)
        | None => Fault
        end
  | Fault => Fault
  | Timeout => Timeout
  end.

Definition m1ur_device_stream_handler (fuel : nat)
  (ctx : m1ur_stream_context) (buf : list Z) (len : Z)
  : outcome (m1ur_stream_context * list (list Z)) :=
  let ctx_remain_len := u32 (remain_len ctx) in
  if ctx_remain_len =? 0 then handler_tail fuel ctx buf 0 len []
  else if M1UR_DEVICE_TS_SYNC_SIZE <=? u32 (ctx_remain_len + len) then
    let t := u32 (M1UR_DEVICE_TS_SYNC_SIZE - ctx_remain_len) in
    match memcpy (remain_buf ctx) ctx_remain_len buf 0 t with
    | None => Fault
    | Some rb =>
        match m1ur_device_stream_process fuel rb 0
                M1UR_DEVICE_TS_SYNC_SIZE with
        | Done (blks, _, ctx_remain_len') =>
            let ctx' := {| remain_buf := rb; remain_len := 0 |} in
            if ctx_remain_len' =? 0
            then handler_tail fuel ctx' buf t (u32 (len - t)) blks
            else handler_tail fuel ctx' buf 0 len blks
        | Fault => Fault
        | Timeout => Timeout
        end
    end
  else
    match memcpy (remain_buf ctx) ctx_remain_len buf 0 len with
    | None => Fault
    | Some rb =>
        Done ({| remain_buf := rb;
                 remain_len := size_t (remain_len ctx + len) |}, [])
    end.

(** The context as [kzalloc] and [m1ur_chrdev_start_capture] leave it. *)
Definition fresh_context : m1ur_stream_context :=
  {| remain_buf := repeat 0 (Z.to_nat M1UR_DEVICE_TS_SYNC_SIZE);
     remain_len := 0 |}.

(** The carry-over: the first [remain_len] bytes of [remain_buf]. *)
Definition carry_over (ctx : m1ur_stream_context) : list Z :=
  firstn (Z.to_nat (remain_len ctx)) (remain_buf ctx).

(** The transport delivering the chunks one after the other. *)
Fixpoint feed (fuel : nat) (ctx : m1ur_stream_context)
  (chunks : list (list Z))
  : outcome (m1ur_stream_context * list (list Z)) :=
  match chunks with
  | [] => Done (ctx, [])
  | c :: cs =>
      match m1ur_device_stream_handler fuel ctx c (Z.of_nat (length c)) with
      | Done (ctx', blks) =>
          match feed fuel ctx' cs with
          | Done (ctx'', blks') => Done (ctx'', blks ++ blks')
          | Fault => Fault
          | Timeout => Timeout
          end
      | Fault => Fault
      | Timeout => Timeout
      end
  end.

(** A transport packet with an all-zero payload, and [k] of them in a
    row. *)
Definition packet : list Z := 0x47 :: repeat 0 187.
Definition packets (k : nat) : list Z := concat (repeat packet k).

(** ** What the specification asks of blocks, streams and contexts *)

(** Every 188-byte slot of [s] starts with the marker. *)
Definition aligned (s : list Z) : Prop :=
  forall j, 0 <= j -> 188 * j < Z.of_nat (length s) ->
            load s (188 * j) = Some 0x47.

(** A block as the sink expects it: a positive number of whole packets. *)
Definition block_ok (b : list Z) : Prop :=
  0 < Z.of_nat (length b) /\ Z.of_nat (length b) mod 188 = 0 /\ aligned b.

Definition alignedb (s : list Z) : bool :=
  forallb (fun j => if 188 * Z.of_nat j <? Z.of_nat (length s)
                    then match load s (188 * Z.of_nat j) with
                         | Some x => x =? 0x47
                         | None => false
                         end
                    else true)
          (seq 0 (S (length s / 188))).

(** The context between two invocations. *)
Definition context_ok (ctx : m1ur_stream_context) : Prop :=
  Z.of_nat (length (remain_buf ctx)) = M1UR_DEVICE_TS_SYNC_SIZE /\
  0 <= remain_len ctx < M1UR_DEVICE_TS_SYNC_SIZE.

(** Windows for which no [u32] product of the scan wraps, and chunks for
    which no [u32] sum of the handler wraps either. *)
Definition window_max : Z := 2 ^ 32 - 189.
Definition chunk_max : Z := 2 ^ 32 - 752.

(** Windows close to 4 GiB: 0x47 everywhere, and 0x47 at the head of every
    188-byte slot only. *)
Definition all_markers (n : Z) : list Z := repeat 0x47 (Z.to_nat n).

Definition slot_byte (a : nat) : Z :=
  if Z.of_nat a mod 188 =? 0 then 0x47 else 0.

Definition slot_markers (n : Z) : list Z :=
  map slot_byte (seq 0 (Z.to_nat n)).

(** Delivery one byte at a time. *)
Definition one_byte_chunks (s : list Z) : list (list Z) :=
  map (fun b => [b]) s.

(** A context that carries [c] over. *)
Definition carrying (c : list Z) : m1ur_stream_context :=
  {| remain_buf := c ++ repeat 0 (Z.to_nat M1UR_DEVICE_TS_SYNC_SIZE - length c);
     remain_len := Z.of_nat (length c) |}.

End Stream.

(** * Control plane: tune, set_stream_id, set_capture *)

Module Control.

Import Stream.

Definition u16 (x : Z) : Z := x mod 2 ^ 16.

(** Error numbers of the kernel (errno-base.h). *)
Definition EIO : Z := 5.
Definition EAGAIN : Z := 11.
Definition EINVAL : Z := 22.

(** Modelled from the spec: [enum ptx_system_type] is declared outside this
    file.  The "standard selector (one of two broadcast systems)" has the
    values the switches of this file tell apart; every value that takes
    their [default] case is [PTX_UNSPECIFIED_SYSTEM]. *)
Inductive ptx_system_type : Type :=
| PTX_UNSPECIFIED_SYSTEM
| PTX_ISDB_T_SYSTEM
| PTX_ISDB_S_SYSTEM.

(** Modelled from the spec: [struct ptx_tune_params] is declared outside
    this file: "standard selector, requested frequency". *)
Record ptx_tune_params : Type := {
  system : ptx_system_type;
  freq : Z
}.

(** The two demodulators, [chrdevm1ur->tc90522_t] and [->tc90522_s]. *)
Inductive demod : Type := TC90522_T | TC90522_S.

(** The calls this file makes into the chip and bus drivers, with the
    arguments that this file chooses. *)
Inductive hw_call : Type :=
| tc90522_write_reg (d : demod) (reg val : Z)
| tc90522_set_agc_t (on : bool)
| tc90522_set_agc_s (on : bool)
| tc90522_sleep_t (on : bool)
| tc90522_sleep_s (on : bool)
| tc90522_enable_ts_pins_t (on : bool)
| tc90522_enable_ts_pins_s (on : bool)
| tc90522_tmcc_get_tsid_s (idx : Z)
| tc90522_set_tsid_s (tsid : Z)
| tc90522_get_tsid_s
| r850_wakeup
| r850_set_frequency (f : Z)
| r850_is_pll_locked
| rt710_set_params (f symbol_rate rolloff : Z)
| rt710_is_pll_locked
| rt710_get_rf_signal_strength
| it930x_purge_psb (timeout : Z)
| itedtv_bus_start_streaming
| itedtv_bus_stop_streaming
| msleep (ms : Z).

(** What a call hands back: its [int] status, and the value it stored
    through its out-pointer, if it stored one. *)
Record reply : Type := { ret : Z; out : option Z }.

Abbreviation event := (hw_call * reply)%type.

(** The lock queries of the two tuners. *)
Definition is_pll_query (c : hw_call) : bool :=
  match c with
  | r850_is_pll_locked | rt710_is_pll_locked => true
  | _ => false
  end.

Definition count_polls (l : list event) : Z :=
  Z.of_nat (length (filter (fun e => is_pll_query (fst e)) l)).

(** The milliseconds slept in a trace. *)
Fixpoint total_sleep (l : list event) : Z :=
  match l with
  | [] => 0
  | (msleep ms, _) :: l' => ms + total_sleep l'
  | _ :: l' => total_sleep l'
  end.

(** The reads of the active transport ID. *)
Definition is_tsid_read (c : hw_call) : bool :=
  match c with
  | tc90522_get_tsid_s => true
  | _ => false
  end.

(** How a trace [l] of a function that returned [res] treats lock queries
    that fail, [n] being the number of attempts: a failed query is followed
    by a sleep of 10 ms; then comes the next query, unless the failed one
    was the [n]th, in which case the function made no further call and
    returned the status of that query. *)
Definition retries_after_failure (n : Z) (l : list event) (res : Z) : Prop :=
  forall pre c r post,
    l = pre ++ (c, r) :: post -> is_pll_query c = true -> ret r <> 0 ->
    exists rs post',
      post = (msleep 10, rs) :: post' /\
      (count_polls pre < n - 1 ->
       exists r' post'', post' = (c, r') :: post'') /\
      (n - 1 <= count_polls pre -> post' = [] /\ res = ret r).

(** Calls that reach a demodulator register. *)
Definition is_demod_access (c : hw_call) : bool :=
  match c with
  | tc90522_write_reg _ _ _ | tc90522_set_agc_t _ | tc90522_set_agc_s _
  | tc90522_sleep_t _ | tc90522_sleep_s _
  | tc90522_enable_ts_pins_t _ | tc90522_enable_ts_pins_s _
  | tc90522_tmcc_get_tsid_s _ | tc90522_set_tsid_s _ | tc90522_get_tsid_s
      => true
  | _ => false
  end.

(** Calls that write hardware registers (of a demodulator or a tuner). *)
Definition is_register_write (c : hw_call) : bool :=
  match c with
  | tc90522_write_reg _ _ _ | tc90522_set_agc_t _ | tc90522_set_agc_s _
  | tc90522_sleep_t _ | tc90522_sleep_s _
  | tc90522_enable_ts_pins_t _ | tc90522_enable_ts_pins_s _
  | tc90522_set_tsid_s _
  | r850_wakeup | r850_set_frequency _ | rt710_set_params _ _ _ => true
  | _ => false
  end.

Section Driver.

(** The chips and the bus are outside this file: they are a device state
    [D] and what each call answers in it. *)
Context {D : Type} (respond : hw_call -> D -> reply * D).

(** A driver function runs in a device state and yields its result, the
    device state it leaves and the calls it made, in order. *)
Definition M (A : Type) : Type := D -> A * D * list event.

Definition ret_ {A : Type} (a : A) : M A := fun d => (a, d, []).

Definition bind {A B : Type} (m : M A) (k : A -> M B) : M B :=
  fun d =>
    let '(a, d1, l1) := m d in
    let '(b, d2, l2) := k a d1 in
    (b, d2, l1 ++ l2).

Definition call (c : hw_call) : M reply :=
  fun d => let (r, d') := respond c d in (r, d', [(c, r)]).

(** [ret = c; if (ret) break;] followed by [k]: after a failed call the
    function is left with [ret]. *)
Definition try_ (c : hw_call) (k : M Z) : M Z :=
  bind (call c) (fun r => if ret r =? 0 then k else ret_ (ret r)).

Definition result {A : Type} (x : A * D * list event) : A := fst (fst x).
Definition trace {A : Type} (x : A * D * list event) : list event := snd x.

(** When [m] returns 0 the calls it made are exactly [calls]. *)
Definition exactly (m : M Z) (calls : list hw_call) : Prop :=
  forall d, result (m d) = 0 -> map fst (trace (m d)) = calls.

(** When [m] returns 0 the calls it made end with [calls]. *)
Definition ends_with (m : M Z) (calls : list hw_call) : Prop :=
  forall d, result (m d) = 0 ->
            exists pre, map fst (trace (m d)) = pre ++ calls.

(** A run that gave up on the lock: it returned -EAGAIN after 50 lock
    queries and 500 ms of sleep. *)
Definition times_out (x : Z * D * list event) : Prop :=
  result x = - EAGAIN /\ count_polls (trace x) = 50 /\
  total_sleep (trace x) = 500.

(** [m] makes no lock query. *)
Definition no_pll_query (m : M Z) : Prop :=
  forall d, Forall (fun e => is_pll_query (fst e) = false) (trace (m d)).

Notation "x <- c1 ;; c2" := (bind c1 (fun x => c2))
  (at level 61, c1 at next level, right associativity).
Notation "' pat <- c1 ;; c2" :=
  (bind c1 (fun x => match x with pat => c2 end))
  (at level 61, pat pattern, c1 at next level, right associativity).
Notation "'check' c ;; k" := (try_ c k)
  (at level 61, c at next level, right associativity).

(** ** m1ur_chrdev_tune *)

(** [i = 50; while (i--) { ret = query(&tuner_locked); if (!ret &&
    tuner_locked) break; msleep(10); }].  Returns the final [ret] and
    [tuner_locked]. *)
Fixpoint pll_poll (i : nat) (query : hw_call) (ret0 : Z) (tuner_locked : bool)
  : M (Z * bool) :=
  match i with
  | O => ret_ (ret0, tuner_locked)
  | S i' =>
      r <- call query ;;
      let locked := match out r with
                    | Some v => negb (v =? 0)
                    | None => tuner_locked
                    end in
      if (ret r =? 0) && locked then ret_ (ret r, locked)
      else _ <- call (msleep 10) ;; pll_poll i' query (ret r) locked
  end.

(** The loop and the test that follows it, which the two cases of the
    switch repeat with their own query; [rest] is what the case does once
    the PLL is locked. *)
Definition pll_wait (query : hw_call) (tuner_locked : bool) (rest : M Z)
  : M Z :=
  ' (r, locked) <- pll_poll 50 query 0 tuner_locked ;;
  if negb (r =? 0) then ret_ r
  else if negb locked then ret_ (- EAGAIN)
  else rest.

(** [tuner_locked] is the indeterminate value of the uninitialised local. *)
Definition m1ur_chrdev_tune (params : ptx_tune_params) (tuner_locked : bool)
  : M Z :=
  match system params with
  | PTX_ISDB_T_SYSTEM =>
      check tc90522_write_reg TC90522_T 0x47 0x30 ;;
      check tc90522_set_agc_t false ;;
      check tc90522_sleep_s true ;;
      check tc90522_write_reg TC90522_T 0x0e 0x77 ;;
      check tc90522_write_reg TC90522_T 0x0f 0x10 ;;
      check tc90522_write_reg TC90522_T 0x71 0x20 ;;
      check tc90522_sleep_t false ;;
      check tc90522_write_reg TC90522_T 0x76 0x0c ;;
      check tc90522_write_reg TC90522_T 0x1f 0x30 ;;
      check r850_wakeup ;;
      check r850_set_frequency (freq params) ;;
      pll_wait r850_is_pll_locked tuner_locked (
        check tc90522_set_agc_t true ;;
        check tc90522_write_reg TC90522_T 0x71 0x01 ;;
        check tc90522_write_reg TC90522_T 0x72 0x25 ;;
        check tc90522_write_reg TC90522_T 0x75 0x00 ;;
        _ <- call (msleep 100) ;;
        ret_ 0)
  | PTX_ISDB_S_SYSTEM =>
      check tc90522_set_agc_s false ;;
      check tc90522_write_reg TC90522_T 0x0e 0x11 ;;
      check tc90522_write_reg TC90522_T 0x0f 0x70 ;;
      check tc90522_sleep_t true ;;
      check tc90522_write_reg TC90522_S 0x07 0x77 ;;
      check tc90522_write_reg TC90522_S 0x08 0x10 ;;
      check tc90522_sleep_s false ;;
      check tc90522_write_reg TC90522_S 0x04 0x02 ;;
      check tc90522_write_reg TC90522_S 0x8e 0x02 ;;
      check tc90522_write_reg TC90522_T 0x1f 0x20 ;;
      check rt710_set_params (freq params) 28860 4 ;;
      pll_wait rt710_is_pll_locked tuner_locked (
        _ <- call rt710_get_rf_signal_strength ;;
        check tc90522_set_agc_s true ;;
        ret_ 0)
  | PTX_UNSPECIFIED_SYSTEM => ret_ (- EINVAL)
  end.

(** ** m1ur_chrdev_set_stream_id *)

(** The first loop: [i = 100; while (i--) { ret = tc90522_tmcc_get_tsid_s
    (.., stream_id, &tsid); if ((!ret && tsid) || ret == -EINVAL) break;
    msleep(10); }]. *)
Fixpoint tmcc_poll (i : nat) (stream_id : Z) (ret0 tsid : Z) : M (Z * Z) :=
  match i with
  | O => ret_ (ret0, tsid)
  | S i' =>
      r <- call (tc90522_tmcc_get_tsid_s stream_id) ;;
      let tsid' := match out r with Some v => u16 v | None => tsid end in
      if ((ret r =? 0) && negb (tsid' =? 0)) || (ret r =? - EINVAL)
      then ret_ (ret r, tsid')
      else _ <- call (msleep 10) ;; tmcc_poll i' stream_id (ret r) tsid'
  end.

(** The second loop: [i = 100; while (i--) { ret = tc90522_get_tsid_s(..,
    &tsid2); if (!ret && tsid2 == tsid) break; msleep(10); }]. *)
Fixpoint tsid_poll (i : nat) (tsid : Z) (ret0 tsid2 : Z) : M (Z * Z) :=
  match i with
  | O => ret_ (ret0, tsid2)
  | S i' =>
      r <- call tc90522_get_tsid_s ;;
      let tsid2' := match out r with Some v => u16 v | None => tsid2 end in
      if (ret r =? 0) && (tsid2' =? tsid) then ret_ (ret r, tsid2')
      else _ <- call (msleep 10) ;; tsid_poll i' tsid (ret r) tsid2'
  end.

(** What follows once [tsid] is known: program it, then check the slot. *)
Definition set_and_check_tsid (tsid tsid2 : Z) : M Z :=
  check tc90522_set_tsid_s tsid ;;
  ' (r, tsid2') <- tsid_poll 100 tsid 0 tsid2 ;;
  ret_ (if negb (tsid2' =? tsid) then - EAGAIN else r).

(** [tsid] and [tsid2] are the indeterminate values of the uninitialised
    locals. *)
Definition m1ur_chrdev_set_stream_id (current_system : ptx_system_type)
  (stream_id : Z) (tsid tsid2 : Z) : M Z :=
  match current_system with
  | PTX_ISDB_S_SYSTEM =>
      if stream_id <? 12 then
        ' (r, tsid') <- tmcc_poll 100 stream_id 0 tsid ;;
        if negb (r =? 0) then ret_ r
        else if tsid' =? 0 then ret_ (- EAGAIN)
        else set_and_check_tsid tsid' tsid2
      else set_and_check_tsid stream_id tsid2
  | _ => ret_ (- EINVAL)
  end.

(** ** m1ur_chrdev_set_capture *)

(** The switch on [chrdev->current_system] that sets the TS output pins of
    the current demodulator; the status is that of the call, or 0. *)
Definition enable_ts_pins (current_system : ptx_system_type) (on : bool)
  : M Z :=
  match current_system with
  | PTX_ISDB_T_SYSTEM => r <- call (tc90522_enable_ts_pins_t on) ;; ret_ (ret r)
  | PTX_ISDB_S_SYSTEM => r <- call (tc90522_enable_ts_pins_s on) ;; ret_ (ret r)
  | PTX_UNSPECIFIED_SYSTEM => ret_ 0
  end.

Definition m1ur_chrdev_start_capture (current_system : ptx_system_type)
  (psb_purge_timeout : Z) (stream_ctx : m1ur_stream_context)
  : M (Z * m1ur_stream_context) :=
  r <- call (it930x_purge_psb psb_purge_timeout) ;;
  if negb (ret r =? 0) then ret_ (ret r, stream_ctx)
  else
    e <- enable_ts_pins current_system true ;;
    if negb (e =? 0) then
      _ <- enable_ts_pins current_system false ;;
      ret_ (e, stream_ctx)
    else
      let stream_ctx' := {| remain_buf := remain_buf stream_ctx;
                            remain_len := 0 |} in
      s <- call itedtv_bus_start_streaming ;;
      if negb (ret s =? 0) then
        _ <- enable_ts_pins current_system false ;;
        ret_ (ret s, stream_ctx')
      else ret_ (0, stream_ctx').

(** [available] is what [atomic_read(&m1ur->available)] reads. *)
Definition m1ur_chrdev_stop_capture (available : bool)
  (current_system : ptx_system_type) : M Z :=
  _ <- call itedtv_bus_stop_streaming ;;
  if negb available then ret_ 0
  else
    _ <- enable_ts_pins current_system false ;;
    ret_ 0.

Definition m1ur_chrdev_set_capture (status : bool) (available : bool)
  (current_system : ptx_system_type) (psb_purge_timeout : Z)
  (stream_ctx : m1ur_stream_context) : M (Z * m1ur_stream_context) :=
  if status
  then m1ur_chrdev_start_capture current_system psb_purge_timeout stream_ctx
  else r <- m1ur_chrdev_stop_capture available current_system ;;
       ret_ (r, stream_ctx).

End Driver.

Arguments M D A : clear implicits.

(** ** Devices to run the driver on *)

(** A device that answers from a script: the [n]th call gets the [n]th
    reply, and [dflt] once the script is used up.  [msleep] takes none. *)
Definition scripted (dflt : reply) (c : hw_call) (script : list reply)
  : reply * list reply :=
  match c with
  | msleep _ => ({| ret := 0; out := None |}, script)
  | _ => match script with
         | [] => (dflt, [])
         | r :: script' => (r, script')
         end
  end.

Definition ok : reply := {| ret := 0; out := None |}.
Definition locked : reply := {| ret := 0; out := Some 1 |}.
Definition unlocked : reply := {| ret := 0; out := Some 0 |}.
Definition failed : reply := {| ret := - EIO; out := None |}.

(** A device whose calls all succeed and whose tuners never lock. *)
Definition never_locks (c : hw_call) (d : unit) : reply * unit :=
  (unlocked, tt).

End Control.

(** * What the sink and the callers can observe *)

Module Observed.

Import Stream Control.

(** The blocks [blks] are successive pieces of the window [w], in the order
    of the window and without overlap, and [rest] is what is left of the
    window behind the last of them: bytes of [w] may be dropped before a
    piece, none is added, repeated or moved. *)
Inductive pieces_of : list Z -> list (list Z) -> list Z -> Prop :=
| pieces_rest w : pieces_of w [] w
| pieces_drop b w blks rest :
    pieces_of w blks rest -> pieces_of (b :: w) blks rest
| pieces_block blk w blks rest :
    pieces_of w blks rest -> pieces_of (blk ++ w) (blk :: blks) rest.

(** The calls of a tune whose status the code tests at once, leaving the
    function when it is not 0: all but the lock queries, which are
    repeated, and the calls whose status is not looked at
    ([rt710_get_rf_signal_strength], [msleep]). *)
Definition is_checked (c : hw_call) : bool :=
  match c with
  | r850_is_pll_locked | rt710_is_pll_locked
  | rt710_get_rf_signal_strength | msleep _ => false
  | _ => true
  end.

(** In the trace [l] of a function that returned [res], a checked call that
    failed is the last call, and its status is what the function
    returned. *)
Definition stops_at_failure (l : list event) (res : Z) : Prop :=
  forall pre c r post,
    l = pre ++ (c, r) :: post -> is_checked c = true -> ret r <> 0 ->
    post = [] /\ res = ret r.

(** The trace [l] holds a lock query that succeeded and did not store
    "not locked", and no lock query after it. *)
Definition lock_seen (l : list event) : Prop :=
  exists pre c r post,
    l = pre ++ (c, r) :: post /\ is_pll_query c = true /\
    ret r = 0 /\ out r <> Some 0 /\ count_polls post = 0.

(** The calls that program or read the transport ID. *)
Definition is_tmcc_read (c : hw_call) : bool :=
  match c with
  | tc90522_tmcc_get_tsid_s _ => true
  | _ => false
  end.

Definition is_tsid_write (c : hw_call) : bool :=
  match c with
  | tc90522_set_tsid_s _ => true
  | _ => false
  end.

Definition count_calls (p : hw_call -> bool) (l : list event) : Z :=
  Z.of_nat (length (filter (fun e => p (fst e)) l)).

(** The local [tsid2] after the calls of [l], [tsid2] being what it held
    before them: every [tc90522_get_tsid_s] that stores an ID stores it
    there. *)
Fixpoint last_tsid2 (tsid2 : Z) (l : list event) : Z :=
  match l with
  | [] => tsid2
  | (tc90522_get_tsid_s, r) :: l' =>
      last_tsid2 (match out r with Some v => u16 v | None => tsid2 end) l'
  | _ :: l' => last_tsid2 tsid2 l'
  end.

(** The trace [l] holds at most [tmcc] reads of the TMCC, [reads] reads and
    [writes] writes of the active transport ID, and sleeps of at most
    [sleep] ms in all. *)
Definition within (l : list event) (tmcc reads writes sleep : Z) : Prop :=
  count_calls is_tmcc_read l <= tmcc /\
  count_calls is_tsid_read l <= reads /\
  count_calls is_tsid_write l <= writes /\
  total_sleep l <= sleep.

(** Every transport ID that is written in [l] is one that [good] allows. *)
Definition writes_only (good : Z -> Prop) (l : list event) : Prop :=
  forall t r, In (tc90522_set_tsid_s t, r) l -> good t.

(** The call that sets the TS output pins of the demodulator of
    [current_system], if there is one. *)
Definition ts_pins (current_system : ptx_system_type) (on : bool)
  : list hw_call :=
  match current_system with
  | PTX_ISDB_T_SYSTEM => [tc90522_enable_ts_pins_t on]
  | PTX_ISDB_S_SYSTEM => [tc90522_enable_ts_pins_s on]
  | PTX_UNSPECIFIED_SYSTEM => []
  end.

End Observed.

(** * Power, open and close, attach and detach *)

Module Lifecycle.

Import Stream Control.

Definition u8 (x : Z) : Z := x mod 2 ^ 8.

Definition ENOMEM : Z := 12.

(** ** The structures that this file fills in

    The structures are declared in headers outside this file; they are given
    here with the fields that this file assigns.  The [dev] back-references
    are left out. *)

(** The I2C masters that a chip can hang on: [&it930x->i2c_master[n]] and
    the masters that the two demodulators offer to their tuners. *)
Inductive i2c_comm_master : Type :=
| it930x_i2c_master (n : Z)
| tc90522_t_i2c_master
| tc90522_s_i2c_master.

Module IT930X.

Record it930x_stream_input : Type := {
  enable : bool;
  is_parallel : bool;
  port_number : Z;
  slave_number : Z;
  i2c_bus : Z;
  i2c_addr : Z;
  packet_len : Z;
  sync_byte : Z
}.

End IT930X.

Module TC90522.

Record tc90522_demod : Type := {
  i2c : option i2c_comm_master;
  i2c_addr : Z;
  is_secondary : bool
}.

End TC90522.

Module R850.

Record r850_config : Type := {
  xtal : Z;
  loop_through : bool;
  clock_out : bool;
  no_imr_calibration : bool;
  no_lpf_calibration : bool
}.

Record r850_tuner : Type := {
  i2c : option i2c_comm_master;
  i2c_addr : Z;
  config : r850_config
}.

(** The enumerators of r850.h that this file names. *)
Inductive r850_system : Type := R850_SYSTEM_ISDB_T.
Inductive r850_bandwidth : Type := R850_BANDWIDTH_6M.

Record r850_system_config : Type := {
  system : r850_system;
  bandwidth : r850_bandwidth;
  if_freq : Z
}.

End R850.

Module RT710.

(** The enumerators of rt710.h that this file names. *)
Inductive rt710_signal_output_mode : Type := RT710_SIGNAL_OUTPUT_DIFFERENTIAL.
Inductive rt710_agc_mode : Type := RT710_AGC_POSITIVE.
Inductive rt710_vga_atten_mode : Type := RT710_VGA_ATTEN_OFF.
Inductive rt710_fine_gain : Type := RT710_FINE_GAIN_3DB.
Inductive rt710_scan_mode : Type := RT710_SCAN_MANUAL.

Record rt710_config : Type := {
  xtal : Z;
  loop_through : bool;
  clock_out : bool;
  signal_output_mode : rt710_signal_output_mode;
  agc_mode : rt710_agc_mode;
  vga_atten_mode : rt710_vga_atten_mode;
  fine_gain : rt710_fine_gain;
  scan_mode : rt710_scan_mode
}.

Record rt710_tuner : Type := {
  i2c : option i2c_comm_master;
  i2c_addr : Z;
  config : rt710_config
}.

End RT710.

(** [struct m1ur_device], with [chrdevm1ur] and [it930x.config.input] laid
    out in it.  [input] is an array declared outside this file: it is the
    map from its indices to its elements, and no index is checked.  The
    bridge, the bus and the stream context are reached through calls. *)
Record m1ur_device : Type := {
  kref : Z;
  available : bool;
  input : Z -> IT930X.it930x_stream_input;
  tc90522_t : TC90522.tc90522_demod;
  tc90522_s : TC90522.tc90522_demod;
  r850 : R850.r850_tuner;
  rt710 : RT710.rt710_tuner
}.

Definition set_kref (k : Z) (m1ur : m1ur_device) : m1ur_device :=
  {| kref := k; available := available m1ur; input := input m1ur;
     tc90522_t := tc90522_t m1ur; tc90522_s := tc90522_s m1ur;
     r850 := r850 m1ur; rt710 := rt710 m1ur |}.

Definition set_available (a : bool) (m1ur : m1ur_device) : m1ur_device :=
  {| kref := kref m1ur; available := a; input := input m1ur;
     tc90522_t := tc90522_t m1ur; tc90522_s := tc90522_s m1ur;
     r850 := r850 m1ur; rt710 := rt710 m1ur |}.

(** [struct tc90522_regbuf] as the two tables fill it: the register and the
    value written to it. *)
Definition tc_init_t : list (Z * Z) :=
  [(0xb0, 0xa0); (0xb2, 0x3d); (0xb3, 0x25); (0xb4, 0x8b);
   (0xb5, 0x4b); (0xb6, 0x3f); (0xb7, 0xff); (0xb8, 0xc0)].

Definition tc_init_s : list (Z * Z) :=
  [(0x15, 0x00); (0x1d, 0x00)].

(** ** The calls *)

(** The calls that the power, open, close, attach and detach paths make
    into the chip and bus drivers and into the kernel, with the arguments
    that this file chooses.  [chip] holds the calls that the control plane
    makes as well.  [it930x_set_gpio_mode] is always called with
    [IT930X_GPIO_OUT], [it930x_load_firmware] with
    [IT930X_FIRMWARE_FILENAME]; [ptx_chrdev_context_add_group] is given the
    capabilities that [m1ur_device_load_config] has stored. *)
Inductive sys_call : Type :=
| chip (c : hw_call)
| it930x_write_gpio (pin : Z) (high : bool)
| it930x_set_gpio_mode (pin : Z) (enable : bool)
| tc90522_init (d : demod)
| tc90522_term (d : demod)
| r850_init
| r850_term
| rt710_init
| rt710_term
| tc90522_write_multiple_regs (d : demod) (regs : list (Z * Z))
| r850_set_system (sys : R850.r850_system_config)
| tc90522_get_cndat_t
| tc90522_get_cn_s
| it930x_read_reg (reg : Z)
| get_device
| put_device
| kzalloc
| kfree
| itedtv_bus_init
| itedtv_bus_term
| it930x_init
| it930x_term
| it930x_raise
| it930x_load_firmware
| it930x_init_warm
| it930x_set_pid_filter (idx : Z) (block : bool) (pid : list Z)
| ptx_chrdev_context_add_group (system_cap : list ptx_system_type)
| ptx_chrdev_group_destroy
| complete.

Abbreviation sys_event := (sys_call * reply)%type.

Definition is_gpio_write (c : sys_call) : bool :=
  match c with
  | it930x_write_gpio _ _ => true
  | _ => false
  end.

(** The calls that give back what the attach path has taken. *)
Definition is_undo (c : sys_call) : bool :=
  match c with
  | it930x_term | itedtv_bus_term | kfree | put_device => true
  | _ => false
  end.

Definition is_complete (c : sys_call) : bool :=
  match c with
  | complete => true
  | _ => false
  end.

(** The call [c] was made in [l] and, by [good], went well. *)
Definition went_well (p : sys_call -> bool) (good : reply -> bool)
  (l : list sys_event) : bool :=
  existsb (fun e => p (fst e) && good (snd e)) l.

Definition status_ok (r : reply) : bool := ret r =? 0.
Definition non_null (r : reply) : bool := negb (ret r =? 0).

Definition is_kzalloc (c : sys_call) : bool :=
  match c with kzalloc => true | _ => false end.
Definition is_bus_init (c : sys_call) : bool :=
  match c with itedtv_bus_init => true | _ => false end.
Definition is_bridge_init (c : sys_call) : bool :=
  match c with it930x_init => true | _ => false end.

(** What the attach path has to give back after the calls [l], last taken
    first. *)
Definition undo_of (l : list sys_event) : list sys_call :=
  (if went_well is_bridge_init status_ok l then [it930x_term] else [])
  ++ (if went_well is_bus_init status_ok l then [itedtv_bus_term] else [])
  ++ (if went_well is_kzalloc non_null l then [kfree] else [])
  ++ [put_device].

(** The calls of the paths, in the order in which the code makes them. *)
Definition power_on_calls : list sys_call :=
  [it930x_write_gpio 3 false; chip (msleep 100);
   it930x_write_gpio 2 true; chip (msleep 20)].

Definition power_off_calls (available : bool) : list sys_call :=
  if available
  then [it930x_write_gpio 2 false; it930x_write_gpio 3 true]
  else [].

Definition chip_inits : list sys_call :=
  [tc90522_init TC90522_T; tc90522_init TC90522_S; r850_init; rt710_init].

Definition chip_terms : list sys_call :=
  [r850_term; rt710_term; tc90522_term TC90522_T; tc90522_term TC90522_S].

Definition demod_setup : list sys_call :=
  [tc90522_write_multiple_regs TC90522_T tc_init_t;
   chip (tc90522_enable_ts_pins_t false);
   chip (tc90522_sleep_t true);
   r850_set_system {| R850.system := R850.R850_SYSTEM_ISDB_T;
                      R850.bandwidth := R850.R850_BANDWIDTH_6M;
                      R850.if_freq := 4063 |};
   tc90522_write_multiple_regs TC90522_S tc_init_s;
   chip (tc90522_enable_ts_pins_s false);
   chip (tc90522_sleep_s true)].

Definition release_calls : list sys_call :=
  [it930x_term; itedtv_bus_term; kfree; put_device; complete].

Definition attach_calls (discard_null_packets : bool)
  (system_cap : list ptx_system_type) : list sys_call :=
  [get_device; kzalloc; itedtv_bus_init; it930x_init; it930x_raise;
   it930x_read_reg 0x4979; it930x_load_firmware; it930x_init_warm;
   it930x_set_gpio_mode 3 true; it930x_write_gpio 3 true;
   it930x_set_gpio_mode 2 true; it930x_write_gpio 2 false]
  ++ (if discard_null_packets
      then [it930x_set_pid_filter 0 true [0x1fff]]
      else [])
  ++ [ptx_chrdev_context_add_group system_cap].

(** What [m1ur_chrdev_open] calls behind the call [failed] that made it
    fail: the labels [fail_backend] and [fail_backend_init] are reached
    from the first table of registers and from the initialisation of the
    chips only. *)
Definition open_undo (available : bool) (failed : sys_call)
  : list sys_call :=
  match failed with
  | tc90522_init _ | r850_init | rt710_init => power_off_calls available
  | tc90522_write_multiple_regs TC90522_T _ =>
      chip_terms ++ power_off_calls available
  | _ => []
  end.

(** The calls whose status is not looked at. *)
Definition is_sleep (c : sys_call) : bool :=
  match c with
  | chip (msleep _) => true
  | _ => false
  end.

(** Every call of [l] but the sleeps returned 0. *)
Definition all_well (l : list sys_event) : Prop :=
  Forall (fun e => is_sleep (fst e) = false -> ret (snd e) = 0) l.

Section Backend.

Context {D : Type} (respond : sys_call -> D -> reply * D).

(** A function of these paths runs in a device state and yields its result,
    the device state it leaves and the calls it made, in order. *)
Definition Proc (A : Type) : Type := D -> A * D * list sys_event.

Definition pure {A : Type} (a : A) : Proc A := fun d => (a, d, []).

Definition and_then {A B : Type} (m : Proc A) (k : A -> Proc B) : Proc B :=
  fun d =>
    let '(a, d1, l1) := m d in
    let '(b, d2, l2) := k a d1 in
    (b, d2, l1 ++ l2).

Definition sys (c : sys_call) : Proc reply :=
  fun d => let (r, d') := respond c d in (r, d', [(c, r)]).

(** [ret = c; if (ret) return ret;] followed by [k]. *)
Definition sys_try (c : sys_call) (k : Proc Z) : Proc Z :=
  and_then (sys c) (fun r => if ret r =? 0 then k else pure (ret r)).

Definition returned {A : Type} (x : A * D * list sys_event) : A := fst (fst x).
Definition events {A : Type} (x : A * D * list sys_event) : list sys_event :=
  snd x.
Definition calls {A : Type} (x : A * D * list sys_event) : list sys_call :=
  map fst (snd x).
Definition device_after {A : Type} (x : A * D * list sys_event) : D :=
  snd (fst x).

Notation "x <- c1 ;; c2" := (and_then c1 (fun x => c2))
  (at level 61, c1 at next level, right associativity).
Notation "' pat <- c1 ;; c2" :=
  (and_then c1 (fun x => match x with pat => c2 end))
  (at level 61, pat pattern, c1 at next level, right associativity).
Notation "'check' c ;; k" := (sys_try c k)
  (at level 61, c at next level, right associativity).

(** ** m1ur_backend_set_power, m1ur_backend_init, m1ur_backend_term *)

(** [available] is what [atomic_read(&m1ur->available)] reads. *)
Definition m1ur_backend_set_power (available : bool) (state : bool)
  : Proc Z :=
  if negb state && negb available then pure 0
  else if state then
    check it930x_write_gpio 3 false ;;
    _ <- sys (chip (msleep 100)) ;;
    check it930x_write_gpio 2 true ;;
    _ <- sys (chip (msleep 20)) ;;
    pure 0
  else
    _ <- sys (it930x_write_gpio 2 false) ;;
    _ <- sys (it930x_write_gpio 3 true) ;;
    pure 0.

Definition m1ur_backend_init : Proc Z :=
  check tc90522_init TC90522_T ;;
  check tc90522_init TC90522_S ;;
  check r850_init ;;
  check rt710_init ;;
  pure 0.

Definition m1ur_backend_term : Proc Z :=
  _ <- sys r850_term ;;
  _ <- sys rt710_term ;;
  _ <- sys (tc90522_term TC90522_T) ;;
  _ <- sys (tc90522_term TC90522_S) ;;
  pure 0.

(** ** m1ur_device_release and the reference count *)

Definition m1ur_device_release : Proc unit :=
  _ <- sys it930x_term ;;
  _ <- sys itedtv_bus_term ;;
  _ <- sys kfree ;;
  _ <- sys put_device ;;
  _ <- sys complete ;;
  pure tt.

(** Modelled from the spec: [struct kref] and its functions are declared
    outside this file.  The device handle has "a reference count"; the
    "final resource release ... occurs exactly once, triggered by the
    reference count reaching zero".  [kref_init] sets the count to 1,
    [kref_get] adds 1 to it, and [kref_put] takes 1 from it and runs
    [release] when that makes it 0. *)
Definition kref_init (m1ur : m1ur_device) : m1ur_device := set_kref 1 m1ur.

Definition kref_get (m1ur : m1ur_device) : m1ur_device :=
  set_kref (kref m1ur + 1) m1ur.

Definition kref_put (m1ur : m1ur_device) (release : Proc unit)
  : Proc m1ur_device :=
  if kref m1ur - 1 =? 0
  then _ <- release ;; pure (set_kref (kref m1ur - 1) m1ur)
  else pure (set_kref (kref m1ur - 1) m1ur).

(** ** m1ur_chrdev_open, m1ur_chrdev_release *)

(** The steps of [m1ur_chrdev_open] that leave it with [return ret]. *)
Definition open_demods : Proc Z :=
  check chip (tc90522_enable_ts_pins_t false) ;;
  check chip (tc90522_sleep_t true) ;;
  check r850_set_system {| R850.system := R850.R850_SYSTEM_ISDB_T;
                           R850.bandwidth := R850.R850_BANDWIDTH_6M;
                           R850.if_freq := 4063 |} ;;
  check tc90522_write_multiple_regs TC90522_S tc_init_s ;;
  check chip (tc90522_enable_ts_pins_s false) ;;
  check chip (tc90522_sleep_s true) ;;
  pure 0.

Definition m1ur_chrdev_open (m1ur : m1ur_device) : Proc (Z * m1ur_device) :=
  e <- m1ur_backend_set_power (available m1ur) true ;;
  if negb (e =? 0) then pure (e, m1ur)                (* fail_backend_power *)
  else
    e <- m1ur_backend_init ;;
    if negb (e =? 0) then                             (* fail_backend_init *)
      _ <- m1ur_backend_set_power (available m1ur) false ;;
      pure (e, m1ur)
    else
      r <- sys (tc90522_write_multiple_regs TC90522_T tc_init_t) ;;
      if negb (ret r =? 0) then                       (* fail_backend *)
        _ <- m1ur_backend_term ;;
        _ <- m1ur_backend_set_power (available m1ur) false ;;
        pure (ret r, m1ur)
      else
        e <- open_demods ;;
        if negb (e =? 0) then pure (e, m1ur)          (* return ret *)
        else pure (0, kref_get m1ur).

Definition m1ur_chrdev_release (m1ur : m1ur_device)
  : Proc (Z * m1ur_device) :=
  _ <- m1ur_backend_term ;;
  _ <- m1ur_backend_set_power (available m1ur) false ;;
  m1ur' <- kref_put m1ur m1ur_device_release ;;
  pure (0, m1ur').

(** ** m1ur_chrdev_read_cnr_raw *)

(** The [u32] at [value] after the [u16] that [tc90522_get_cn_s] stores
    through [value] cast to a pointer to [u16]: the store replaces the two bytes at the lowest
    addresses, which are the low half of the [u32] on a little-endian
    machine and its high half on a big-endian one. *)
Definition store_u16_in_u32 (little_endian : bool) (value v : Z) : Z :=
  if little_endian
  then (u32 value / 2 ^ 16) * 2 ^ 16 + u16 v
  else u16 v * 2 ^ 16 + u32 value mod 2 ^ 16.

(** [value] is what [*value] holds before the call. *)
Definition m1ur_chrdev_read_cnr_raw (little_endian : bool)
  (current_system : ptx_system_type) (value : Z) : Proc (Z * Z) :=
  match current_system with
  | PTX_ISDB_T_SYSTEM =>
      r <- sys tc90522_get_cndat_t ;;
      pure (ret r, match out r with Some v => u32 v | None => value end)
  | PTX_ISDB_S_SYSTEM =>
      r <- sys tc90522_get_cn_s ;;
      pure (ret r, match out r with
                   | Some v => store_u16_in_u32 little_endian value v
                   | None => value
                   end)
  | PTX_UNSPECIFIED_SYSTEM => pure (- EINVAL, value)
  end.

(** ** m1ur_device_load_config *)

(** The assignments that follow the check of the EEPROM. *)
Definition configured (m1ur : m1ur_device) : m1ur_device :=
  let input0 := {| IT930X.enable := true;
                   IT930X.is_parallel := false;
                   IT930X.port_number := 0;
                   IT930X.slave_number := 0;
                   IT930X.i2c_bus := 3;
                   IT930X.i2c_addr := 0x10;
                   IT930X.packet_len := 188;
                   IT930X.sync_byte := 0x47 |} in
  let others (old : IT930X.it930x_stream_input) (i : Z) :=
    {| IT930X.enable := false;
       IT930X.is_parallel := IT930X.is_parallel old;
       IT930X.port_number := i;
       IT930X.slave_number := IT930X.slave_number old;
       IT930X.i2c_bus := IT930X.i2c_bus old;
       IT930X.i2c_addr := IT930X.i2c_addr old;
       IT930X.packet_len := IT930X.packet_len old;
       IT930X.sync_byte := IT930X.sync_byte old |} in
  {| kref := kref m1ur;
     available := available m1ur;
     input := fun i =>
       if i =? 0 then input0
       else if (1 <=? i) && (i <? 5) then others (input m1ur i) i
       else input m1ur i;
     tc90522_t := {| TC90522.i2c := Some (it930x_i2c_master 2);
                     TC90522.i2c_addr := 0x10;
                     TC90522.is_secondary := false |};
     tc90522_s := {| TC90522.i2c := Some (it930x_i2c_master 2);
                     TC90522.i2c_addr := 0x11;
                     TC90522.is_secondary := false |};
     r850 := {| R850.i2c := Some tc90522_t_i2c_master;
                R850.i2c_addr := 0x7c;
                R850.config :=
                  {| R850.xtal := 24000;
                     R850.loop_through := false;
                     R850.clock_out := false;
                     R850.no_imr_calibration := true;
                     R850.no_lpf_calibration := true |} |};
     rt710 := {| RT710.i2c := Some tc90522_s_i2c_master;
                 RT710.i2c_addr := 0x7a;
                 RT710.config :=
                   {| RT710.xtal := 24000;
                      RT710.loop_through := false;
                      RT710.clock_out := false;
                      RT710.signal_output_mode :=
                        RT710.RT710_SIGNAL_OUTPUT_DIFFERENTIAL;
                      RT710.agc_mode := RT710.RT710_AGC_POSITIVE;
                      RT710.vga_atten_mode := RT710.RT710_VGA_ATTEN_OFF;
                      RT710.fine_gain := RT710.RT710_FINE_GAIN_3DB;
                      RT710.scan_mode := RT710.RT710_SCAN_MANUAL |} |} |}.

(** Modelled from the spec: [chrdev_config->system_cap] is "a capability
    bitset of supported standards"; the values of the enumerators that the
    code ors together are declared outside this file, so the bitset is the
    list of its members.

    [tmp] and [system_cap] are what the uninitialised local [tmp] and the
    caller's [chrdev_config] hold before the call. *)
Definition m1ur_device_load_config (tmp : Z)
  (system_cap : list ptx_system_type) (m1ur : m1ur_device)
  : Proc (Z * list ptx_system_type * m1ur_device) :=
  r <- sys (it930x_read_reg 0x4979) ;;
  let tmp' := match out r with Some v => u8 v | None => u8 tmp end in
  if negb (ret r =? 0) then pure (ret r, system_cap, m1ur)
  else if tmp' =? 0 then pure (ret r, system_cap, m1ur)
  else pure (0, [PTX_ISDB_T_SYSTEM; PTX_ISDB_S_SYSTEM], configured m1ur).

(** ** m1ur_device_init, m1ur_device_term *)

(** The labels at the end of [m1ur_device_init]. *)
Definition fail (e : Z) (m1ur : m1ur_device) : Proc (Z * m1ur_device) :=
  _ <- sys put_device ;; pure (e, m1ur).

Definition fail_bus (e : Z) (m1ur : m1ur_device) : Proc (Z * m1ur_device) :=
  _ <- sys kfree ;; fail e m1ur.

Definition fail_bridge (e : Z) (m1ur : m1ur_device)
  : Proc (Z * m1ur_device) :=
  _ <- sys itedtv_bus_term ;; fail_bus e m1ur.

Definition fail_device (e : Z) (m1ur : m1ur_device)
  : Proc (Z * m1ur_device) :=
  _ <- sys it930x_term ;; fail_bridge e m1ur.

(** [ret = c; if (ret) goto fail_device;] followed by [k]. *)
Definition or_fail_device (c : sys_call) (m1ur : m1ur_device)
  (k : Proc (Z * m1ur_device)) : Proc (Z * m1ur_device) :=
  r <- sys c ;;
  if negb (ret r =? 0) then fail_device (ret r) m1ur else k.

(** [m1ur_p], [dev], [chrdev_ctx] and [quit_completion] tell whether the
    pointer of that name is not NULL; [discard_null_packets] is the module
    parameter; [kzalloc] answers the pointer it returns in [ret], 0 being
    NULL; [tmp] and [system_cap] are as for [m1ur_device_load_config]. *)
Definition m1ur_device_init (m1ur_p dev chrdev_ctx quit_completion : bool)
  (discard_null_packets : bool) (tmp : Z)
  (system_cap : list ptx_system_type) (m1ur : m1ur_device)
  : Proc (Z * m1ur_device) :=
  if negb m1ur_p || negb dev || negb chrdev_ctx || negb quit_completion
  then pure (- EINVAL, m1ur)
  else
    _ <- sys get_device ;;
    let m1ur := kref_init m1ur in
    p <- sys kzalloc ;;
    if ret p =? 0 then fail (- ENOMEM) m1ur
    else
      b <- sys itedtv_bus_init ;;
      if negb (ret b =? 0) then fail_bus (ret b) m1ur
      else
        b <- sys it930x_init ;;
        if negb (ret b =? 0) then fail_bridge (ret b) m1ur
        else
          or_fail_device it930x_raise m1ur (
            ' (e, system_cap, m1ur) <-
              m1ur_device_load_config tmp system_cap m1ur ;;
            if negb (e =? 0) then fail_device e m1ur
            else
              or_fail_device it930x_load_firmware m1ur (
              or_fail_device it930x_init_warm m1ur (
              or_fail_device (it930x_set_gpio_mode 3 true) m1ur (
              or_fail_device (it930x_write_gpio 3 true) m1ur (
              or_fail_device (it930x_set_gpio_mode 2 true) m1ur (
              or_fail_device (it930x_write_gpio 2 false) m1ur (
                let add_group :=
                  or_fail_device (ptx_chrdev_context_add_group system_cap)
                    m1ur (pure (0, set_available true m1ur)) in
                if discard_null_packets
                then or_fail_device (it930x_set_pid_filter 0 true [0x1fff])
                       m1ur add_group
                else add_group))))))).

Definition m1ur_device_term (m1ur : m1ur_device) : Proc m1ur_device :=
  let m1ur := set_available false m1ur in
  _ <- sys ptx_chrdev_group_destroy ;;
  kref_put m1ur m1ur_device_release.

(** ** A device handle in use *)

(** What the character-device layer and the bus driver do with an attached
    device: sessions are opened and closed, and the device is detached. *)
Inductive operation : Type := Open | Close | Detach.

Definition operate (o : operation) (m1ur : m1ur_device) : Proc m1ur_device :=
  match o with
  | Open => ' (_, m1ur') <- m1ur_chrdev_open m1ur ;; pure m1ur'
  | Close => ' (_, m1ur') <- m1ur_chrdev_release m1ur ;; pure m1ur'
  | Detach => m1ur_device_term m1ur
  end.

Fixpoint operate_all (os : list operation) (m1ur : m1ur_device)
  : Proc m1ur_device :=
  match os with
  | [] => pure m1ur
  | o :: os' => m1ur' <- operate o m1ur ;; operate_all os' m1ur'
  end.

End Backend.

Arguments Proc D A : clear implicits.

(** ** Devices to run these paths on *)

(** A device that answers from a script, as [Control.scripted] does. *)
Definition sys_scripted (dflt : reply) (c : sys_call) (script : list reply)
  : reply * list reply :=
  match c with
  | chip (msleep _) => ({| ret := 0; out := None |}, script)
  | _ => match script with
         | [] => (dflt, [])
         | r :: script' => (r, script')
         end
  end.

(** A device on which every call succeeds: [kzalloc] returns memory and the
    EEPROM byte reads as [eeprom]. *)
Definition healthy (eeprom : Z) (c : sys_call) (d : unit) : reply * unit :=
  match c with
  | kzalloc => ({| ret := 1; out := None |}, tt)
  | it930x_read_reg _ => ({| ret := 0; out := Some eeprom |}, tt)
  | _ => (ok, tt)
  end.

(** A device handle as the caller's zeroed memory holds it. *)
Definition zeroed : m1ur_device :=
  let zero_input := {| IT930X.enable := false;
                       IT930X.is_parallel := false;
                       IT930X.port_number := 0;
                       IT930X.slave_number := 0;
                       IT930X.i2c_bus := 0;
                       IT930X.i2c_addr := 0;
                       IT930X.packet_len := 0;
                       IT930X.sync_byte := 0 |} in
  {| kref := 0;
     available := false;
     input := fun _ => zero_input;
     tc90522_t := {| TC90522.i2c := None; TC90522.i2c_addr := 0;
                     TC90522.is_secondary := false |};
     tc90522_s := {| TC90522.i2c := None; TC90522.i2c_addr := 0;
                     TC90522.is_secondary := false |};
     r850 := {| R850.i2c := None; R850.i2c_addr := 0;
                R850.config := {| R850.xtal := 0;
                                  R850.loop_through := false;
                                  R850.clock_out := false;
                                  R850.no_imr_calibration := false;
                                  R850.no_lpf_calibration := false |} |};
     rt710 := {| RT710.i2c := None; RT710.i2c_addr := 0;
                 RT710.config :=
                   {| RT710.xtal := 0;
                      RT710.loop_through := false;
                      RT710.clock_out := false;
                      RT710.signal_output_mode :=
                        RT710.RT710_SIGNAL_OUTPUT_DIFFERENTIAL;
                      RT710.agc_mode := RT710.RT710_AGC_POSITIVE;
                      RT710.vga_atten_mode := RT710.RT710_VGA_ATTEN_OFF;
                      RT710.fine_gain := RT710.RT710_FINE_GAIN_3DB;
                      RT710.scan_mode := RT710.RT710_SCAN_MANUAL |} |} |}.

End Lifecycle.

Import Stream.

(** * The stream synchronizer *)

(** Settles a comparison of the code, [(x <=? y) = b] and the like, by
    linear arithmetic. *)
Ltac cmp :=
  symmetry;
  first [ apply Z.leb_le | apply Z.leb_gt | apply Z.ltb_lt | apply Z.ltb_ge
        | apply Z.eqb_eq | apply Z.eqb_neq ];
  (assumption || lia).

(** Unfolds the two constants of the synchronizer. *)
Ltac sync_size :=
  unfold M1UR_DEVICE_TS_SYNC_SIZE, M1UR_DEVICE_TS_SYNC_COUNT.


Section StreamBasics.

Lemma u32_small x : 0 <= x < 2 ^ 32 -> u32 x = x.
Proof. intros H. unfold u32. now apply Z.mod_small. Qed.

Lemma u32_range x : 0 <= u32 x < 2 ^ 32.
Proof. unfold u32. apply Z.mod_pos_bound. lia. Qed.

Lemma load_inside mem a :
  0 <= a < Z.of_nat (length mem) -> exists b, load mem a = Some b.
Proof.
  intros [H0 H1]. unfold load.
  destruct (a <? 0) eqn:E; [apply Z.ltb_lt in E; lia|].
  destruct (nth_error mem (Z.to_nat a)) eqn:N; [eauto|].
  apply nth_error_None in N. lia.
Qed.

Lemma load_outside mem a :
  Z.of_nat (length mem) <= a -> load mem a = None.
Proof.
  intros H. unfold load.
  destruct (a <? 0) eqn:E; [reflexivity|].
  apply nth_error_None. lia.
Qed.

Lemma load_some_inside mem a b :
  load mem a = Some b -> 0 <= a < Z.of_nat (length mem).
Proof.
  unfold load. destruct (a <? 0) eqn:E; [discriminate|].
  apply Z.ltb_ge in E. intros N.
  assert (nth_error mem (Z.to_nat a) <> None) as H by congruence.
  apply nth_error_Some in H. lia.
Qed.

Lemma bytes_at_some mem a n :
  0 <= a -> 0 <= n -> a + n <= Z.of_nat (length mem) ->
  bytes_at mem a n = Some (firstn (Z.to_nat n) (skipn (Z.to_nat a) mem)).
Proof.
  intros Ha Hn H. unfold bytes_at.
  replace (0 <=? a) with true by cmp.
  replace (0 <=? n) with true by cmp.
  replace (a + n <=? Z.of_nat (length mem)) with true by cmp.
  reflexivity.
Qed.

Lemma bytes_at_inv mem a n bs :
  bytes_at mem a n = Some bs ->
  0 <= a /\ 0 <= n /\ a + n <= Z.of_nat (length mem) /\
  bs = firstn (Z.to_nat n) (skipn (Z.to_nat a) mem).
Proof.
  unfold bytes_at.
  destruct (0 <=? a) eqn:E1; [|discriminate].
  destruct (0 <=? n) eqn:E2; [|discriminate].
  destruct (a + n <=? Z.of_nat (length mem)) eqn:E3; [|discriminate].
  simpl. intros [= <-].
  apply Z.leb_le in E1, E2, E3. auto.
Qed.

Lemma bytes_at_length mem a n bs :
  bytes_at mem a n = Some bs -> Z.of_nat (length bs) = n.
Proof.
  intros H. apply bytes_at_inv in H as (Ha & Hn & Hl & ->).
  rewrite length_firstn, length_skipn. lia.
Qed.

Lemma bytes_at_load mem a n bs k :
  bytes_at mem a n = Some bs -> 0 <= k < n ->
  load bs k = load mem (a + k).
Proof.
  intros H Hk. apply bytes_at_inv in H as (Ha & Hn & Hl & ->).
  unfold load.
  destruct (k <? 0) eqn:E1; [apply Z.ltb_lt in E1; lia|].
  destruct (a + k <? 0) eqn:E2; [apply Z.ltb_lt in E2; lia|].
  rewrite nth_error_firstn.
  destruct (Z.to_nat k <? Z.to_nat n)%nat eqn:E3;
    [|apply Nat.ltb_ge in E3; lia].
  rewrite nth_error_skipn. f_equal. lia.
Qed.

Lemma sync_scan_S fuel mem p remain i :
  sync_scan (S fuel) mem p remain i =
  if u32 ((i + 1) * 188) <=? remain then
    match load mem (p + u32 (i * 188)) with
    | None => Fault
    | Some b =>
        if b =? 0x47
        then sync_scan fuel mem p remain (u32 (i + 1))
        else Done (i, false)
    end
  else Done (i, true).
Proof. reflexivity. Qed.

Lemma process_loop_S n fuel mem p remain :
  process_loop n (S fuel) mem p remain =
  if remain =? 0 then Done ([], p, remain)
  else
    match sync_scan n mem p remain 0 with
    | Done (i, sync_remain) =>
        if i <? M1UR_DEVICE_TS_SYNC_COUNT
        then process_loop n fuel mem (p + 1) (u32 (remain - 1))
        else
          match ptx_chrdev_put_stream mem p (u32 (188 * i)) with
          | None => Fault
          | Some blk =>
              let p' := p + u32 (188 * i) in
              let remain' := u32 (remain - u32 (188 * i)) in
              if sync_remain then Done ([blk], p', remain')
              else
                match process_loop n fuel mem p' remain' with
                | Done (blks, q, r) => Done (blk :: blks, q, r)
                | Fault => Fault
                | Timeout => Timeout
                end
          end
    | Fault => Fault
    | Timeout => Timeout
    end.
Proof. reflexivity. Qed.

End StreamBasics.

(** ** Fuel *)

Section StreamFuel.

Lemma sync_scan_mono fuel : forall fuel' mem p remain i r,
  sync_scan fuel mem p remain i = Done r -> (fuel <= fuel')%nat ->
  sync_scan fuel' mem p remain i = Done r.
Proof.
  induction fuel as [|fuel IH]; intros fuel' mem p remain i r H Hle.
  - discriminate.
  - destruct fuel' as [|fuel']; [lia|].
    rewrite sync_scan_S in *.
    destruct (u32 ((i + 1) * 188) <=? remain); [|assumption].
    destruct (load mem (p + u32 (i * 188))) as [b|]; [|assumption].
    destruct (b =? 71); [|assumption].
    apply IH; [assumption|lia].
Qed.

Lemma process_loop_mono fuel : forall n n' fuel' mem p remain r,
  process_loop n fuel mem p remain = Done r ->
  (n <= n')%nat -> (fuel <= fuel')%nat ->
  process_loop n' fuel' mem p remain = Done r.
Proof.
  induction fuel as [|fuel IH]; intros n n' fuel' mem p remain r H Hn Hle.
  - discriminate.
  - destruct fuel' as [|fuel']; [lia|].
    rewrite process_loop_S in *.
    destruct (remain =? 0); [assumption|].
    destruct (sync_scan n mem p remain 0) as [[i sr]| |] eqn:Hs;
      try discriminate.
    rewrite (sync_scan_mono _ _ _ _ _ _ _ Hs Hn).
    destruct (i <? M1UR_DEVICE_TS_SYNC_COUNT).
    + apply (IH _ _ _ _ _ _ _ H Hn). lia.
    + destruct (ptx_chrdev_put_stream mem p (u32 (188 * i))) as [blk|];
        [|assumption].
      destruct sr; [assumption|].
      cbv zeta in H |- *.
      destruct (process_loop n fuel mem (p + u32 (188 * i))
                  (u32 (remain - u32 (188 * i)))) as [[[bs q] r']| |] eqn:Hp;
        try discriminate.
      rewrite (IH _ _ fuel' _ _ _ _ Hp Hn) by lia. assumption.
Qed.

Lemma stream_process_mono fuel fuel' mem p remain r :
  m1ur_device_stream_process fuel mem p remain = Done r ->
  (fuel <= fuel')%nat ->
  m1ur_device_stream_process fuel' mem p remain = Done r.
Proof.
  unfold m1ur_device_stream_process. intros H Hle.
  eapply process_loop_mono; eauto.
Qed.

End StreamFuel.

(** ** The scan, for every window *)

Section ScanExit.

(** Whatever the window, a scan that returns hands back a [u32] count [i]
    whose slot offset still lies in the window (unless it never moved), and
    reports [sync_remain] only when the next slot does not fit. *)
Lemma sync_scan_exit fuel : forall mem p remain i0 i sr,
  sync_scan fuel mem p remain i0 = Done (i, sr) ->
  0 <= i0 < 2 ^ 32 ->
  0 <= i < 2 ^ 32 /\
  (i = i0 \/ u32 (i * 188) <= remain) /\
  (sr = true -> remain < u32 ((i + 1) * 188)).
Proof.
  induction fuel as [|fuel IH]; intros mem p remain i0 i sr H Hi0.
  - discriminate.
  - rewrite sync_scan_S in H.
    destruct (u32 ((i0 + 1) * 188) <=? remain) eqn:E.
    + destruct (load mem (p + u32 (i0 * 188))) as [b|]; [|discriminate].
      destruct (b =? 71).
      * apply IH in H; [|apply u32_range].
        destruct H as (Hr & Hor & Hsr).
        split; [assumption|]. split; [|assumption].
        right. destruct Hor as [->|Hor]; [|assumption].
        apply Z.leb_le in E.
        unfold u32 in *. rewrite Z.mul_mod_idemp_l by lia. assumption.
      * injection H as <- <-.
        split; [assumption|]. split; [now left|]. discriminate.
    + injection H as <- <-. apply Z.leb_gt in E.
      split; [assumption|]. split; [now left|]. intros _. assumption.
Qed.

End ScanExit.

(** ** The pass, for every window *)

Section ProcessExit.

(** A pass that returns leaves less than one packet, wrap-around or not. *)
Lemma process_loop_exit fuel : forall n mem p remain blks q r,
  process_loop n fuel mem p remain = Done (blks, q, r) ->
  0 <= remain < 2 ^ 32 ->
  0 <= r < 188.
Proof.
  induction fuel as [|fuel IH]; intros n mem p remain blks q r H Hr.
  - discriminate.
  - rewrite process_loop_S in H.
    destruct (remain =? 0) eqn:E0.
    + apply Z.eqb_eq in E0. injection H as <- <- <-. lia.
    + destruct (sync_scan n mem p remain 0) as [[i sr]| |] eqn:Hs;
        try discriminate.
      apply sync_scan_exit in Hs; [|lia].
      destruct Hs as (Hi & Hor & Hsr).
      unfold M1UR_DEVICE_TS_SYNC_COUNT in H.
      destruct (i <? 4) eqn:E4.
      * eapply IH; [exact H|apply u32_range].
      * apply Z.ltb_ge in E4.
        destruct (ptx_chrdev_put_stream mem p (u32 (188 * i))) as [blk|];
          [|discriminate].
        cbv zeta in H.
        destruct sr.
        -- assert (r = u32 (remain - u32 (188 * i))) as -> by congruence.
           clear H.
           destruct Hor as [->|Hor]; [lia|].
           specialize (Hsr eq_refl).
           replace (188 * i) with (i * 188) by lia.
           assert (Ha := u32_range (i * 188)).
           set (a := u32 (i * 188)) in *.
           assert (Hn : u32 ((i + 1) * 188) = u32 (a + 188)).
           { unfold a, u32. replace ((i + 1) * 188) with (i * 188 + 188) by lia.
             now rewrite Z.add_mod_idemp_l by lia. }
           rewrite Hn in Hsr.
           destruct (Z_lt_dec (a + 188) (2 ^ 32)) as [Hlt|Hge].
           ++ rewrite u32_small in Hsr by lia.
              rewrite u32_small by lia. lia.
           ++ exfalso.
              assert (u32 (a + 188) = a + 188 - 2 ^ 32) as Hw.
              { unfold u32. symmetry.
                apply (Z.mod_unique _ _ 1); lia. }
              lia.
        -- destruct (process_loop n fuel mem (p + u32 (188 * i))
                       (u32 (remain - u32 (188 * i))))
             as [[[bs q'] r']| |] eqn:Hp; try discriminate.
           injection H as <- <- <-.
           eapply IH; [exact Hp|apply u32_range].
Qed.

End ProcessExit.

(** ** The scan and the pass on windows below [window_max] *)

Section NoWrap.

Lemma div188 x : x = 188 * (x / 188) + x mod 188 /\ 0 <= x mod 188 < 188.
Proof.
  split; [apply Z.div_mod; lia | apply Z.mod_pos_bound; lia].
Qed.

Lemma sync_scan_nowrap fuel : forall mem p remain i,
  0 <= p -> 0 <= i -> i * 188 <= remain -> remain <= window_max ->
  p + remain <= Z.of_nat (length mem) ->
  (Z.to_nat (remain / 188 - i) < fuel)%nat ->
  exists j sr,
    sync_scan fuel mem p remain i = Done (j, sr) /\
    i <= j /\ j * 188 <= remain /\
    (forall k, i <= k < j -> load mem (p + 188 * k) = Some 0x47) /\
    (sr = true -> remain < (j + 1) * 188) /\
    (sr = false -> (j + 1) * 188 <= remain /\
                   exists b, load mem (p + 188 * j) = Some b /\ b <> 0x47).
Proof.
  unfold window_max.
  induction fuel as [|fuel IH]; intros mem p remain i Hp Hi Hir Hmax Hlen Hf.
  - lia.
  - rewrite sync_scan_S.
    rewrite (u32_small ((i + 1) * 188)) by lia.
    rewrite (u32_small (i * 188)) by lia.
    destruct ((i + 1) * 188 <=? remain) eqn:E.
    + apply Z.leb_le in E.
      destruct (load_inside mem (p + i * 188)) as [b Hb]; [lia|].
      rewrite Hb.
      destruct (b =? 71) eqn:Eb.
      * apply Z.eqb_eq in Eb. subst b.
        rewrite u32_small by lia.
        destruct (div188 remain) as [Hd Hm].
        destruct (IH mem p remain (i + 1))
          as (j & sr & Hs & Hij & Hj & Hk & Ht & Hf');
          try lia.
        exists j, sr. repeat split; try assumption; try lia.
        -- intros k Hk'. destruct (Z.eq_dec k i) as [->|Hne].
           ++ rewrite <- Hb. f_equal. lia.
           ++ apply Hk. lia.
        -- now apply Hf'.
        -- now apply Hf'.
      * apply Z.eqb_neq in Eb.
        exists i, false. repeat split; try lia; try discriminate.
        exists b. split; [|assumption]. rewrite <- Hb. f_equal. lia.
    + apply Z.leb_gt in E.
      exists i, true. repeat split; try lia; try discriminate.
Qed.

(** On a window below [window_max] that lies in its buffer, the pass
    returns: every block it gave to the sink is made of whole packets, it
    leaves less than a packet, and a window shorter than four packets is
    dropped whole. *)
Lemma process_loop_nowrap fuel : forall n mem p remain,
  0 <= p -> 0 <= remain <= window_max ->
  p + remain <= Z.of_nat (length mem) ->
  (Z.to_nat remain < fuel)%nat -> (Z.to_nat (remain / 188) < n)%nat ->
  exists blks q r,
    process_loop n fuel mem p remain = Done (blks, q, r) /\
    q + r = p + remain /\ 0 <= r < 188 /\ r <= remain /\
    Forall block_ok blks /\
    (remain < M1UR_DEVICE_TS_SYNC_SIZE -> blks = [] /\ r = 0).
Proof.
  unfold window_max, M1UR_DEVICE_TS_SYNC_SIZE, M1UR_DEVICE_TS_SYNC_COUNT.
  induction fuel as [|fuel IH]; intros n mem p remain Hp Hr Hlen Hf Hn.
  - lia.
  - rewrite process_loop_S.
    destruct (remain =? 0) eqn:E0.
    + apply Z.eqb_eq in E0. subst remain.
      exists [], p, 0.
      split; [reflexivity|]. split; [lia|]. split; [lia|]. split; [lia|].
      split; [constructor|]. intros _. split; reflexivity.
    + apply Z.eqb_neq in E0.
      destruct (sync_scan_nowrap n mem p remain 0)
        as (j & sr & Hs & Hj0 & Hj & Hk & Ht & Hfl);
        try (unfold window_max; lia).
      rewrite Hs. unfold M1UR_DEVICE_TS_SYNC_COUNT.
      destruct (div188 remain) as [Hd Hm].
      destruct (j <? 4) eqn:E4.
      * apply Z.ltb_lt in E4.
        rewrite u32_small by lia.
        destruct (IH n mem (p + 1) (remain - 1))
          as (blks & q & r & Hpr & Hq & Hr' & Hrr & Hok & Hshort); try lia.
        { destruct (div188 (remain - 1)) as [Hd' Hm']. lia. }
        exists blks, q, r.
        split; [assumption|]. split; [lia|]. split; [lia|]. split; [lia|].
        split; [assumption|]. intros Hlt. apply Hshort. lia.
      * apply Z.ltb_ge in E4.
        rewrite (u32_small (188 * j)) by lia.
        unfold ptx_chrdev_put_stream.
        rewrite bytes_at_some by lia.
        set (blk := firstn (Z.to_nat (188 * j)) (skipn (Z.to_nat p) mem)).
        assert (Hblk : bytes_at mem p (188 * j) = Some blk)
          by (apply bytes_at_some; lia).
        assert (Hbok : block_ok blk).
        { pose proof (bytes_at_length _ _ _ _ Hblk) as Hl.
          unfold block_ok, aligned. rewrite Hl.
          split; [lia|]. split.
          - rewrite Z.mul_comm. apply Z_mod_mult.
          - intros k Hk0 Hk1.
            rewrite (bytes_at_load _ _ _ _ _ Hblk) by lia.
            apply Hk. lia. }
        cbv zeta. rewrite (u32_small (remain - 188 * j)) by lia.
        destruct sr.
        -- specialize (Ht eq_refl).
           exists [blk], (p + 188 * j), (remain - 188 * j).
           split; [reflexivity|]. split; [lia|]. split; [lia|]. split; [lia|].
           split; [|lia]. constructor; [assumption|constructor].
        -- destruct (IH n mem (p + 188 * j) (remain - 188 * j))
             as (blks & q & r & Hpr & Hq & Hr' & Hrr & Hok & Hshort);
             try lia.
           { destruct (div188 (remain - 188 * j)) as [Hd' Hm']. lia. }
           rewrite Hpr.
           exists (blk :: blks), q, r.
           split; [reflexivity|]. split; [lia|]. split; [lia|]. split; [lia|].
           split; [|lia]. constructor; assumption.
Qed.

End NoWrap.

(** ** The handler *)

Section Handler.

Lemma memcpy_inv dst doff src soff n rb :
  memcpy dst doff src soff n = Some rb ->
  exists bs,
    bytes_at src soff n = Some bs /\
    0 <= doff /\ doff + n <= Z.of_nat (length dst) /\
    rb = firstn (Z.to_nat doff) dst ++ bs ++ skipn (Z.to_nat (doff + n)) dst /\
    length rb = length dst.
Proof.
  unfold memcpy.
  destruct (bytes_at src soff n) as [bs|] eqn:Hb; [|discriminate].
  destruct (0 <=? doff) eqn:E1; [|discriminate].
  destruct (doff + n <=? Z.of_nat (length dst)) eqn:E2; [|discriminate].
  simpl. intros [= <-].
  apply Z.leb_le in E1, E2.
  exists bs. repeat split; try assumption.
  pose proof (bytes_at_length _ _ _ _ Hb) as Hl.
  apply bytes_at_inv in Hb as (Hs & Hn & _ & _).
  rewrite !length_app, length_firstn, length_skipn. lia.
Qed.

Lemma memcpy_some dst doff src soff n :
  0 <= doff -> 0 <= soff -> 0 <= n ->
  doff + n <= Z.of_nat (length dst) -> soff + n <= Z.of_nat (length src) ->
  memcpy dst doff src soff n =
  Some (firstn (Z.to_nat doff) dst
          ++ firstn (Z.to_nat n) (skipn (Z.to_nat soff) src)
          ++ skipn (Z.to_nat (doff + n)) dst).
Proof.
  intros Hd Hs Hn Hld Hls. unfold memcpy.
  rewrite bytes_at_some by assumption.
  replace (0 <=? doff) with true by cmp.
  replace (doff + n <=? Z.of_nat (length dst)) with true by cmp.
  reflexivity.
Qed.

Lemma fresh_context_ok : context_ok fresh_context.
Proof.
  unfold context_ok, fresh_context. cbn [remain_buf remain_len].
  rewrite repeat_length.
  unfold M1UR_DEVICE_TS_SYNC_SIZE, M1UR_DEVICE_TS_SYNC_COUNT. lia.
Qed.

Lemma handler_tail_exit fuel ctx buf p remain emitted ctx' blks :
  handler_tail fuel ctx buf p remain emitted = Done (ctx', blks) ->
  Z.of_nat (length (remain_buf ctx)) = M1UR_DEVICE_TS_SYNC_SIZE ->
  remain_len ctx = 0 -> 0 <= remain < 2 ^ 32 ->
  Z.of_nat (length (remain_buf ctx')) = M1UR_DEVICE_TS_SYNC_SIZE /\
  0 <= remain_len ctx' < 188.
Proof.
  unfold handler_tail, m1ur_device_stream_process. intros H Hl H0 Hr.
  destruct (process_loop fuel fuel buf p remain) as [[[bs q] r]| |] eqn:Hp;
    try discriminate.
  apply process_loop_exit in Hp; [|assumption].
  destruct (r =? 0) eqn:E.
  - assert (ctx' = ctx) as -> by congruence. split; [assumption|lia].
  - destruct (memcpy (remain_buf ctx) 0 buf q r) as [rb|] eqn:Hm;
      [|discriminate].
    apply memcpy_inv in Hm as (bs' & _ & _ & _ & _ & Hlen).
    assert (ctx' = {| remain_buf := rb; remain_len := r |}) as ->
      by congruence.
    simpl. split; [congruence|assumption].
Qed.

End Handler.

(** What the handler leaves when it returns. *)
Lemma stream_handler_exit fuel ctx buf len ctx' blks :
  context_ok ctx -> 0 <= len < 2 ^ 32 ->
  m1ur_device_stream_handler fuel ctx buf len = Done (ctx', blks) ->
  context_ok ctx' /\
  (M1UR_DEVICE_TS_SYNC_SIZE <= remain_len ctx + len -> remain_len ctx' < 188).
Proof.
  unfold context_ok, M1UR_DEVICE_TS_SYNC_SIZE, M1UR_DEVICE_TS_SYNC_COUNT.
  intros [Hlen Hrl] Hl H.
  unfold m1ur_device_stream_handler in H.
  unfold M1UR_DEVICE_TS_SYNC_SIZE, M1UR_DEVICE_TS_SYNC_COUNT in H.
  rewrite (u32_small (remain_len ctx)) in H by lia.
  destruct (remain_len ctx =? 0) eqn:E0.
  - apply Z.eqb_eq in E0.
    apply handler_tail_exit in H; try assumption.
    unfold M1UR_DEVICE_TS_SYNC_SIZE, M1UR_DEVICE_TS_SYNC_COUNT in H. lia.
  - apply Z.eqb_neq in E0.
    destruct (188 * 4 <=? u32 (remain_len ctx + len)) eqn:E1.
    + rewrite (u32_small (188 * 4 - remain_len ctx)) in H by lia.
      destruct (memcpy (remain_buf ctx) (remain_len ctx) buf 0
                  (188 * 4 - remain_len ctx)) as [rb|] eqn:Hm;
        [|discriminate].
      apply memcpy_inv in Hm as (bs & _ & _ & _ & _ & Hrb).
      destruct (m1ur_device_stream_process fuel rb 0 (188 * 4))
        as [[[bs1 q1] r1]| |]; try discriminate.
      assert (forall p remain,
                 handler_tail fuel {| remain_buf := rb; remain_len := 0 |} buf
                   p (u32 remain) bs1 = Done (ctx', blks) ->
                 (Z.of_nat (length (remain_buf ctx')) = 188 * 4 /\
                  0 <= remain_len ctx' < 188 * 4) /\
                 (188 * 4 <= remain_len ctx + len -> remain_len ctx' < 188))
        as Htail.
      { intros p remain Ht.
        apply handler_tail_exit in Ht; simpl; try reflexivity;
          try apply u32_range.
        - unfold M1UR_DEVICE_TS_SYNC_SIZE, M1UR_DEVICE_TS_SYNC_COUNT in Ht. lia.
        - unfold M1UR_DEVICE_TS_SYNC_SIZE, M1UR_DEVICE_TS_SYNC_COUNT. lia. }
      destruct (r1 =? 0).
      * eapply Htail; exact H.
      * rewrite <- (u32_small len) in H by lia. eapply Htail; exact H.
    + apply Z.leb_gt in E1.
      destruct (memcpy (remain_buf ctx) (remain_len ctx) buf 0 len)
        as [rb|] eqn:Hm; [|discriminate].
      apply memcpy_inv in Hm as (bs & _ & _ & Hfit & _ & Hrb).
      assert (ctx' = {| remain_buf := rb;
                        remain_len := size_t (remain_len ctx + len) |}) as ->
        by congruence.
      rewrite u32_small in E1 by lia.
      simpl. unfold size_t. rewrite Z.mod_small by lia. lia.
Qed.

(** A chunk so long that [ctx_remain_len + len] wraps takes the branch
    that appends the whole chunk to the carry-over: the copy overruns
    [remain_buf] and the invocation does not return. *)
Lemma stream_handler_overruns_carry_over fuel buf :
  m1ur_device_stream_handler fuel (carrying [0x47]) buf 4294967295 = Fault.
Proof.
  unfold m1ur_device_stream_handler.
  change (u32 (remain_len (carrying [0x47]))) with 1.
  change (1 =? 0) with false.
  change (M1UR_DEVICE_TS_SYNC_SIZE <=? u32 (1 + 4294967295)) with false.
  cbv iota. unfold memcpy.
  destruct (bytes_at buf 0 4294967295); reflexivity.
Qed.

(** After any number of chunks the context is as it should be, when the
    handler has returned each time. *)
Lemma feed_carry_over_bound fuel : forall chunks ctx ctx' blks,
  context_ok ctx ->
  (forall c, In c chunks -> Z.of_nat (length c) < 2 ^ 32) ->
  feed fuel ctx chunks = Done (ctx', blks) ->
  context_ok ctx'.
Proof.
  induction chunks as [|c cs IH]; intros ctx ctx' blks Hok Hlen H.
  - cbn [feed] in H. congruence.
  - cbn [feed] in H.
    destruct (m1ur_device_stream_handler fuel ctx c (Z.of_nat (length c)))
      as [[ctx1 b1]| |] eqn:H1; try discriminate.
    destruct (feed fuel ctx1 cs) as [[ctx2 b2]| |] eqn:H2; try discriminate.
    assert (ctx' = ctx2) as -> by congruence.
    apply (IH ctx1 ctx2 b2); [|intros c' Hin; apply Hlen; now right|exact H2].
    pose proof (Hlen c (or_introl eq_refl)).
    assert (Hr : 0 <= Z.of_nat (length c) < 2 ^ 32) by lia.
    apply (proj1 (stream_handler_exit fuel ctx c _ ctx1 b1 Hok Hr H1)).
Qed.

(** C4.  After any chunks fed to a fresh context, whatever the next chunk,
    when the invocation of the handler returns the carry-over is below 752
    bytes; and when the carry-over and the chunk add up to 752 bytes or
    more, a synchronization pass has run and less than one packet is
    left. *)
Theorem stream_handler_carry_over_bound fuel chunks c ctx blks ctx' blks' :
  (forall c', In c' (c :: chunks) -> Z.of_nat (length c') < 2 ^ 32) ->
  feed fuel fresh_context chunks = Done (ctx, blks) ->
  m1ur_device_stream_handler fuel ctx c (Z.of_nat (length c))
  = Done (ctx', blks') ->
  0 <= remain_len ctx' < M1UR_DEVICE_TS_SYNC_SIZE /\
  (M1UR_DEVICE_TS_SYNC_SIZE <= remain_len ctx + Z.of_nat (length c) ->
   remain_len ctx' < 188).
Proof.
  intros Hlen Hfeed H.
  assert (Hok : context_ok ctx).
  { apply (feed_carry_over_bound fuel chunks fresh_context ctx blks);
      [apply fresh_context_ok| |exact Hfeed].
    intros c' Hin. apply Hlen. now right. }
  pose proof (Hlen c (or_introl eq_refl)) as Hc.
  assert (Hr : 0 <= Z.of_nat (length c) < 2 ^ 32) by lia.
  destruct (stream_handler_exit fuel ctx c _ ctx' blks' Hok Hr H)
    as [[_ Hb] Hred].
  split; assumption.
Qed.

(** ** The pass and the handler return on chunks below [chunk_max] *)

Section Returns.

Lemma stream_process_returns fuel mem p remain :
  0 <= p -> 0 <= remain <= window_max ->
  p + remain <= Z.of_nat (length mem) ->
  (Z.to_nat remain < fuel)%nat ->
  exists blks q r,
    m1ur_device_stream_process fuel mem p remain = Done (blks, q, r) /\
    q + r = p + remain /\ 0 <= r < 188 /\ r <= remain /\
    Forall block_ok blks /\
    (remain < M1UR_DEVICE_TS_SYNC_SIZE -> blks = [] /\ r = 0).
Proof.
  intros Hp Hr Hl Hf. unfold m1ur_device_stream_process.
  apply process_loop_nowrap; try assumption.
  destruct (div188 remain) as [Hd Hm]. lia.
Qed.

(** In particular, when the window is a whole buffer of at most
    [window_max] bytes, no read leaves it ([Fault] is excluded), the pass
    ends ([Timeout] is excluded) and it ends inside the window. *)
Lemma stream_process_stays_in_window mem :
  Z.of_nat (length mem) <= window_max ->
  exists blks q r,
    m1ur_device_stream_process (S (length mem)) mem 0 (Z.of_nat (length mem))
    = Done (blks, q, r) /\
    q + r = Z.of_nat (length mem) /\ 0 <= r <= Z.of_nat (length mem).
Proof.
  intros Hmax.
  destruct (stream_process_returns (S (length mem)) mem 0
              (Z.of_nat (length mem)))
    as (blks & q & r & H & Hq & Hr & Hrr & _); try lia.
  exists blks, q, r. split; [exact H|]. lia.
Qed.

Lemma handler_tail_returns fuel ctx buf p remain emitted :
  Z.of_nat (length (remain_buf ctx)) = M1UR_DEVICE_TS_SYNC_SIZE ->
  0 <= p -> 0 <= remain <= window_max ->
  p + remain <= Z.of_nat (length buf) ->
  (Z.to_nat remain < fuel)%nat ->
  exists ctx' blks,
    handler_tail fuel ctx buf p remain emitted = Done (ctx', emitted ++ blks)
    /\ Forall block_ok blks.
Proof.
  sync_size.
  intros Hl Hp Hr Hb Hf. unfold handler_tail.
  destruct (stream_process_returns fuel buf p remain)
    as (blks & q & r & Hpr & Hq & Hr' & Hrr & Hok & _); try assumption.
  rewrite Hpr.
  destruct (r =? 0).
  - eauto.
  - rewrite memcpy_some by lia. eauto.
Qed.

(** Enough fuel makes the handler return on every chunk of at most
    [chunk_max] bytes, and the blocks it gave to the sink are made of whole
    packets. *)
Lemma stream_handler_returns fuel ctx buf :
  context_ok ctx ->
  Z.of_nat (length buf) <= chunk_max ->
  (Z.to_nat (Z.max (Z.of_nat (length buf)) M1UR_DEVICE_TS_SYNC_SIZE)
   < fuel)%nat ->
  exists ctx' blks,
    m1ur_device_stream_handler fuel ctx buf (Z.of_nat (length buf))
    = Done (ctx', blks) /\ Forall block_ok blks.
Proof.
  unfold context_ok, chunk_max, M1UR_DEVICE_TS_SYNC_SIZE,
    M1UR_DEVICE_TS_SYNC_COUNT.
  intros [Hlen Hrl] Hmax Hf.
  set (len := Z.of_nat (length buf)) in *.
  assert (0 <= len) by (unfold len; lia).
  unfold m1ur_device_stream_handler.
  sync_size.
  rewrite (u32_small (remain_len ctx)) by lia.
  destruct (remain_len ctx =? 0) eqn:E0.
  - destruct (handler_tail_returns fuel ctx buf 0 len [])
      as (ctx' & blks & Ht & Hok); try assumption;
      try (unfold window_max; lia); eauto.
  - apply Z.eqb_neq in E0.
    rewrite (u32_small (remain_len ctx + len)) by lia.
    destruct (188 * 4 <=? remain_len ctx + len) eqn:E1.
    + apply Z.leb_le in E1.
      rewrite (u32_small (188 * 4 - remain_len ctx)) by lia.
      rewrite memcpy_some by lia.
      set (rb := firstn _ _ ++ _ ++ _).
      assert (Hrb : Z.of_nat (length rb) = 188 * 4).
      { unfold rb. rewrite !length_app, !length_firstn, !length_skipn. lia. }
      destruct (stream_process_returns fuel rb 0 (188 * 4))
        as (bs1 & q1 & r1 & Hp1 & _ & _ & _ & Hok1 & _);
        try (unfold window_max; lia).
      rewrite Hp1.
      set (ctx1 := {| remain_buf := rb; remain_len := 0 |}).
      destruct (r1 =? 0).
      * rewrite (u32_small (len - (188 * 4 - remain_len ctx))) by lia.
        destruct (handler_tail_returns fuel ctx1 buf
                    (188 * 4 - remain_len ctx)
                    (len - (188 * 4 - remain_len ctx)) bs1)
          as (ctx' & blks & Ht & Hok); try assumption;
          try (unfold window_max; fold len; lia).
        exists ctx', (bs1 ++ blks). split; [assumption|].
        apply Forall_app. split; assumption.
      * destruct (handler_tail_returns fuel ctx1 buf 0 len bs1)
          as (ctx' & blks & Ht & Hok); try assumption;
          try (unfold window_max; fold len; lia).
        exists ctx', (bs1 ++ blks). split; [assumption|].
        apply Forall_app. split; assumption.
    + apply Z.leb_gt in E1.
      rewrite memcpy_some by (fold len; lia).
      eexists _, []. split; [reflexivity|constructor].
Qed.

End Returns.

(** ** Windows within 188 bytes of 4 GiB: the [u32] products wrap *)

Section Wrap.

(** A run of [k] slots that fit, start with the marker and whose offsets do
    not wrap costs [k] iterations. *)
Lemma sync_scan_run (k : nat) : forall fuel mem p remain i,
  0 <= i ->
  (forall j, i <= j < i + Z.of_nat k ->
             (j + 1) * 188 <= remain /\ (j + 1) * 188 < 2 ^ 32 /\
             load mem (p + j * 188) = Some 0x47) ->
  sync_scan (k + fuel) mem p remain i
  = sync_scan fuel mem p remain (i + Z.of_nat k).
Proof.
  induction k as [|k IH]; intros fuel mem p remain i Hi H.
  - change (0 + fuel)%nat with fuel. f_equal. lia.
  - change (S k + fuel)%nat with (S (k + fuel)).
    rewrite sync_scan_S.
    destruct (H i) as (Hfit & Hno & Hld); [lia|].
    rewrite (u32_small ((i + 1) * 188)) by lia.
    rewrite (u32_small (i * 188)) by lia.
    replace ((i + 1) * 188 <=? remain) with true by cmp.
    rewrite Hld. rewrite Z.eqb_refl.
    rewrite u32_small by lia.
    rewrite IH; [f_equal; lia|lia|].
    intros j Hj. apply H. lia.
Qed.

Lemma all_markers_length n :
  0 <= n -> Z.of_nat (length (all_markers n)) = n.
Proof. intros H. unfold all_markers. rewrite repeat_length. lia. Qed.

Lemma load_all_markers n a :
  0 <= a < n -> load (all_markers n) a = Some 0x47.
Proof.
  intros H. unfold load, all_markers.
  destruct (a <? 0) eqn:E; [apply Z.ltb_lt in E; lia|].
  apply nth_error_repeat. lia.
Qed.

Lemma slot_markers_length n :
  0 <= n -> Z.of_nat (length (slot_markers n)) = n.
Proof.
  intros H. unfold slot_markers. rewrite length_map, length_seq. lia.
Qed.

Lemma load_slot_markers n a :
  0 <= a < n ->
  load (slot_markers n) a = Some (if a mod 188 =? 0 then 0x47 else 0).
Proof.
  intros H. unfold load, slot_markers.
  destruct (a <? 0) eqn:E; [apply Z.ltb_lt in E; lia|].
  rewrite nth_error_map, nth_error_seq.
  destruct (Z.to_nat a <? Z.to_nat n)%nat eqn:E1;
    [|apply Nat.ltb_ge in E1; lia].
  cbn [option_map]. unfold slot_byte.
  rewrite Nat.add_0_l, Z2Nat.id by lia. reflexivity.
Qed.

(** Every [u32] multiple of 188 is a multiple of 4. *)
Lemma u32_mul188_bound i : 0 <= u32 (i * 188) <= 2 ^ 32 - 4.
Proof.
  unfold u32.
  replace (i * 188) with (4 * (i * 47)) by lia.
  change (2 ^ 32) with (4 * 2 ^ 30).
  rewrite Z.mul_mod_distr_l by lia.
  pose proof (Z.mod_pos_bound (i * 47) (2 ^ 30)). lia.
Qed.

(** With 4 GiB - 1 bytes of 0x47 the bound check never fails and the scan
    goes on for ever. *)
Lemma sync_scan_all_markers fuel : forall i,
  sync_scan fuel (all_markers 4294967295) 0 4294967295 i = Timeout.
Proof.
  induction fuel as [|fuel IH]; intros i.
  - reflexivity.
  - rewrite sync_scan_S.
    pose proof (u32_range ((i + 1) * 188)) as H1.
    pose proof (u32_mul188_bound i) as H2.
    replace (u32 ((i + 1) * 188) <=? 4294967295) with true by cmp.
    rewrite load_all_markers by lia.
    rewrite Z.eqb_refl. apply IH.
Qed.

(** With 4 GiB - 136 bytes of 0x47 the 22845571st bound check passes on a
    wrapped product and the byte just after the window is read. *)
Lemma sync_scan_reads_past_window fuel :
  sync_scan (Z.to_nat 22845570 + S fuel)
    (all_markers 4294967160) 0 4294967160 0 = Fault.
Proof.
  rewrite sync_scan_run.
  - rewrite Z2Nat.id by lia. rewrite sync_scan_S.
    change (u32 ((0 + 22845570 + 1) * 188)) with 52.
    change (u32 ((0 + 22845570) * 188)) with 4294967160.
    change (52 <=? 4294967160) with true. cbv iota.
    rewrite load_outside; [reflexivity|].
    rewrite all_markers_length; lia.
  - lia.
  - intros j Hj. rewrite Z2Nat.id in Hj by lia.
    split; [lia|]. split; [lia|].
    apply load_all_markers. lia.
Qed.

End Wrap.

(** C9, at windows within 188 bytes of 4 GiB.  On 4294967295 bytes of 0x47
    the pass never returns, whatever the fuel; on 4294967160 bytes of 0x47
    it reads the byte after the window as soon as the fuel allows 22845571
    iterations of the scan. *)
Theorem stream_process_wraps_near_4GiB :
  (forall fuel,
      m1ur_device_stream_process fuel (all_markers 4294967295) 0 4294967295
      = Timeout) /\
  (forall fuel,
      m1ur_device_stream_process (Z.to_nat 22845570 + S fuel)
        (all_markers 4294967160) 0 4294967160
      = Fault).
Proof.
  split; intros fuel; unfold m1ur_device_stream_process.
  - generalize fuel at 1. intros n.
    destruct fuel as [|fuel]; [reflexivity|].
    rewrite process_loop_S.
    change (4294967295 =? 0) with false. cbv iota.
    now rewrite sync_scan_all_markers.
  - assert (E : (Z.to_nat 22845570 + S fuel
                 = S (Z.to_nat 22845570 + fuel))%nat) by lia.
    rewrite E at 2.
    rewrite process_loop_S.
    change (4294967160 =? 0) with false. cbv iota.
    now rewrite sync_scan_reads_past_window.
Qed.

Section WrapBlock.

(** With 4 GiB - 1 bytes that carry the marker at the head of every slot,
    the first scan counts 22845571 slots: the last two bound checks pass on
    wrapped products, and the last read is [p[52]]. *)
Lemma sync_scan_slot_markers fuel :
  sync_scan (Z.to_nat 22845570 + S (S fuel))
    (slot_markers 4294967295) 0 4294967295 0 = Done (22845571, false).
Proof.
  rewrite sync_scan_run.
  - rewrite Z2Nat.id by lia. rewrite sync_scan_S.
    change (u32 ((0 + 22845570 + 1) * 188)) with 52.
    change (u32 ((0 + 22845570) * 188)) with 4294967160.
    change (52 <=? 4294967295) with true. cbv iota.
    rewrite load_slot_markers by lia.
    change (if (0 + 4294967160) mod 188 =? 0 then 71 else 0) with 71.
    rewrite Z.eqb_refl.
    change (u32 (0 + 22845570 + 1)) with 22845571.
    rewrite sync_scan_S.
    change (u32 ((22845571 + 1) * 188)) with 240.
    change (u32 (22845571 * 188)) with 52.
    change (240 <=? 4294967295) with true. cbv iota.
    rewrite load_slot_markers by lia.
    reflexivity.
  - lia.
  - intros j Hj. rewrite Z2Nat.id in Hj by lia.
    split; [lia|]. split; [lia|].
    rewrite load_slot_markers by lia.
    rewrite Z.add_0_l, Z_mod_mult. reflexivity.
Qed.

(** A byte that is not the marker, with a full slot left, is skipped. *)
Lemma process_loop_advance n f mem p remain b :
  (0 < n)%nat -> load mem p = Some b -> b <> 0x47 ->
  188 <= remain < 2 ^ 32 ->
  process_loop n (S f) mem p remain
  = process_loop n f mem (p + 1) (remain - 1).
Proof.
  intros Hn Hb Hne Hr. destruct n as [|n]; [lia|].
  rewrite process_loop_S.
  replace (remain =? 0) with false by cmp.
  rewrite sync_scan_S.
  change (u32 ((0 + 1) * 188)) with 188.
  change (u32 (0 * 188)) with 0.
  replace (188 <=? remain) with true by cmp.
  rewrite Z.add_0_r, Hb.
  replace (b =? 71) with false by cmp.
  change (0 <? M1UR_DEVICE_TS_SYNC_COUNT) with true. cbv iota.
  rewrite u32_small by lia. reflexivity.
Qed.

Lemma process_loop_advance_many n mem (k : nat) : forall f p remain,
  (0 < n)%nat ->
  (forall a, p <= a < p + Z.of_nat k ->
             exists b, load mem a = Some b /\ b <> 0x47) ->
  188 + Z.of_nat k - 1 <= remain < 2 ^ 32 ->
  process_loop n (k + f) mem p remain
  = process_loop n f mem (p + Z.of_nat k) (remain - Z.of_nat k).
Proof.
  induction k as [|k IH]; intros f p remain Hn H Hr.
  - change (0 + f)%nat with f. f_equal; lia.
  - change (S k + f)%nat with (S (k + f)).
    destruct (H p) as (b & Hb & Hne); [lia|].
    rewrite (process_loop_advance _ _ _ _ _ b) by (assumption || lia).
    rewrite IH; [f_equal; lia|assumption| |lia].
    intros a Ha. apply H. lia.
Qed.

Lemma process_loop_slot_markers n f :
  (Z.to_nat 22845570 + 2 <= n)%nat -> (Z.to_nat 4294967107 < f)%nat ->
  exists blk blks q r,
    process_loop n (S (136 + f)) (slot_markers 4294967295) 0 4294967295
    = Done (blk :: blks, q, r) /\
    Z.of_nat (length blk) = 52 /\ q + r = 4294967295 /\ 0 <= r < 188.
Proof.
  intros Hn Hf. rewrite process_loop_S.
  change (4294967295 =? 0) with false. cbv iota.
  rewrite (sync_scan_mono _ n _ _ _ _ _ (sync_scan_slot_markers 0) Hn).
  change (22845571 <? M1UR_DEVICE_TS_SYNC_COUNT) with false. cbv iota.
  change (u32 (188 * 22845571)) with 52.
  unfold ptx_chrdev_put_stream.
  rewrite bytes_at_some by (rewrite ?slot_markers_length; lia).
  cbv zeta.
  change (u32 (4294967295 - 52)) with 4294967243.
  change (0 + 52) with 52.
  rewrite process_loop_advance_many.
  - change (52 + Z.of_nat 136) with 188.
    change (4294967243 - Z.of_nat 136) with 4294967107.
    destruct (process_loop_nowrap f n (slot_markers 4294967295)
                188 4294967107)
      as (blks & q & r & Hpr & Hq & Hr & _); try (unfold window_max; lia).
    + rewrite slot_markers_length; lia.
    + change (4294967107 / 188) with 22845569. lia.
    + rewrite Hpr. eexists _, blks, q, r. split; [reflexivity|].
      split; [|split; [lia|exact Hr]].
      rewrite length_firstn, length_skipn.
      pose proof (slot_markers_length 4294967295). lia.
  - lia.
  - intros a Ha. change (Z.of_nat 136) with 136 in Ha.
    rewrite load_slot_markers by lia.
    rewrite Z.mod_small by lia.
    replace (a =? 0) with false by cmp.
    exists 0. split; [reflexivity|lia].
  - change (Z.of_nat 136) with 136. lia.
Qed.

End WrapBlock.

(** C1, at a chunk within 188 bytes of 4 GiB.  Given, on a fresh context,
    4294967295 bytes that carry the marker at the head of every 188-byte
    slot, the handler returns and the first block the sink got is 52 bytes
    long: not a multiple of 188. *)
Theorem stream_handler_emits_short_block :
  exists fuel ctx' blk blks,
    m1ur_device_stream_handler fuel fresh_context
      (slot_markers 4294967295) 4294967295
    = Done (ctx', blk :: blks) /\
    Z.of_nat (length blk) = 52 /\ ~ block_ok blk.
Proof.
  destruct (process_loop_slot_markers
              (S (136 + Z.to_nat 4294967108)) (Z.to_nat 4294967108))
    as (blk & blks & q & r & Hp & Hl & Hq & Hr); try lia.
  exists (S (136 + Z.to_nat 4294967108)).
  assert (Hbad : ~ block_ok blk).
  { intros (_ & Hm & _). rewrite Hl in Hm. discriminate Hm. }
  unfold m1ur_device_stream_handler.
  change (u32 (remain_len fresh_context) =? 0) with true. cbv iota.
  unfold handler_tail, m1ur_device_stream_process. rewrite Hp.
  cbn [app].
  destruct (r =? 0).
  - exists fresh_context, blk, blks. auto.
  - rewrite memcpy_some.
    + eexists _, blk, blks. auto.
    + lia.
    + lia.
    + lia.
    + unfold fresh_context. cbn [remain_buf]. rewrite repeat_length.
      unfold M1UR_DEVICE_TS_SYNC_SIZE, M1UR_DEVICE_TS_SYNC_COUNT. lia.
    + rewrite slot_markers_length; lia.
Qed.

(** ** Aligned windows *)

Section AlignedWindow.

(** On a window of at least four packets whose every slot starts with the
    marker, the first scan runs to the end of the window and the pass hands
    all whole packets to the sink as one block. *)
Lemma process_loop_aligned n f mem p remain :
  0 <= p -> M1UR_DEVICE_TS_SYNC_SIZE <= remain <= window_max ->
  p + remain <= Z.of_nat (length mem) ->
  (forall k, 0 <= k -> 188 * k < remain ->
             load mem (p + 188 * k) = Some 0x47) ->
  (Z.to_nat (remain / 188) < n)%nat ->
  process_loop n (S f) mem p remain
  = Done ([firstn (Z.to_nat (remain - remain mod 188))
             (skipn (Z.to_nat p) mem)],
          p + (remain - remain mod 188), remain mod 188).
Proof.
  sync_size.
  intros Hp Hr Hl Hal Hn.
  rewrite process_loop_S.
  replace (remain =? 0) with false by cmp.
  destruct (sync_scan_nowrap n mem p remain 0)
    as (j & sr & Hs & Hj0 & Hj & _ & Ht & Hfl); try lia.
  rewrite Hs.
  destruct (div188 remain) as [Hd Hm].
  destruct sr.
  - specialize (Ht eq_refl).
    assert (j = remain / 188) as Hje by lia.
    unfold M1UR_DEVICE_TS_SYNC_COUNT.
    replace (j <? 4) with false by cmp.
    assert (188 * j = remain - remain mod 188) as He by lia.
    rewrite He.
    rewrite (u32_small (remain - remain mod 188))
      by (unfold window_max in Hr; lia).
    unfold ptx_chrdev_put_stream. rewrite bytes_at_some by lia.
    cbv zeta. rewrite u32_small by lia.
    f_equal. f_equal. lia.
  - destruct (Hfl eq_refl) as (Hfit & b & Hb & Hne).
    rewrite Hal in Hb by lia. congruence.
Qed.

Lemma aligned_app_l s1 s2 : aligned (s1 ++ s2) -> aligned s1.
Proof.
  intros H j Hj Hlt.
  specialize (H j Hj). rewrite length_app in H.
  unfold load in *.
  destruct (188 * j <? 0) eqn:E; [apply Z.ltb_lt in E; lia|].
  rewrite nth_error_app1 in H by lia. apply H. lia.
Qed.

Lemma aligned_app_r s1 s2 :
  Z.of_nat (length s1) mod 188 = 0 -> aligned (s1 ++ s2) -> aligned s2.
Proof.
  intros Hm H j Hj Hlt.
  destruct (div188 (Z.of_nat (length s1))) as [Hd _].
  rewrite Hm, Z.add_0_r in Hd.
  specialize (H (Z.of_nat (length s1) / 188 + j)).
  rewrite length_app in H.
  unfold load in *.
  destruct (188 * j <? 0) eqn:E; [apply Z.ltb_lt in E; lia|].
  destruct (188 * (Z.of_nat (length s1) / 188 + j) <? 0) eqn:E';
    [apply Z.ltb_lt in E'; lia|].
  rewrite nth_error_app2 in H by lia.
  replace (Z.to_nat (188 * (Z.of_nat (length s1) / 188 + j)) - length s1)%nat
    with (Z.to_nat (188 * j)) in H by lia.
  apply H; lia.
Qed.

(** How a stream splits into whole packets and a rest is unique. *)
Lemma whole_packets_unique (A a B b : list Z) :
  A ++ a = B ++ b ->
  Z.of_nat (length A) mod 188 = 0 -> Z.of_nat (length B) mod 188 = 0 ->
  Z.of_nat (length a) < 188 -> Z.of_nat (length b) < 188 ->
  A = B /\ a = b.
Proof.
  intros E HA HB Ha Hb.
  assert (length A = length B) as Hl.
  { apply (f_equal (@length Z)) in E. rewrite !length_app in E.
    destruct (div188 (Z.of_nat (length A))) as [HdA _].
    destruct (div188 (Z.of_nat (length B))) as [HdB _].
    lia. }
  split.
  - apply (f_equal (firstn (length A))) in E.
    rewrite firstn_app, firstn_all, Nat.sub_diag in E.
    rewrite Hl, firstn_app, firstn_all, Nat.sub_diag in E.
    cbn [firstn] in E. rewrite !app_nil_r in E. exact E.
  - apply (f_equal (skipn (length A))) in E.
    rewrite skipn_app, skipn_all, Nat.sub_diag in E.
    rewrite Hl, skipn_app, skipn_all, Nat.sub_diag in E.
    exact E.
Qed.

End AlignedWindow.

(** ** Aligned streams through the handler *)

Section AlignedStream.

Lemma load_app_r s1 s2 x :
  0 <= x -> load (s1 ++ s2) (Z.of_nat (length s1) + x) = load s2 x.
Proof.
  intros Hx. unfold load.
  destruct (Z.of_nat (length s1) + x <? 0) eqn:E;
    [apply Z.ltb_lt in E; lia|].
  destruct (x <? 0) eqn:E'; [apply Z.ltb_lt in E'; lia|].
  rewrite nth_error_app2 by lia. f_equal. lia.
Qed.

Lemma carry_over_length ctx :
  context_ok ctx -> Z.of_nat (length (carry_over ctx)) = remain_len ctx.
Proof.
  unfold context_ok, carry_over. intros [Hl Hr].
  rewrite length_firstn. lia.
Qed.

Lemma carry_over_stored rb (X : list Z) r :
  Z.of_nat (length X) = r ->
  carry_over {| remain_buf := firstn (Z.to_nat 0) rb ++ X
                                ++ skipn (Z.to_nat (0 + r)) rb;
                remain_len := r |} = X.
Proof.
  intros Hr. unfold carry_over. cbn [remain_buf remain_len].
  change (Z.to_nat 0) with 0%nat. rewrite firstn_0, app_nil_l.
  rewrite firstn_app.
  replace (Z.to_nat r - length X)%nat with 0%nat by lia.
  rewrite firstn_0, app_nil_r. apply firstn_all2. lia.
Qed.

Lemma handler_tail_aligned fuel ctx buf p remain emitted :
  Z.of_nat (length (remain_buf ctx)) = M1UR_DEVICE_TS_SYNC_SIZE ->
  remain_len ctx = 0 ->
  0 <= p -> M1UR_DEVICE_TS_SYNC_SIZE <= remain <= window_max ->
  p + remain = Z.of_nat (length buf) ->
  (forall k, 0 <= k -> 188 * k < remain ->
             load buf (p + 188 * k) = Some 0x47) ->
  (Z.to_nat remain < fuel)%nat ->
  exists ctx' blk,
    handler_tail fuel ctx buf p remain emitted
    = Done (ctx', emitted ++ [blk]) /\
    blk ++ carry_over ctx' = skipn (Z.to_nat p) buf /\
    Z.of_nat (length blk) mod 188 = 0 /\
    context_ok ctx' /\ remain_len ctx' < 188.
Proof.
  intros Hrb H0 Hp Hr Hl Hal Hf.
  unfold handler_tail, m1ur_device_stream_process.
  destruct fuel as [|f]; [lia|].
  destruct (div188 remain) as [Hd Hm].
  rewrite process_loop_aligned; try assumption; try lia.
  set (a := remain - remain mod 188) in *.
  set (L := skipn (Z.to_nat p) buf).
  assert (HL : Z.of_nat (length L) = remain)
    by (unfold L; rewrite length_skipn; lia).
  assert (Hbl : Z.of_nat (length (firstn (Z.to_nat a) L)) = a)
    by (rewrite length_firstn; lia).
  assert (Hmod : a mod 188 = 0).
  { unfold a.
    replace (remain - remain mod 188) with (remain / 188 * 188) by lia.
    apply Z_mod_mult. }
  unfold context_ok, M1UR_DEVICE_TS_SYNC_SIZE, M1UR_DEVICE_TS_SYNC_COUNT in *.
  destruct (remain mod 188 =? 0) eqn:E.
  - apply Z.eqb_eq in E.
    exists ctx, (firstn (Z.to_nat a) L).
    split; [reflexivity|]. split.
    + unfold carry_over. rewrite H0. change (Z.to_nat 0) with 0%nat.
      rewrite firstn_0, app_nil_r. apply firstn_all2. lia.
    + rewrite Hbl. split; [assumption|]. lia.
  - apply Z.eqb_neq in E.
    rewrite memcpy_some by lia.
    eexists _, (firstn (Z.to_nat a) L).
    split; [reflexivity|].
    assert (Hx : firstn (Z.to_nat (remain mod 188))
                   (skipn (Z.to_nat (p + a)) buf)
                 = skipn (Z.to_nat a) L).
    { unfold L. rewrite skipn_skipn.
      replace (Z.to_nat a + Z.to_nat p)%nat with (Z.to_nat (p + a)) by lia.
      apply firstn_all2. rewrite length_skipn. lia. }
    rewrite Hx.
    rewrite carry_over_stored
      by (rewrite length_skipn; lia).
    split; [apply firstn_skipn|].
    rewrite Hbl. split; [assumption|].
    cbn [remain_buf remain_len].
    rewrite !length_app, length_firstn, !length_skipn.
    split; [|lia]. split; lia.
Qed.

(** One chunk of an aligned stream: the blocks given to the sink followed
    by the new carry-over are the old carry-over followed by the chunk. *)
Lemma stream_handler_aligned fuel ctx buf :
  context_ok ctx -> remain_len ctx < 188 ->
  aligned (carry_over ctx ++ buf) ->
  1503 <= Z.of_nat (length buf) <= chunk_max ->
  (Z.to_nat (Z.of_nat (length buf)) < fuel)%nat ->
  exists ctx' blks,
    m1ur_device_stream_handler fuel ctx buf (Z.of_nat (length buf))
    = Done (ctx', blks) /\
    concat blks ++ carry_over ctx' = carry_over ctx ++ buf /\
    Z.of_nat (length (concat blks)) mod 188 = 0 /\
    context_ok ctx' /\ remain_len ctx' < 188.
Proof.
  intros Hok Hr Hal Hlen Hf.
  pose proof (carry_over_length ctx Hok) as Hc.
  unfold context_ok, chunk_max, M1UR_DEVICE_TS_SYNC_SIZE,
    M1UR_DEVICE_TS_SYNC_COUNT in *.
  destruct Hok as [Hrb Hrl].
  set (len := Z.of_nat (length buf)) in *.
  unfold m1ur_device_stream_handler.
  sync_size.
  rewrite (u32_small (remain_len ctx)) by lia.
  destruct (remain_len ctx =? 0) eqn:E0.
  - apply Z.eqb_eq in E0.
    assert (carry_over ctx = []) as Hnil.
    { destruct (carry_over ctx); [reflexivity|]. cbn [length] in Hc. lia. }
    rewrite Hnil in *. cbn [app] in *.
    destruct (handler_tail_aligned fuel ctx buf 0 len [])
      as (ctx' & blk & Ht & Hcat & Hmod & Hok' & Hr');
      try assumption;
      try (unfold M1UR_DEVICE_TS_SYNC_SIZE, M1UR_DEVICE_TS_SYNC_COUNT,
             window_max; lia).
    exists ctx', [blk]. split; [exact Ht|].
    cbn [concat]. rewrite app_nil_r.
    split; [exact Hcat|]. split; [exact Hmod|].
    split; [exact Hok'|exact Hr'].
  - apply Z.eqb_neq in E0.
    rewrite (u32_small (remain_len ctx + len)) by lia.
    replace (188 * 4 <=? remain_len ctx + len) with true by cmp.
    set (t := 188 * 4 - remain_len ctx).
    rewrite (u32_small t) by (unfold t; lia).
    rewrite memcpy_some by (unfold t; fold len; lia).
    change (Z.to_nat 0) with 0%nat. rewrite skipn_0.
    replace (skipn (Z.to_nat (remain_len ctx + t)) (remain_buf ctx))
      with (@nil Z) by (symmetry; apply skipn_all2; unfold t; lia).
    rewrite app_nil_r. fold (carry_over ctx).
    set (rb := carry_over ctx ++ firstn (Z.to_nat t) buf).
    assert (Hrbl : Z.of_nat (length rb) = 188 * 4).
    { unfold rb. rewrite length_app, length_firstn. unfold t. lia. }
    assert (Halrb : aligned rb).
    { apply (aligned_app_l rb (skipn (Z.to_nat t) buf)).
      unfold rb. rewrite <- app_assoc, firstn_skipn. exact Hal. }
    unfold m1ur_device_stream_process at 1.
    destruct fuel as [|f]; [lia|].
    rewrite process_loop_aligned;
      try (unfold M1UR_DEVICE_TS_SYNC_SIZE, M1UR_DEVICE_TS_SYNC_COUNT,
             window_max; lia).
    2:{ intros k Hk Hlt. rewrite Z.add_0_l. apply Halrb; lia. }
    2:{ change (188 * 4 / 188) with 4. lia. }
    change (188 * 4 mod 188) with 0.
    change (0 =? 0) with true. cbv iota.
    change (Z.to_nat 0) with 0%nat. rewrite skipn_0.
    rewrite (firstn_all2 (n := Z.to_nat (188 * 4 - 0))) by lia.
    rewrite (u32_small (len - t)) by (unfold t; lia).
    destruct (handler_tail_aligned (S f)
                {| remain_buf := rb; remain_len := 0 |} buf t (len - t) [rb])
      as (ctx' & blk & Ht & Hcat & Hmod & Hok' & Hr');
      try reflexivity;
      try (unfold M1UR_DEVICE_TS_SYNC_SIZE, M1UR_DEVICE_TS_SYNC_COUNT,
             window_max, t; cbn [remain_buf]; fold len; lia).
    { intros k Hk Hlt.
      specialize (Hal (4 + k)).
      replace (188 * (4 + k))
        with (Z.of_nat (length (carry_over ctx)) + (t + 188 * k)) in Hal
        by (unfold t; lia).
      rewrite load_app_r in Hal by (unfold t; lia).
      apply Hal; [lia|]. rewrite length_app. fold len. unfold t in *. lia. }
    exists ctx', ([rb] ++ [blk]). split; [exact Ht|].
    cbn [concat app]. rewrite app_nil_r.
    split.
    + rewrite <- app_assoc, Hcat. unfold rb.
      rewrite <- app_assoc, firstn_skipn. reflexivity.
    + split; [|split; [exact Hok'|exact Hr']].
      rewrite length_app, Nat2Z.inj_add, Hrbl.
      rewrite <- Z.add_mod_idemp_r, Hmod by lia. reflexivity.
Qed.

End AlignedStream.

Section Feed.

Lemma feed_aligned fuel : forall chunks ctx,
  context_ok ctx -> remain_len ctx < 188 ->
  aligned (carry_over ctx ++ concat chunks) ->
  (forall c, In c chunks ->
             1503 <= Z.of_nat (length c) <= chunk_max /\
             (length c < fuel)%nat) ->
  exists ctx' blks,
    feed fuel ctx chunks = Done (ctx', blks) /\
    concat blks ++ carry_over ctx' = carry_over ctx ++ concat chunks /\
    Z.of_nat (length (concat blks)) mod 188 = 0 /\
    context_ok ctx' /\ remain_len ctx' < 188.
Proof.
  induction chunks as [|c cs IH]; intros ctx Hok Hr Hal Hch.
  - exists ctx, []. cbn [feed concat app]. rewrite app_nil_r.
    repeat split; try assumption; apply Hok.
  - cbn [concat] in Hal. rewrite app_assoc in Hal.
    destruct (Hch c (or_introl eq_refl)) as [Hc Hf].
    destruct (stream_handler_aligned fuel ctx c)
      as (ctx1 & b1 & H1 & Hcat1 & Hm1 & Hok1 & Hr1);
      try assumption; try lia.
    { eapply aligned_app_l; exact Hal. }
    rewrite <- Hcat1, <- app_assoc in Hal.
    apply aligned_app_r in Hal; [|exact Hm1].
    destruct (IH ctx1) as (ctx2 & b2 & H2 & Hcat2 & Hm2 & Hok2 & Hr2);
      try assumption.
    { intros c' Hin. apply Hch. now right. }
    exists ctx2, (b1 ++ b2).
    cbn [feed]. rewrite H1, H2.
    split; [reflexivity|]. rewrite concat_app. split.
    + rewrite <- app_assoc, Hcat2, app_assoc, Hcat1.
      cbn [concat]. now rewrite app_assoc.
    + split; [|split; assumption].
      rewrite length_app, Nat2Z.inj_add.
      rewrite Z.add_mod, Hm1, Hm2 by lia. reflexivity.
Qed.

Lemma in_concat_length (c : list Z) chunks :
  In c chunks -> (length c <= length (concat chunks))%nat.
Proof.
  induction chunks as [|d ds IH]; intros Hin; [destruct Hin|].
  cbn [concat]. rewrite length_app.
  destruct Hin as [->|Hin]; [lia|]. specialize (IH Hin). lia.
Qed.

End Feed.

(** C2, as the code has it.  For a stream whose every 188-byte slot starts
    with the marker, of at most [chunk_max] bytes, and every partition of it
    into chunks of at least 1503 bytes, feeding the chunks in order to a
    fresh context gives the sink blocks whose concatenation is that of
    feeding the stream as one chunk; the two runs leave the same
    carry-over. *)
Theorem aligned_stream_chunking fuel chunks :
  aligned (concat chunks) ->
  (forall c, In c chunks -> 1503 <= Z.of_nat (length c)) ->
  Z.of_nat (length (concat chunks)) <= chunk_max ->
  (length (concat chunks) < fuel)%nat ->
  exists ctx1 blks1 ctx2 blks2,
    feed fuel fresh_context chunks = Done (ctx1, blks1) /\
    feed fuel fresh_context [concat chunks] = Done (ctx2, blks2) /\
    concat blks1 = concat blks2 /\
    carry_over ctx1 = carry_over ctx2.
Proof.
  intros Hal Hmin Hmax Hf.
  assert (Hfresh : carry_over fresh_context = []) by reflexivity.
  destruct chunks as [|c0 cs].
  - exists fresh_context, [], fresh_context, [].
    split; [reflexivity|]. split; [|split; reflexivity].
    destruct fuel as [|f]; [lia|]. reflexivity.
  - set (chunks := c0 :: cs) in *.
    assert (Hbig : 1503 <= Z.of_nat (length (concat chunks))).
    { pose proof (in_concat_length c0 chunks (or_introl eq_refl)).
      specialize (Hmin c0 (or_introl eq_refl)). lia. }
    destruct (feed_aligned fuel chunks fresh_context)
      as (ctx1 & b1 & H1 & Hcat1 & Hm1 & Hok1 & Hr1).
    { apply fresh_context_ok. }
    { cbn. lia. }
    { rewrite Hfresh. exact Hal. }
    { intros c Hin. pose proof (in_concat_length c chunks Hin).
      specialize (Hmin c Hin). lia. }
    destruct (feed_aligned fuel [concat chunks] fresh_context)
      as (ctx2 & b2 & H2 & Hcat2 & Hm2 & Hok2 & Hr2).
    { apply fresh_context_ok. }
    { cbn. lia. }
    { rewrite Hfresh. cbn [concat app]. rewrite app_nil_r. exact Hal. }
    { intros c [<-|[]]. lia. }
    exists ctx1, b1, ctx2, b2.
    split; [exact H1|]. split; [exact H2|].
    rewrite Hfresh in Hcat1, Hcat2. cbn [concat app] in Hcat2.
    rewrite app_nil_r in Hcat2.
    apply whole_packets_unique; try assumption.
    + rewrite Hcat1, Hcat2. reflexivity.
    + rewrite carry_over_length by assumption. exact Hr1.
    + rewrite carry_over_length by assumption. exact Hr2.
Qed.

Section ShortInput.

(** A window of fewer than four packets is consumed one byte at a time:
    nothing goes to the sink and nothing is left. *)
Lemma stream_process_short_window fuel mem p remain :
  0 <= p -> 0 <= remain < M1UR_DEVICE_TS_SYNC_SIZE ->
  p + remain <= Z.of_nat (length mem) ->
  (Z.to_nat remain < fuel)%nat ->
  m1ur_device_stream_process fuel mem p remain = Done ([], p + remain, 0).
Proof.
  intros Hp Hr Hl Hf.
  destruct (stream_process_returns fuel mem p remain)
    as (blks & q & r & H & Hq & _ & _ & _ & Hshort); try assumption.
  { unfold M1UR_DEVICE_TS_SYNC_SIZE, M1UR_DEVICE_TS_SYNC_COUNT, window_max
      in *. lia. }
  destruct (Hshort (proj2 Hr)) as [-> ->].
  rewrite H. replace q with (p + remain) by lia. reflexivity.
Qed.

End ShortInput.

(** C3, as the code has it.  A scan that runs out of window before four
    aligned packets does not stop the pass: the pass skips one byte and
    scans again, so a window shorter than 752 bytes is consumed whole, with
    no block.  For an input that keeps the total below 752 bytes no block is
    given to the sink; its bytes are appended to a carry-over that was not
    empty, and are dropped when the carry-over was empty. *)
Theorem short_input_dropped_or_appended fuel ctx buf :
  context_ok ctx ->
  remain_len ctx + Z.of_nat (length buf) < M1UR_DEVICE_TS_SYNC_SIZE ->
  (length buf < fuel)%nat ->
  m1ur_device_stream_process fuel buf 0 (Z.of_nat (length buf))
  = Done ([], Z.of_nat (length buf), 0) /\
  exists ctx',
    m1ur_device_stream_handler fuel ctx buf (Z.of_nat (length buf))
    = Done (ctx', []) /\
    carry_over ctx' =
    if remain_len ctx =? 0 then [] else carry_over ctx ++ buf.
Proof.
  intros Hok Hlt Hf.
  assert (Hpass : m1ur_device_stream_process fuel buf 0
                    (Z.of_nat (length buf))
                  = Done ([], Z.of_nat (length buf), 0)).
  { destruct Hok as [_ Hrl].
    rewrite stream_process_short_window; try lia. reflexivity. }
  split; [exact Hpass|].
  destruct Hok as [Hrb Hrl].
  unfold M1UR_DEVICE_TS_SYNC_SIZE, M1UR_DEVICE_TS_SYNC_COUNT in *.
  set (len := Z.of_nat (length buf)) in *.
  unfold m1ur_device_stream_handler.
  sync_size.
  rewrite (u32_small (remain_len ctx)) by lia.
  destruct (remain_len ctx =? 0) eqn:E0.
  - apply Z.eqb_eq in E0.
    unfold handler_tail. rewrite Hpass.
    exists ctx. split; [reflexivity|].
    unfold carry_over. rewrite E0. reflexivity.
  - apply Z.eqb_neq in E0.
    rewrite (u32_small (remain_len ctx + len)) by lia.
    replace (188 * 4 <=? remain_len ctx + len) with false by cmp.
    rewrite memcpy_some by (fold len; lia).
    eexists. split; [reflexivity|].
    unfold carry_over. cbn [remain_buf remain_len].
    unfold size_t. rewrite Z.mod_small by lia.
    change (Z.to_nat 0) with 0%nat. rewrite skipn_0.
    rewrite (firstn_all2 (n := Z.to_nat len)) by (unfold len; lia).
    rewrite app_assoc, firstn_app.
    replace (Z.to_nat (remain_len ctx + len)
             - length (firstn (Z.to_nat (remain_len ctx)) (remain_buf ctx)
                         ++ buf))%nat with 0%nat
      by (rewrite length_app, length_firstn; lia).
    rewrite firstn_0, app_nil_r.
    apply firstn_all2. rewrite length_app, length_firstn. lia.
Qed.

(** * The control plane *)

Import Control.

(** Opens the result and the trace of a run that has been destructed. *)
Ltac open_run := unfold result, trace in *; cbn [fst snd] in *.

Section ControlBasics.

Context {D : Type} (respond : hw_call -> D -> reply * D).

Lemma run_try c (k : M D Z) d :
  try_ respond c k d =
  let (r, d') := respond c d in
  if ret r =? 0
  then let '(a, d2, l) := k d' in (a, d2, (c, r) :: l)
  else (ret r, d', [(c, r)]).
Proof.
  unfold try_, bind, call, ret_.
  destruct (respond c d) as [r d'].
  destruct (ret r =? 0); [|reflexivity].
  now destruct (k d') as [[a d2] l].
Qed.

Lemma run_call_bind {A} c (k : reply -> M D A) d :
  bind (call respond c) k d =
  let (r, d') := respond c d in
  let '(a, d2, l) := k r d' in (a, d2, (c, r) :: l).
Proof.
  unfold bind, call.
  destruct (respond c d) as [r d'].
  now destruct (k r d') as [[a d2] l].
Qed.

Lemma exactly_ret : exactly (D := D) (ret_ 0) [].
Proof. intros d _. reflexivity. Qed.

Lemma exactly_try c (k : M D Z) calls :
  exactly k calls -> exactly (try_ respond c k) (c :: calls).
Proof.
  intros H d. rewrite run_try.
  destruct (respond c d) as [r d'].
  destruct (ret r =? 0) eqn:E.
  - specialize (H d'). destruct (k d') as [[a d2] l].
    unfold result, trace in *. cbn [fst snd map] in *.
    intros Ha. now rewrite H.
  - apply Z.eqb_neq in E. unfold result. cbn [fst]. intros; contradiction.
Qed.

Lemma exactly_call c (k : M D Z) calls :
  exactly k calls -> exactly (bind (call respond c) (fun _ => k)) (c :: calls).
Proof.
  intros H d. rewrite run_call_bind.
  destruct (respond c d) as [r d'].
  specialize (H d'). destruct (k d') as [[a d2] l].
  unfold result, trace in *. cbn [fst snd map] in *.
  intros Ha. now rewrite H.
Qed.

Lemma exactly_ends_with (m : M D Z) calls :
  exactly m calls -> ends_with m calls.
Proof. intros H d Hd. exists []. now apply H. Qed.

Lemma ends_with_try c (k : M D Z) calls :
  ends_with k calls -> ends_with (try_ respond c k) calls.
Proof.
  intros H d. rewrite run_try.
  destruct (respond c d) as [r d'].
  destruct (ret r =? 0) eqn:E.
  - specialize (H d'). destruct (k d') as [[a d2] l].
    unfold result, trace in *. cbn [fst snd map] in *.
    intros Ha. destruct (H Ha) as [pre Hpre].
    exists (c :: pre). now rewrite Hpre.
  - apply Z.eqb_neq in E. unfold result. cbn [fst]. intros; contradiction.
Qed.

Lemma ends_with_call c (k : M D Z) calls :
  ends_with k calls -> ends_with (bind (call respond c) (fun _ => k)) calls.
Proof.
  intros H d. rewrite run_call_bind.
  destruct (respond c d) as [r d'].
  specialize (H d'). destruct (k d') as [[a d2] l].
  unfold result, trace in *. cbn [fst snd map] in *.
  intros Ha. destruct (H Ha) as [pre Hpre].
  exists (c :: pre). now rewrite Hpre.
Qed.

Lemma ends_with_pll_wait query g (rest : M D Z) calls :
  ends_with rest calls -> ends_with (pll_wait respond query g rest) calls.
Proof.
  intros H d. unfold pll_wait, bind.
  destruct (pll_poll respond 50 query 0 g d) as [[[r lk] d1] l1].
  destruct (negb (r =? 0)) eqn:E.
  - unfold ret_, result. cbn [fst]. intros ->. discriminate E.
  - destruct (negb lk).
    + unfold ret_, result. cbn [fst]. discriminate.
    + specialize (H d1). destruct (rest d1) as [[a d2] l2].
      open_run.
      intros Ha. destruct (H Ha) as [pre Hpre].
      exists (map fst l1 ++ pre).
      now rewrite map_app, Hpre, app_assoc.
Qed.

End ControlBasics.

(** C7, as the code has it.  A tune that returns 0 ends, for ISDB-S, with
    the call that enables the automatic gain control of the satellite
    demodulator; for ISDB-T the call that enables it for the terrestrial
    demodulator is followed by three more register writes (0x71 <- 0x01,
    0x72 <- 0x25, 0x75 <- 0x00) and a sleep of 100 ms. *)
Theorem tune_last_calls {D : Type} (respond : hw_call -> D -> reply * D)
  (f : Z) (tuner_locked : bool) (d : D) :
  (result (m1ur_chrdev_tune respond
             {| system := PTX_ISDB_S_SYSTEM; freq := f |} tuner_locked d) = 0 ->
   exists pre,
     map fst (trace (m1ur_chrdev_tune respond
                       {| system := PTX_ISDB_S_SYSTEM; freq := f |}
                       tuner_locked d))
     = pre ++ [tc90522_set_agc_s true]) /\
  (result (m1ur_chrdev_tune respond
             {| system := PTX_ISDB_T_SYSTEM; freq := f |} tuner_locked d) = 0 ->
   exists pre,
     map fst (trace (m1ur_chrdev_tune respond
                       {| system := PTX_ISDB_T_SYSTEM; freq := f |}
                       tuner_locked d))
     = pre ++ [tc90522_set_agc_t true;
               tc90522_write_reg TC90522_T 0x71 0x01;
               tc90522_write_reg TC90522_T 0x72 0x25;
               tc90522_write_reg TC90522_T 0x75 0x00;
               msleep 100]).
Proof.
  split.
  - revert d. unfold m1ur_chrdev_tune. cbn [system freq].
    repeat apply ends_with_try. apply ends_with_pll_wait.
    apply ends_with_call. apply exactly_ends_with.
    apply exactly_try. apply exactly_ret.
  - revert d. unfold m1ur_chrdev_tune. cbn [system freq].
    repeat apply ends_with_try. apply ends_with_pll_wait.
    apply exactly_ends_with.
    repeat apply exactly_try. apply exactly_call. apply exactly_ret.
Qed.

(** C8.  [set_capture(false)] first stops the streaming of the bus, whether
    the device is available or not; on a device that is not available it
    makes no other call, so it reaches no demodulator register, and it
    returns 0. *)
Theorem set_capture_false_stops_streaming_first {D : Type}
  (respond : hw_call -> D -> reply * D)
  (current_system : ptx_system_type) (psb_purge_timeout : Z)
  (stream_ctx : m1ur_stream_context) (d : D) :
  (forall available, exists r rest,
      trace (m1ur_chrdev_set_capture respond false available current_system
               psb_purge_timeout stream_ctx d)
      = (itedtv_bus_stop_streaming, r) :: rest) /\
  fst (result (m1ur_chrdev_set_capture respond false false current_system
                 psb_purge_timeout stream_ctx d)) = 0 /\
  map fst (trace (m1ur_chrdev_set_capture respond false false current_system
                    psb_purge_timeout stream_ctx d))
  = [itedtv_bus_stop_streaming] /\
  existsb is_demod_access
    (map fst (trace (m1ur_chrdev_set_capture respond false false
                       current_system psb_purge_timeout stream_ctx d)))
  = false.
Proof.
  unfold m1ur_chrdev_set_capture, m1ur_chrdev_stop_capture, enable_ts_pins.
  unfold bind, call, ret_, result, trace.
  destruct (respond itedtv_bus_stop_streaming d) as [r d'] eqn:E.
  split.
  - intros [|]; cbn [negb].
    + destruct current_system; cbn [fst snd app].
      * eauto.
      * destruct (respond (tc90522_enable_ts_pins_t false) d').
        cbn [fst snd app]. eauto.
      * destruct (respond (tc90522_enable_ts_pins_s false) d').
        cbn [fst snd app]. eauto.
    + cbn [fst snd app]. eauto.
  - cbn. auto.
Qed.

(** ** The lock poll *)

Section LockPoll.

Context {D : Type} (respond : hw_call -> D -> reply * D).

Lemma count_polls_cons c r l :
  count_polls ((c, r) :: l)
  = (if is_pll_query c then 1 else 0) + count_polls l.
Proof.
  unfold count_polls. cbn [filter fst].
  destruct (is_pll_query c); cbn [length]; lia.
Qed.

Lemma count_polls_app l1 l2 :
  count_polls (l1 ++ l2) = count_polls l1 + count_polls l2.
Proof.
  unfold count_polls. rewrite filter_app, length_app. lia.
Qed.

Lemma count_polls_nonneg l : 0 <= count_polls l.
Proof. unfold count_polls. lia. Qed.

Lemma count_polls_none l :
  Forall (fun e => is_pll_query (fst e) = false) l -> count_polls l = 0.
Proof.
  induction 1 as [|[c r] l Hc Hl IH]; [reflexivity|].
  rewrite count_polls_cons. cbn [fst] in Hc. rewrite Hc, IH. reflexivity.
Qed.

Lemma total_sleep_app l1 l2 :
  total_sleep (l1 ++ l2) = total_sleep l1 + total_sleep l2.
Proof.
  induction l1 as [|[c r] l1 IH]; [reflexivity|].
  cbn [app total_sleep]. destruct c; rewrite ?IH; lia.
Qed.

Lemma pll_poll_S i query ret0 g d :
  pll_poll respond (S i) query ret0 g d =
  let (r, d1) := respond query d in
  let lk := match out r with Some v => negb (v =? 0) | None => g end in
  if (ret r =? 0) && lk then ((ret r, lk), d1, [(query, r)])
  else
    let (rs, d2) := respond (msleep 10) d1 in
    let '(a, d3, l) := pll_poll respond i query (ret r) lk d2 in
    (a, d3, (query, r) :: (msleep 10, rs) :: l).
Proof.
  cbn [pll_poll]. rewrite run_call_bind.
  destruct (respond query d) as [r d1]. cbv zeta.
  destruct ((ret r =? 0) && _); [reflexivity|].
  rewrite run_call_bind.
  destruct (respond (msleep 10) d1) as [rs d2].
  now destruct (pll_poll respond i query (ret r) _ d2) as [[a d3] l].
Qed.

(** The loop makes at most [i] queries. *)
Lemma pll_poll_bounded i : forall query ret0 g d,
  is_pll_query query = true ->
  count_polls (trace (pll_poll respond i query ret0 g d)) <= Z.of_nat i.
Proof.
  induction i as [|i IH]; intros query ret0 g d Hq.
  - cbn. lia.
  - rewrite pll_poll_S.
    destruct (respond query d) as [r d1]. cbv zeta.
    destruct ((ret r =? 0) && _).
    + unfold trace. cbn [snd]. rewrite count_polls_cons, Hq.
      change (count_polls []) with 0. lia.
    + destruct (respond (msleep 10) d1) as [rs d2].
      specialize (IH query (ret r)
                    (match out r with Some v => negb (v =? 0) | None => g end)
                    d2 Hq).
      destruct (pll_poll respond i query (ret r) _ d2) as [[a d3] l].
      unfold trace in *. cbn [snd] in *.
      rewrite !count_polls_cons, Hq. cbn [is_pll_query]. lia.
Qed.

(** When every query succeeds and reports no lock, the loop makes [i]
    queries, each followed by a sleep of 10 ms. *)
Lemma pll_poll_never_locked i : forall query ret0 g d,
  is_pll_query query = true ->
  (forall d, ret (fst (respond query d)) = 0) ->
  (forall d, out (fst (respond query d)) = Some 0) ->
  result (pll_poll respond i query ret0 g d)
  = (if Nat.eqb i 0 then (ret0, g) else (0, false)) /\
  count_polls (trace (pll_poll respond i query ret0 g d)) = Z.of_nat i /\
  total_sleep (trace (pll_poll respond i query ret0 g d)) = 10 * Z.of_nat i.
Proof.
  induction i as [|i IH]; intros query ret0 g d Hq Hret Hout.
  - cbn. auto.
  - rewrite pll_poll_S.
    pose proof (Hret d) as Hr0. pose proof (Hout d) as Ho0.
    destruct (respond query d) as [r d1]. cbn [fst] in Hr0, Ho0.
    cbv zeta. rewrite Ho0, Hr0. cbn [negb Z.eqb andb].
    destruct (respond (msleep 10) d1) as [rs d2].
    destruct (IH query 0 false d2) as (Hres & Hcnt & Hsl); try assumption.
    destruct (pll_poll respond i query 0 false d2) as [[a d3] l].
    open_run.
    rewrite !count_polls_cons, Hq. cbn [is_pll_query total_sleep].
    split; [|split].
    + cbn [Nat.eqb]. rewrite Hres. now destruct (Nat.eqb i 0).
    + lia.
    + destruct query; try discriminate Hq; lia.
Qed.

End LockPoll.

Section NeverLocked.

Context {D : Type} (respond : hw_call -> D -> reply * D).

Hypothesis all_succeed : forall c d, ret (fst (respond c d)) = 0.
Hypothesis never_locked :
  forall c d, is_pll_query c = true -> out (fst (respond c d)) = Some 0.

Lemma times_out_try c (k : M D Z) :
  is_pll_query c = false -> (forall ms, c <> msleep ms) ->
  (forall d, times_out (k d)) -> forall d, times_out (try_ respond c k d).
Proof.
  intros Hq Hs Hk d. rewrite run_try.
  pose proof (all_succeed c d) as Hr.
  destruct (respond c d) as [r d']. cbn [fst] in Hr.
  rewrite Hr. cbn [Z.eqb].
  specialize (Hk d'). destruct (k d') as [[a d2] l].
  unfold times_out, result, trace in *. cbn [fst snd] in *.
  rewrite count_polls_cons, Hq.
  destruct Hk as (Ha & Hc & Ht). repeat split; try assumption.
  cbn [total_sleep]. destruct c; try assumption.
  now destruct (Hs ms).
Qed.

Lemma times_out_pll_wait query g (rest : M D Z) d :
  is_pll_query query = true ->
  times_out (pll_wait respond query g rest d).
Proof.
  intros Hq. unfold pll_wait, bind.
  destruct (pll_poll_never_locked respond 50 query 0 g d Hq)
    as (Hres & Hcnt & Hsl).
  { intros d0. apply all_succeed. }
  { intros d0. now apply never_locked. }
  destruct (pll_poll respond 50 query 0 g d) as [[[r lk] d1] l].
  unfold result, trace in *. cbn [fst snd Nat.eqb] in *.
  injection Hres as -> ->. cbn [negb Z.eqb].
  unfold ret_, times_out, result, trace. cbn [fst snd].
  rewrite app_nil_r. repeat split; assumption.
Qed.

End NeverLocked.

(** C6.  On a device whose every call succeeds and whose lock query always
    reports "not locked", a tune for ISDB-T or ISDB-S makes exactly 50 lock
    queries, sleeps 50 times 10 ms, 500 ms in all, and returns -EAGAIN. *)
Theorem tune_gives_up_after_50_polls {D : Type}
  (respond : hw_call -> D -> reply * D)
  (params : ptx_tune_params) (tuner_locked : bool) (d : D) :
  system params <> PTX_UNSPECIFIED_SYSTEM ->
  (forall c d, ret (fst (respond c d)) = 0) ->
  (forall c d, is_pll_query c = true -> out (fst (respond c d)) = Some 0) ->
  result (m1ur_chrdev_tune respond params tuner_locked d) = - EAGAIN /\
  count_polls (trace (m1ur_chrdev_tune respond params tuner_locked d)) = 50 /\
  total_sleep (trace (m1ur_chrdev_tune respond params tuner_locked d)) = 500.
Proof.
  intros Hsys Hret Hout.
  change (times_out (m1ur_chrdev_tune respond params tuner_locked d)).
  revert d. unfold m1ur_chrdev_tune.
  destruct (system params); [contradiction| |];
    repeat (apply times_out_try;
            [assumption|reflexivity|discriminate|]);
    intros d; now apply times_out_pll_wait.
Qed.

(** ** Lock queries that fail *)

Section FailedQuery.

Context {D : Type} (respond : hw_call -> D -> reply * D).

Lemma no_pll_query_ret a : no_pll_query (D := D) (ret_ a).
Proof. intros d. constructor. Qed.

Lemma no_pll_query_try c (k : M D Z) :
  is_pll_query c = false -> no_pll_query k ->
  no_pll_query (try_ respond c k).
Proof.
  intros Hc Hk d. rewrite run_try.
  destruct (respond c d) as [r d'].
  destruct (ret r =? 0).
  - specialize (Hk d'). destruct (k d') as [[a d2] l].
    unfold trace in *. cbn [snd] in *. constructor; assumption.
  - unfold trace. cbn [snd]. constructor; [assumption|constructor].
Qed.

Lemma no_pll_query_call c (k : M D Z) :
  is_pll_query c = false -> no_pll_query k ->
  no_pll_query (bind (call respond c) (fun _ => k)).
Proof.
  intros Hc Hk d. rewrite run_call_bind.
  destruct (respond c d) as [r d'].
  specialize (Hk d'). destruct (k d') as [[a d2] l].
  unfold trace in *. cbn [snd] in *. constructor; assumption.
Qed.

Lemma retries_try n c (k : M D Z) :
  is_pll_query c = false ->
  (forall d, retries_after_failure n (trace (k d)) (result (k d))) ->
  forall d, retries_after_failure n (trace (try_ respond c k d))
              (result (try_ respond c k d)).
Proof.
  intros Hc Hk d. rewrite run_try.
  destruct (respond c d) as [r0 d'].
  destruct (ret r0 =? 0).
  - specialize (Hk d'). destruct (k d') as [[a d2] l].
    open_run.
    intros pre c' r post Heq Hq Hr.
    destruct pre as [|e pre]; cbn [app] in Heq.
    + injection Heq as <- <- <-. congruence.
    + injection Heq as <- ->.
      destruct (Hk pre c' r post eq_refl Hq Hr)
        as (rs & post' & Hp & Hlt & Hge).
      exists rs, post'. rewrite count_polls_cons, Hc.
      split; [assumption|]. split; intros; [apply Hlt|apply Hge]; lia.
  - unfold result, trace. cbn [fst snd].
    intros pre c' r post Heq Hq Hr.
    destruct pre as [|e pre]; cbn [app] in Heq.
    + injection Heq as <- <- <-. congruence.
    + injection Heq as _ Heq. destruct pre; discriminate Heq.
Qed.

(** In the loop a failed query is followed by a sleep and, while attempts
    remain, by the next query; the status of a failed last query is the
    status the loop ends with. *)
Lemma pll_poll_retries i : forall query ret0 g d,
  is_pll_query query = true ->
  (forall pre c r post,
      trace (pll_poll respond i query ret0 g d) = pre ++ (c, r) :: post ->
      is_pll_query c = true -> ret r <> 0 ->
      c = query /\
      exists rs post',
        post = (msleep 10, rs) :: post' /\
        (count_polls pre < Z.of_nat i - 1 ->
         exists r' post'', post' = (c, r') :: post'') /\
        (Z.of_nat i - 1 <= count_polls pre ->
         post' = [] /\
         fst (result (pll_poll respond i query ret0 g d)) = ret r)) /\
  (i = O -> trace (pll_poll respond i query ret0 g d) = [] /\
            fst (result (pll_poll respond i query ret0 g d)) = ret0) /\
  (i <> O -> exists r' l',
      trace (pll_poll respond i query ret0 g d) = (query, r') :: l').
Proof.
  induction i as [|i IH]; intros query ret0 g d Hq.
  - split; [|split].
    + intros pre c r post Heq. destruct pre; discriminate Heq.
    + intros _. split; reflexivity.
    + intros H; contradiction.
  - rewrite pll_poll_S.
    destruct (respond query d) as [r1 d1]. cbv zeta.
    set (lk := match out r1 with Some v => negb (v =? 0) | None => g end).
    destruct ((ret r1 =? 0) && lk) eqn:E.
    + unfold result, trace. cbn [fst snd].
      split; [|split].
      * intros pre c r post Heq _ Hr.
        destruct pre as [|e pre]; cbn [app] in Heq.
        -- injection Heq as <- <- <-.
           apply andb_prop in E as [E _]. apply Z.eqb_eq in E. contradiction.
        -- injection Heq as _ Heq. destruct pre; discriminate Heq.
      * discriminate.
      * intros _. eauto.
    + destruct (respond (msleep 10) d1) as [rs d2].
      specialize (IH query (ret r1) lk d2 Hq).
      destruct (pll_poll respond i query (ret r1) lk d2) as [[a d3] l].
      open_run.
      destruct IH as (IH1 & IH2 & IH3).
      split; [|split].
      * intros pre c r post Heq Hc Hr.
        destruct pre as [|e pre]; cbn [app] in Heq.
        -- injection Heq as <- <- <-.
           split; [reflexivity|].
           exists rs, l. split; [reflexivity|].
           change (count_polls []) with 0. split.
           ++ intros Hlt. destruct IH3 as (r' & l' & ->); [lia|]. eauto.
           ++ intros Hge. apply IH2. lia.
        -- injection Heq as <- Heq.
           destruct pre as [|e pre]; cbn [app] in Heq.
           ++ injection Heq as <- _ _. discriminate Hc.
           ++ injection Heq as <- ->.
              destruct (IH1 pre c r post eq_refl Hc Hr)
                as (-> & rs' & post' & Hp & Hlt & Hge).
              split; [reflexivity|].
              exists rs', post'.
              rewrite !count_polls_cons, Hq. cbn [is_pll_query].
              split; [assumption|].
              split; intros; [apply Hlt|apply Hge]; lia.
      * discriminate.
      * intros _. eauto.
Qed.

Lemma retries_pll_wait query g (rest : M D Z) :
  is_pll_query query = true -> no_pll_query rest ->
  forall d, retries_after_failure 50
              (trace (pll_wait respond query g rest d))
              (result (pll_wait respond query g rest d)).
Proof.
  intros Hq Hrest d. unfold pll_wait, bind.
  destruct (pll_poll_retries 50 query 0 g d Hq) as (H1 & _ & _).
  destruct (pll_poll respond 50 query 0 g d) as [[[pr lk] d1] l1].
  unfold result, trace in H1. cbn [fst snd] in H1.
  assert (Hmain : forall (res : Z) l2,
             Forall (fun e => is_pll_query (fst e) = false) l2 ->
             (pr <> 0 -> l2 = [] /\ res = pr) ->
             retries_after_failure 50 (l1 ++ l2) res).
  { intros res l2 Hl2 Hfail pre c r post Heq Hc Hr.
    apply app_eq_app in Heq as [m [[-> Hm]|[-> Hm]]].
    - destruct m as [|e m]; cbn [app] in Hm.
      + rewrite <- Hm in Hl2. inversion Hl2 as [|? ? Hx _]. cbn [fst] in Hx.
        congruence.
      + injection Hm as <- ->.
        destruct (H1 pre c r m eq_refl Hc Hr)
          as (_ & rs & post' & -> & Hlt & Hge).
        exists rs, (post' ++ l2). split; [reflexivity|]. split.
        * intros Hlt'. destruct (Hlt Hlt') as (r' & post'' & ->).
          cbn [app]. eauto.
        * intros Hge'. destruct (Hge Hge') as [-> Hpr].
          destruct Hfail as [-> ->]; [congruence|]. auto.
    - rewrite Hm in Hl2. apply Forall_app in Hl2 as [_ Hl2].
      inversion Hl2 as [|? ? Hx _]. cbn [fst] in Hx. congruence. }
  destruct (negb (pr =? 0)) eqn:E.
  - unfold ret_, result, trace. cbn [fst snd].
    apply Hmain; [constructor|auto].
  - apply negb_false_iff, Z.eqb_eq in E.
    destruct (negb lk).
    + unfold ret_, result, trace. cbn [fst snd].
      apply Hmain; [constructor|]. intros; contradiction.
    + specialize (Hrest d1). destruct (rest d1) as [[a d2] l2].
      open_run.
      apply Hmain; [assumption|]. intros; contradiction.
Qed.

Lemma polls_bounded_try n c (k : M D Z) :
  is_pll_query c = false ->
  (forall d, count_polls (trace (k d)) <= n) ->
  forall d, count_polls (trace (try_ respond c k d)) <= n.
Proof.
  intros Hc Hk d. rewrite run_try.
  destruct (respond c d) as [r d'].
  pose proof (count_polls_nonneg (trace (k d'))) as H0.
  specialize (Hk d').
  destruct (ret r =? 0).
  - destruct (k d') as [[a d2] l].
    unfold trace in *. cbn [snd] in *. rewrite count_polls_cons, Hc. lia.
  - unfold trace in *. cbn [snd].
    rewrite count_polls_cons, Hc. change (count_polls []) with 0. lia.
Qed.

Lemma polls_bounded_pll_wait query g (rest : M D Z) :
  is_pll_query query = true -> no_pll_query rest ->
  forall d, count_polls (trace (pll_wait respond query g rest d)) <= 50.
Proof.
  intros Hq Hrest d. unfold pll_wait, bind.
  pose proof (pll_poll_bounded respond 50 query 0 g d Hq) as Hb.
  destruct (pll_poll respond 50 query 0 g d) as [[[pr lk] d1] l1].
  unfold trace in Hb. cbn [snd] in Hb. change (Z.of_nat 50) with 50 in Hb.
  destruct (negb (pr =? 0)); [|destruct (negb lk)].
  - unfold ret_, trace. cbn [snd]. now rewrite app_nil_r.
  - unfold ret_, trace. cbn [snd]. now rewrite app_nil_r.
  - specialize (Hrest d1). destruct (rest d1) as [[a d2] l2].
    unfold trace in *. cbn [snd] in *.
    rewrite count_polls_app, (count_polls_none l2 Hrest). lia.
Qed.

(** On every device a tune makes at most 50 lock queries. *)
Lemma tune_polls_bounded (params : ptx_tune_params) (g : bool) (d : D) :
  count_polls (trace (m1ur_chrdev_tune respond params g d)) <= 50.
Proof.
  revert d. unfold m1ur_chrdev_tune.
  destruct (system params).
  - intros d. cbn. lia.
  - repeat (apply polls_bounded_try; [reflexivity|]).
    apply polls_bounded_pll_wait; [reflexivity|].
    repeat (apply no_pll_query_try; [reflexivity|]).
    apply no_pll_query_call; [reflexivity|]. apply no_pll_query_ret.
  - repeat (apply polls_bounded_try; [reflexivity|]).
    apply polls_bounded_pll_wait; [reflexivity|].
    apply no_pll_query_call; [reflexivity|].
    apply no_pll_query_try; [reflexivity|]. apply no_pll_query_ret.
Qed.

End FailedQuery.

(** C5, as the code has it.  In every tune, on every device, a lock query
    that fails does not end the tune: it is followed by a sleep of 10 ms
    and, while fewer than 50 queries have been made, by another query; only
    when the failed query is the 50th does the tune stop there, and it
    returns the status of that query. *)
Theorem tune_retries_failed_lock_query {D : Type}
  (respond : hw_call -> D -> reply * D)
  (params : ptx_tune_params) (tuner_locked : bool) (d : D) :
  retries_after_failure 50
    (trace (m1ur_chrdev_tune respond params tuner_locked d))
    (result (m1ur_chrdev_tune respond params tuner_locked d)).
Proof.
  revert d. unfold m1ur_chrdev_tune.
  destruct (system params).
  - intros d pre c r post Heq. destruct pre; discriminate Heq.
  - repeat (apply retries_try; [reflexivity|]).
    apply retries_pll_wait; [reflexivity|].
    repeat (apply no_pll_query_try; [reflexivity|]).
    apply no_pll_query_call; [reflexivity|]. apply no_pll_query_ret.
  - repeat (apply retries_try; [reflexivity|]).
    apply retries_pll_wait; [reflexivity|].
    apply no_pll_query_call; [reflexivity|].
    apply no_pll_query_try; [reflexivity|]. apply no_pll_query_ret.
Qed.

(** ** The check of the transport ID *)

Section TsidCheck.

Context {D : Type} (respond : hw_call -> D -> reply * D).

Lemma tsid_poll_S i tsid ret0 tsid2 d :
  tsid_poll respond (S i) tsid ret0 tsid2 d =
  let (r, d1) := respond tc90522_get_tsid_s d in
  let tsid2' := match out r with Some v => u16 v | None => tsid2 end in
  if (ret r =? 0) && (tsid2' =? tsid) then ((ret r, tsid2'), d1,
                                            [(tc90522_get_tsid_s, r)])
  else
    let (rs, d2) := respond (msleep 10) d1 in
    let '(a, d3, l) := tsid_poll respond i tsid (ret r) tsid2' d2 in
    (a, d3, (tc90522_get_tsid_s, r) :: (msleep 10, rs) :: l).
Proof.
  cbn [tsid_poll]. rewrite run_call_bind.
  destruct (respond tc90522_get_tsid_s d) as [r d1]. cbv zeta.
  destruct ((ret r =? 0) && _); [reflexivity|].
  rewrite run_call_bind.
  destruct (respond (msleep 10) d1) as [rs d2].
  now destruct (tsid_poll respond i tsid (ret r) _ d2) as [[a d3] l].
Qed.

End TsidCheck.

(** * The theorems at work on concrete streams and devices *)

Section Checkers.

Lemma alignedb_sound s : alignedb s = true -> aligned s.
Proof.
  unfold alignedb. intros H j Hj Hlt.
  rewrite forallb_forall in H. specialize (H (Z.to_nat j)).
  rewrite Z2Nat.id in H by lia.
  replace (188 * j <? Z.of_nat (length s)) with true in H by cmp.
  destruct (load s (188 * j)) as [x|].
  - f_equal. apply Z.eqb_eq. apply H. apply in_seq. split; [lia|].
    cbn [Nat.add]. apply Nat.lt_succ_r.
    apply Nat.div_le_lower_bound; lia.
  - assert (false = true) as Hf; [|discriminate Hf].
    apply H. apply in_seq. split; [lia|].
    cbn [Nat.add]. apply Nat.lt_succ_r.
    apply Nat.div_le_lower_bound; lia.
Qed.

Lemma carrying_ok c :
  Z.of_nat (length c) < M1UR_DEVICE_TS_SYNC_SIZE -> context_ok (carrying c).
Proof.
  unfold context_ok, carrying, M1UR_DEVICE_TS_SYNC_SIZE,
    M1UR_DEVICE_TS_SYNC_COUNT.
  cbn [remain_buf remain_len]. intros H.
  rewrite length_app, repeat_length. lia.
Qed.

End Checkers.

(** Large chunks are not enough for the blocks to be independent of the
    partition: a byte of garbage four packets or less before the end of a
    chunk costs the packets between it and the end of the chunk. *)
Lemma garbage_near_chunk_end_loses_packets :
  exists ctx1 blks1 ctx2 blks2,
    feed 5000 fresh_context [packets 8 ++ [0] ++ packets 3; packets 8]
    = Done (ctx1, blks1) /\
    feed 5000 fresh_context [(packets 8 ++ [0] ++ packets 3) ++ packets 8]
    = Done (ctx2, blks2) /\
    length (concat blks1) = (16 * 188)%nat /\
    length (concat blks2) = (19 * 188)%nat.
Proof.
  eexists _, _, _, _.
  split; [vm_compute; reflexivity|].
  split; [vm_compute; reflexivity|].
  split; reflexivity.
Qed.

(** C2 fails on the code: four packets delivered one byte at a time give
    the sink nothing, and delivered as one chunk give it all 752 bytes. *)
Lemma one_byte_delivery_emits_nothing :
  exists ctx1 blks1 ctx2 blks2,
    feed 1000 fresh_context (one_byte_chunks (packets 4))
    = Done (ctx1, blks1) /\
    feed 1000 fresh_context [packets 4] = Done (ctx2, blks2) /\
    concat blks1 <> concat blks2.
Proof.
  exists fresh_context, [], fresh_context, [packets 4].
  split; [vm_compute; reflexivity|].
  split; [vm_compute; reflexivity|].
  vm_compute. discriminate.
Qed.

(** Two chunks of 1600 and 1596 bytes out of 17 packets. *)
Lemma aligned_stream_chunking_witness :
  exists ctx1 blks1 ctx2 blks2,
    feed 4000 fresh_context
      [firstn 1600 (packets 17); skipn 1600 (packets 17)]
    = Done (ctx1, blks1) /\
    feed 4000 fresh_context
      [concat [firstn 1600 (packets 17); skipn 1600 (packets 17)]]
    = Done (ctx2, blks2) /\
    concat blks1 = concat blks2 /\
    carry_over ctx1 = carry_over ctx2.
Proof.
  apply aligned_stream_chunking.
  - apply alignedb_sound. vm_compute. reflexivity.
  - intros c [<-|[<-|[]]]; vm_compute; discriminate.
  - vm_compute. discriminate.
  - apply Nat.ltb_lt. vm_compute. reflexivity.
Defined.

(** C3 fails on the code: three packets given to a fresh context are not
    kept; the carry-over stays empty. *)
Lemma three_packets_not_carried_over :
  exists ctx',
    m1ur_device_stream_handler 1000 fresh_context (packets 3) 564
    = Done (ctx', []) /\
    remain_len ctx' = 0 /\ carry_over ctx' <> packets 3.
Proof.
  exists fresh_context.
  split; [vm_compute; reflexivity|].
  split; [reflexivity|]. vm_compute. discriminate.
Qed.

(** Two packets after a carry-over of three bytes. *)
Lemma short_input_dropped_or_appended_witness :
  m1ur_device_stream_process 1000 (packets 2) 0
    (Z.of_nat (length (packets 2)))
  = Done ([], Z.of_nat (length (packets 2)), 0) /\
  exists ctx',
    m1ur_device_stream_handler 1000 (carrying [0x47; 1; 2]) (packets 2)
      (Z.of_nat (length (packets 2)))
    = Done (ctx', []) /\
    carry_over ctx' =
    if remain_len (carrying [0x47; 1; 2]) =? 0 then []
    else carry_over (carrying [0x47; 1; 2]) ++ packets 2.
Proof.
  apply short_input_dropped_or_appended.
  - apply carrying_ok. vm_compute. reflexivity.
  - vm_compute. reflexivity.
  - apply Nat.ltb_lt. vm_compute. reflexivity.
Defined.

(** Five packets and three bytes of a sixth, then the rest of five more. *)
Lemma stream_handler_carry_over_bound_witness :
  exists ctx blks ctx' blks',
    feed 1000 fresh_context [packets 5 ++ [0x47; 0; 0]] = Done (ctx, blks) /\
    m1ur_device_stream_handler 1000 ctx (skipn 3 (packets 5))
      (Z.of_nat (length (skipn 3 (packets 5)))) = Done (ctx', blks') /\
    0 <= remain_len ctx' < M1UR_DEVICE_TS_SYNC_SIZE /\
    (M1UR_DEVICE_TS_SYNC_SIZE
     <= remain_len ctx + Z.of_nat (length (skipn 3 (packets 5))) ->
     remain_len ctx' < 188).
Proof.
  destruct (feed 1000 fresh_context [packets 5 ++ [0x47; 0; 0]])
    as [[ctx blks]| |] eqn:Hf; [|vm_compute in Hf; discriminate Hf..].
  destruct (m1ur_device_stream_handler 1000 ctx (skipn 3 (packets 5))
              (Z.of_nat (length (skipn 3 (packets 5)))))
    as [[ctx' blks']| |] eqn:H.
  - exists ctx, blks, ctx', blks'.
    split; [reflexivity|]. split; [exact H|].
    apply (stream_handler_carry_over_bound 1000
             [packets 5 ++ [0x47; 0; 0]] (skipn 3 (packets 5))
             ctx blks ctx' blks'); [|exact Hf|exact H].
    intros c' [<-|[<-|[]]]; vm_compute; reflexivity.
  - vm_compute in Hf. injection Hf as <- <-.
    vm_compute in H. discriminate H.
  - vm_compute in Hf. injection Hf as <- <-.
    vm_compute in H. discriminate H.
Defined.

(** C5 fails on the code: the first lock query fails on the bus, the tune
    sleeps, queries again, finds the PLL locked and returns 0. *)
Lemma tune_survives_failed_lock_query :
  result (m1ur_chrdev_tune (scripted ok)
            {| system := PTX_ISDB_T_SYSTEM; freq := 473143 |} false
            (repeat ok 11 ++ [failed; locked])) = 0 /\
  map fst
    (firstn 3
       (skipn 11
          (trace (m1ur_chrdev_tune (scripted ok)
                    {| system := PTX_ISDB_T_SYSTEM; freq := 473143 |} false
                    (repeat ok 11 ++ [failed; locked])))))
  = [r850_is_pll_locked; msleep 10; r850_is_pll_locked] /\
  nth_error
    (trace (m1ur_chrdev_tune (scripted ok)
              {| system := PTX_ISDB_T_SYSTEM; freq := 473143 |} false
              (repeat ok 11 ++ [failed; locked]))) 11
  = Some (r850_is_pll_locked, failed).
Proof. vm_compute. repeat split. Qed.

(** A tuner that never locks. *)
Lemma tune_gives_up_after_50_polls_witness :
  result (m1ur_chrdev_tune never_locks
            {| system := PTX_ISDB_S_SYSTEM; freq := 1049480 |} false tt)
  = - EAGAIN /\
  count_polls (trace (m1ur_chrdev_tune never_locks
                        {| system := PTX_ISDB_S_SYSTEM; freq := 1049480 |}
                        false tt)) = 50 /\
  total_sleep (trace (m1ur_chrdev_tune never_locks
                        {| system := PTX_ISDB_S_SYSTEM; freq := 1049480 |}
                        false tt)) = 500.
Proof.
  apply tune_gives_up_after_50_polls.
  - cbn [system]. discriminate.
  - intros c d. reflexivity.
  - intros c d _. reflexivity.
Defined.

(** C7 fails on the code for ISDB-T: after the call that enables the
    automatic gain control the tune writes registers again. *)
Lemma tune_isdb_t_writes_after_agc :
  result (m1ur_chrdev_tune (scripted ok)
            {| system := PTX_ISDB_T_SYSTEM; freq := 473143 |} false
            (repeat ok 11 ++ [locked])) = 0 /\
  map fst (skipn 12
             (trace (m1ur_chrdev_tune (scripted ok)
                       {| system := PTX_ISDB_T_SYSTEM; freq := 473143 |}
                       false (repeat ok 11 ++ [locked]))))
  = tc90522_set_agc_t true
      :: [tc90522_write_reg TC90522_T 0x71 0x01;
          tc90522_write_reg TC90522_T 0x72 0x25;
          tc90522_write_reg TC90522_T 0x75 0x00;
          msleep 100] /\
  existsb is_register_write
    [tc90522_write_reg TC90522_T 0x71 0x01;
     tc90522_write_reg TC90522_T 0x72 0x25;
     tc90522_write_reg TC90522_T 0x75 0x00;
     msleep 100] = true.
Proof. vm_compute. repeat split. Qed.

(** Both standards on a device whose PLL locks at the first query. *)
Lemma tune_last_calls_witness :
  (exists pre,
      map fst (trace (m1ur_chrdev_tune (scripted ok)
                        {| system := PTX_ISDB_S_SYSTEM; freq := 1049480 |}
                        false (repeat ok 11 ++ [locked])))
      = pre ++ [tc90522_set_agc_s true]) /\
  (exists pre,
      map fst (trace (m1ur_chrdev_tune (scripted ok)
                        {| system := PTX_ISDB_T_SYSTEM; freq := 1049480 |}
                        false (repeat ok 11 ++ [locked])))
      = pre ++ [tc90522_set_agc_t true;
                tc90522_write_reg TC90522_T 0x71 0x01;
                tc90522_write_reg TC90522_T 0x72 0x25;
                tc90522_write_reg TC90522_T 0x75 0x00;
                msleep 100]).
Proof.
  destruct (tune_last_calls (scripted ok) 1049480 false
              (repeat ok 11 ++ [locked])) as [HS HT].
  split; [apply HS|apply HT]; vm_compute; reflexivity.
Defined.

(** * More about the synchronizer *)

Import Observed.

(** ** Windows as lists *)

Section Windows.

Lemma firstn_add {A} (a b : nat) : forall l : list A,
  firstn (a + b) l = firstn a l ++ firstn b (skipn a l).
Proof.
  induction a as [|a IH]; intros l; [reflexivity|].
  destruct l as [|x l]; cbn [Nat.add firstn skipn app].
  - now destruct b.
  - now rewrite IH.
Qed.

(** A window is the block at its head followed by the window behind it. *)
Lemma window_split (mem : list Z) p n remain :
  0 <= p -> 0 <= n <= remain ->
  firstn (Z.to_nat remain) (skipn (Z.to_nat p) mem)
  = firstn (Z.to_nat n) (skipn (Z.to_nat p) mem)
    ++ firstn (Z.to_nat (remain - n)) (skipn (Z.to_nat (p + n)) mem).
Proof.
  intros Hp Hn.
  replace (Z.to_nat remain) with (Z.to_nat n + Z.to_nat (remain - n))%nat
    by lia.
  rewrite firstn_add, skipn_skipn.
  now replace (Z.to_nat n + Z.to_nat p)%nat with (Z.to_nat (p + n)) by lia.
Qed.

Lemma window_one mem p b :
  0 <= p -> load mem p = Some b ->
  firstn (Z.to_nat 1) (skipn (Z.to_nat p) mem) = [b].
Proof.
  intros Hp Hb. unfold load in Hb.
  replace (p <? 0) with false in Hb by cmp.
  destruct (nth_error_split _ _ Hb) as (l1 & l2 & -> & Hl).
  rewrite skipn_app, <- Hl, Nat.sub_diag, skipn_all.
  reflexivity.
Qed.

(** A window that is not empty is its first byte followed by the window
    behind it. *)
Lemma window_cons mem p remain b :
  0 <= p -> 0 < remain -> load mem p = Some b ->
  firstn (Z.to_nat remain) (skipn (Z.to_nat p) mem)
  = b :: firstn (Z.to_nat (remain - 1)) (skipn (Z.to_nat (p + 1)) mem).
Proof.
  intros Hp Hr Hb.
  rewrite (window_split mem p 1 remain) by lia.
  now rewrite (window_one mem p b).
Qed.

End Windows.

(** ** The blocks are pieces of the window *)

Section Pieces.

Lemma process_loop_pieces fuel : forall n mem p remain,
  0 <= p -> 0 <= remain <= window_max ->
  p + remain <= Z.of_nat (length mem) ->
  (Z.to_nat remain < fuel)%nat -> (Z.to_nat (remain / 188) < n)%nat ->
  exists blks q r,
    process_loop n fuel mem p remain = Done (blks, q, r) /\
    0 <= q /\
    pieces_of (firstn (Z.to_nat remain) (skipn (Z.to_nat p) mem)) blks
      (firstn (Z.to_nat r) (skipn (Z.to_nat q) mem)) /\
    Forall (fun b => M1UR_DEVICE_TS_SYNC_SIZE <= Z.of_nat (length b)) blks.
Proof.
  unfold window_max, M1UR_DEVICE_TS_SYNC_SIZE, M1UR_DEVICE_TS_SYNC_COUNT.
  induction fuel as [|fuel IH]; intros n mem p remain Hp Hr Hlen Hf Hn.
  - lia.
  - rewrite process_loop_S.
    destruct (remain =? 0) eqn:E0.
    + apply Z.eqb_eq in E0. subst remain.
      exists [], p, 0.
      split; [reflexivity|]. split; [lia|].
      split; [constructor|constructor].
    + apply Z.eqb_neq in E0.
      destruct (sync_scan_nowrap n mem p remain 0)
        as (j & sr & Hs & Hj0 & Hj & Hk & Ht & Hfl);
        try (unfold window_max; lia).
      rewrite Hs. unfold M1UR_DEVICE_TS_SYNC_COUNT.
      destruct (div188 remain) as [Hd Hm].
      destruct (j <? 4) eqn:E4.
      * apply Z.ltb_lt in E4.
        rewrite u32_small by lia.
        destruct (IH n mem (p + 1) (remain - 1))
          as (blks & q & r & Hpr & Hq & Hpc & Hbig); try lia.
        { destruct (div188 (remain - 1)) as [Hd' Hm']. lia. }
        exists blks, q, r.
        split; [assumption|]. split; [lia|]. split; [|assumption].
        destruct (load_inside mem p) as [b Hb]; [lia|].
        rewrite (window_cons mem p remain b) by (assumption || lia).
        now constructor.
      * apply Z.ltb_ge in E4.
        rewrite (u32_small (188 * j)) by lia.
        unfold ptx_chrdev_put_stream.
        rewrite bytes_at_some by lia.
        set (blk := firstn (Z.to_nat (188 * j)) (skipn (Z.to_nat p) mem)).
        assert (Hl : Z.of_nat (length blk) = 188 * j).
        { unfold blk. rewrite length_firstn, length_skipn. lia. }
        cbv zeta. rewrite (u32_small (remain - 188 * j)) by lia.
        rewrite (window_split mem p (188 * j) remain) by lia.
        fold blk.
        destruct sr.
        -- exists [blk], (p + 188 * j), (remain - 188 * j).
           split; [reflexivity|]. split; [lia|].
           split; [constructor; constructor|].
           constructor; [lia|constructor].
        -- destruct (IH n mem (p + 188 * j) (remain - 188 * j))
             as (blks & q & r & Hpr & Hq & Hpc & Hbig); try lia.
           { destruct (div188 (remain - 188 * j)) as [Hd' Hm']. lia. }
           rewrite Hpr.
           exists (blk :: blks), q, r.
           split; [reflexivity|]. split; [lia|].
           split; [now constructor|].
           constructor; [lia|assumption].
Qed.

End Pieces.

(** X1.  On a window of at most 2^32-189 bytes that lies in its buffer,
    [m1ur_device_stream_process] returns, and what it gave to the sink is
    cut out of the window in order: the blocks are successive pieces of the
    window that do not overlap, the bytes left at [*buf], [*len] are the
    end of the window, and the bytes between them are dropped.  Every block
    holds at least four packets, and is made of whole packets that start
    with 0x47. *)
Theorem stream_process_emits_pieces_in_order fuel mem p remain w :
  0 <= p -> remain <= window_max ->
  bytes_at mem p remain = Some w ->
  (Z.to_nat remain < fuel)%nat ->
  exists blks q r rest,
    m1ur_device_stream_process fuel mem p remain = Done (blks, q, r) /\
    bytes_at mem q r = Some rest /\
    pieces_of w blks rest /\
    Forall (fun b => M1UR_DEVICE_TS_SYNC_SIZE <= Z.of_nat (length b)) blks /\
    Forall block_ok blks.
Proof.
  intros Hp Hmax Hw Hf.
  destruct (bytes_at_inv _ _ _ _ Hw) as (_ & Hr & Hlen & ->).
  destruct (div188 remain) as [Hd Hm].
  assert (Hn : (Z.to_nat (remain / 188) < fuel)%nat) by lia.
  destruct (process_loop_pieces fuel fuel mem p remain)
    as (blks & q & r & Hrun & Hq & Hpc & Hbig); try lia.
  destruct (process_loop_nowrap fuel fuel mem p remain)
    as (blks' & q' & r' & Hrun' & Hqr & Hr' & _ & Hok & _); try lia.
  rewrite Hrun in Hrun'.
  assert (blks' = blks) as -> by congruence.
  assert (q' = q) as -> by congruence.
  assert (r' = r) as -> by congruence.
  exists blks, q, r, (firstn (Z.to_nat r) (skipn (Z.to_nat q) mem)).
  split; [exact Hrun|].
  split; [apply bytes_at_some; lia|].
  split; [exact Hpc|]. split; assumption.
Qed.

Lemma stream_process_emits_pieces_in_order_witness :
  exists blks q r rest,
    m1ur_device_stream_process 2000
      ([1; 2; 0x47] ++ packets 5 ++ [3] ++ packets 4 ++ [0x47; 4]) 0 1698
    = Done (blks, q, r) /\
    bytes_at ([1; 2; 0x47] ++ packets 5 ++ [3] ++ packets 4 ++ [0x47; 4]) q r
    = Some rest /\
    pieces_of ([1; 2; 0x47] ++ packets 5 ++ [3] ++ packets 4 ++ [0x47; 4])
      blks rest /\
    Forall (fun b => M1UR_DEVICE_TS_SYNC_SIZE <= Z.of_nat (length b)) blks /\
    Forall block_ok blks.
Proof.
  apply stream_process_emits_pieces_in_order.
  - lia.
  - vm_compute. discriminate.
  - vm_compute. reflexivity.
  - apply Nat.ltb_lt. vm_compute. reflexivity.
Defined.

(** ** Streams of chunks below [chunk_max] *)

(** X2.  Whatever the bytes are and however they are cut into chunks of at
    most 2^32-752 bytes, the handler returns for each chunk, every block it
    gives to the sink is a positive number of whole 188-byte packets that
    each start with 0x47, and between two chunks the carry-over buffer
    holds fewer than 752 bytes. *)
Theorem feed_emits_whole_packets fuel chunks ctx :
  context_ok ctx ->
  (Z.to_nat M1UR_DEVICE_TS_SYNC_SIZE < fuel)%nat ->
  (forall c, In c chunks ->
             Z.of_nat (length c) <= chunk_max /\ (length c < fuel)%nat) ->
  exists ctx' blks,
    feed fuel ctx chunks = Done (ctx', blks) /\
    Forall block_ok blks /\ context_ok ctx'.
Proof.
  revert ctx.
  induction chunks as [|c cs IH]; intros ctx Hok Hfuel Hall.
  - exists ctx, []. split; [reflexivity|]. split; [constructor|assumption].
  - destruct (Hall c (or_introl eq_refl)) as [Hmax Hf].
    destruct (stream_handler_returns fuel ctx c Hok Hmax)
      as (ctx1 & blks1 & H1 & Hok1); [lia|].
    assert (Hctx1 : context_ok ctx1).
    { apply (stream_handler_exit fuel ctx c (Z.of_nat (length c)) ctx1 blks1);
        [assumption| |assumption].
      unfold chunk_max in Hmax. lia. }
    destruct (IH ctx1 Hctx1 Hfuel) as (ctx2 & blks2 & H2 & Hok2 & Hctx2).
    { intros c' Hin. apply Hall. now right. }
    exists ctx2, (blks1 ++ blks2).
    cbn [feed]. rewrite H1, H2.
    split; [reflexivity|]. split; [|assumption].
    apply Forall_app. split; assumption.
Qed.

Lemma feed_emits_whole_packets_witness :
  exists ctx' blks,
    feed 2000 fresh_context
      [[1; 2] ++ packets 4 ++ [0x47; 3]; skipn 2 (packets 5); [4]]
    = Done (ctx', blks) /\
    Forall block_ok blks /\ context_ok ctx'.
Proof.
  apply feed_emits_whole_packets.
  - apply fresh_context_ok.
  - apply Nat.ltb_lt. vm_compute. reflexivity.
  - intros c [<-|[<-|[<-|[]]]];
      (split; [vm_compute; discriminate
              |apply Nat.ltb_lt; vm_compute; reflexivity]).
Defined.

(** ** Garbage in front of an aligned stream *)

Section LeadingGarbage.

Lemma load_app_l (s1 s2 : list Z) x :
  0 <= x < Z.of_nat (length s1) -> load (s1 ++ s2) x = load s1 x.
Proof.
  intros Hx. unfold load.
  replace (x <? 0) with false by cmp.
  apply nth_error_app1. lia.
Qed.

(** What the handler does with the outcome of the pass over the chunk: the
    bytes that the pass left are the new carry-over. *)
Lemma handler_tail_carries fuel ctx buf p remain emitted blks q r :
  Z.of_nat (length (remain_buf ctx)) = M1UR_DEVICE_TS_SYNC_SIZE ->
  remain_len ctx = 0 ->
  m1ur_device_stream_process fuel buf p remain = Done (blks, q, r) ->
  0 <= q -> 0 <= r < M1UR_DEVICE_TS_SYNC_SIZE ->
  q + r <= Z.of_nat (length buf) ->
  exists ctx',
    handler_tail fuel ctx buf p remain emitted = Done (ctx', emitted ++ blks)
    /\ carry_over ctx' = firstn (Z.to_nat r) (skipn (Z.to_nat q) buf)
    /\ context_ok ctx'.
Proof.
  sync_size. intros Hrb H0 Hrun Hq Hr Hl.
  unfold handler_tail. rewrite Hrun.
  destruct (r =? 0) eqn:E.
  - apply Z.eqb_eq in E. subst r.
    exists ctx. split; [reflexivity|].
    unfold carry_over, context_ok. rewrite H0. sync_size.
    split; [reflexivity|]. split; [assumption|lia].
  - apply Z.eqb_neq in E.
    rewrite memcpy_some by lia.
    eexists. split; [reflexivity|].
    split.
    + apply carry_over_stored. rewrite length_firstn, length_skipn. lia.
    + unfold context_ok. sync_size. cbn [remain_buf remain_len].
      rewrite !length_app, !length_firstn, !length_skipn.
      split; lia.
Qed.

End LeadingGarbage.

(** X3.  A chunk that arrives on an empty carry-over and holds bytes
    without marker followed by an aligned run of at least four packets:
    the handler drops exactly the bytes in front, gives the whole packets
    of the run to the sink as one block, and carries the incomplete packet
    at the end of the run over.  With no byte in front and a run of whole
    packets, the one block is the chunk. *)
Theorem leading_garbage_is_dropped fuel ctx g s :
  context_ok ctx -> remain_len ctx = 0 ->
  Forall (fun b => b <> 0x47) g ->
  aligned s ->
  M1UR_DEVICE_TS_SYNC_SIZE <= Z.of_nat (length s) ->
  Z.of_nat (length (g ++ s)) <= chunk_max ->
  (length (g ++ s) < fuel)%nat ->
  exists ctx',
    m1ur_device_stream_handler fuel ctx (g ++ s) (Z.of_nat (length (g ++ s)))
    = Done (ctx',
            [firstn (Z.to_nat (Z.of_nat (length s)
                               - Z.of_nat (length s) mod 188)) s]) /\
    carry_over ctx'
    = skipn (Z.to_nat (Z.of_nat (length s)
                       - Z.of_nat (length s) mod 188)) s.
Proof.
  intros [Hrb _] H0 Hg Hal Hmin Hmax Hf.
  unfold chunk_max in Hmax. revert Hmin. sync_size. intros Hmin.
  rewrite length_app in *.
  set (k := length g) in *. set (n := Z.of_nat (length s)) in *.
  destruct (div188 n) as [Hd Hm].
  unfold m1ur_device_stream_handler.
  rewrite H0. change (u32 0 =? 0) with true. cbv iota zeta.
  assert (Hrun : m1ur_device_stream_process fuel (g ++ s) 0
                   (Z.of_nat (k + length s))
                 = Done ([firstn (Z.to_nat (n - n mod 188)) s],
                         Z.of_nat k + (n - n mod 188), n mod 188)).
  { unfold m1ur_device_stream_process.
    replace fuel with (k + S (fuel - k - 1))%nat at 2 by lia.
    rewrite process_loop_advance_many; [|lia| |fold n; lia].
    - replace (Z.of_nat (k + length s) - Z.of_nat k) with n by lia.
      rewrite process_loop_aligned.
      + rewrite Z.add_0_l.
        replace (Z.to_nat (Z.of_nat k)) with (length g) by lia.
        now rewrite skipn_app, skipn_all, Nat.sub_diag, skipn_0.
      + lia.
      + unfold window_max. sync_size. lia.
      + rewrite length_app. lia.
      + intros j Hj Hlt. rewrite Z.add_0_l.
        fold k. rewrite load_app_r by lia. apply Hal; lia.
      + lia.
    - intros a Ha.
      rewrite load_app_l by lia.
      destruct (load_inside g a) as [b Hb]; [lia|].
      exists b. split; [assumption|].
      rewrite Forall_forall in Hg. apply Hg.
      unfold load in Hb. destruct (a <? 0); [discriminate|].
      eapply nth_error_In. exact Hb. }
  destruct (handler_tail_carries fuel ctx (g ++ s) 0
              (Z.of_nat (k + length s)) [] _ _ _ Hrb H0 Hrun)
    as (ctx' & Ht & Hc & _).
  - lia.
  - sync_size. lia.
  - rewrite length_app. lia.
  - exists ctx'. split; [exact Ht|].
    rewrite Hc.
    replace (Z.to_nat (Z.of_nat k + (n - n mod 188)))
      with (Z.to_nat (n - n mod 188) + length g)%nat by lia.
    rewrite <- skipn_skipn.
    rewrite skipn_app, skipn_all, Nat.sub_diag, skipn_0. cbn [app].
    apply firstn_all2. rewrite length_skipn. lia.
Qed.

Lemma leading_garbage_is_dropped_witness :
  exists ctx',
    m1ur_device_stream_handler 2000 fresh_context
      ([1; 2; 3] ++ (packets 5 ++ [0x47; 4]))
      (Z.of_nat (length ([1; 2; 3] ++ (packets 5 ++ [0x47; 4]))))
    = Done (ctx',
            [firstn (Z.to_nat (Z.of_nat (length (packets 5 ++ [0x47; 4]))
                               - Z.of_nat (length (packets 5 ++ [0x47; 4]))
                                 mod 188))
               (packets 5 ++ [0x47; 4])]) /\
    carry_over ctx'
    = skipn (Z.to_nat (Z.of_nat (length (packets 5 ++ [0x47; 4]))
                       - Z.of_nat (length (packets 5 ++ [0x47; 4])) mod 188))
        (packets 5 ++ [0x47; 4]).
Proof.
  apply leading_garbage_is_dropped.
  - apply fresh_context_ok.
  - reflexivity.
  - repeat constructor; discriminate.
  - apply alignedb_sound. vm_compute. reflexivity.
  - vm_compute. discriminate.
  - vm_compute. discriminate.
  - apply Nat.ltb_lt. vm_compute. reflexivity.
Defined.

(** X4.  With bytes in the carry-over, a chunk so long that the [u32] sum
    of the two lengths wraps makes the handler copy the whole chunk into
    the carry-over buffer, past its end: lengths of 2^32 - remain_len and
    more are outside what [remain_buf] can take. *)
Theorem stream_handler_overruns_when_sum_wraps fuel ctx buf len :
  context_ok ctx -> 0 < remain_len ctx ->
  2 ^ 32 - remain_len ctx <= len < 2 ^ 32 ->
  m1ur_device_stream_handler fuel ctx buf len = Fault.
Proof.
  unfold context_ok. sync_size. intros [Hrb Hr] H0 Hlen.
  unfold m1ur_device_stream_handler. sync_size.
  rewrite (u32_small (remain_len ctx)) by lia.
  replace (remain_len ctx =? 0) with false by cmp.
  assert (Hw : u32 (remain_len ctx + len) = remain_len ctx + len - 2 ^ 32).
  { unfold u32. symmetry. apply (Z.mod_unique _ _ 1); lia. }
  rewrite Hw.
  replace (188 * 4 <=? remain_len ctx + len - 2 ^ 32) with false by cmp.
  cbv zeta. unfold memcpy.
  destruct (bytes_at buf 0 len); [|reflexivity].
  replace (remain_len ctx + len <=? Z.of_nat (length (remain_buf ctx)))
    with false by cmp.
  now rewrite andb_false_r.
Qed.

Lemma stream_handler_overruns_when_sum_wraps_witness :
  m1ur_device_stream_handler 1000 (carrying [0x47; 1; 2])
    (all_markers 4294967293) 4294967293 = Fault.
Proof.
  apply stream_handler_overruns_when_sum_wraps.
  - apply carrying_ok. vm_compute. reflexivity.
  - vm_compute. reflexivity.
  - split; [vm_compute; discriminate|reflexivity].
Defined.

(** * More about the control plane *)

Section TraceLists.

(** An event that is unlike all of [l1] and lies in [l1 ++ l2] lies in
    [l2]. *)
Lemma event_in_suffix {A} (P : A -> Prop) (l1 : list A) :
  forall l2 pre post e,
    Forall P l1 -> ~ P e -> l1 ++ l2 = pre ++ e :: post ->
    exists pre', pre = l1 ++ pre' /\ l2 = pre' ++ e :: post.
Proof.
  induction l1 as [|x l1 IH]; intros l2 pre post e Hall Hne Heq.
  - exists pre. split; [reflexivity|assumption].
  - inversion Hall as [|? ? Hx Hall']; subst.
    destruct pre as [|y pre]; cbn [app] in Heq.
    + injection Heq as Hxe _. subst. contradiction.
    + injection Heq as Hxy Heq. subst.
      destruct (IH l2 pre post e Hall' Hne Heq) as (pre' & -> & ->).
      exists pre'. split; reflexivity.
Qed.

End TraceLists.

(** ** A tune stops at the first call that fails *)

Section StopsAtFailure.

Context {D : Type} (respond : hw_call -> D -> reply * D).

Lemma stops_ret (a : Z) (d : D) :
  stops_at_failure (trace (ret_ a d)) (result (ret_ a d)).
Proof.
  intros pre c r post Heq. unfold trace, ret_ in Heq. cbn [snd] in Heq.
  destruct pre; discriminate Heq.
Qed.

Lemma stops_try c (k : M D Z) :
  (forall d, stops_at_failure (trace (k d)) (result (k d))) ->
  forall d, stops_at_failure (trace (try_ respond c k d))
              (result (try_ respond c k d)).
Proof.
  intros Hk d. rewrite run_try.
  destruct (respond c d) as [r0 d'].
  destruct (ret r0 =? 0) eqn:E.
  - apply Z.eqb_eq in E. specialize (Hk d').
    destruct (k d') as [[a d2] l]. open_run.
    intros pre c1 r1 post Heq Hc Hr.
    destruct pre as [|e pre]; cbn [app] in Heq.
    + injection Heq as _ Hr0 _. subst. contradiction.
    + injection Heq as _ Heq. exact (Hk pre c1 r1 post Heq Hc Hr).
  - open_run. intros pre c1 r1 post Heq Hc Hr.
    destruct pre as [|e pre]; cbn [app] in Heq.
    + injection Heq as _ Hr0 Hp. subst. split; reflexivity.
    + injection Heq as _ Heq. destruct pre; discriminate Heq.
Qed.

Lemma stops_call c (k : M D Z) :
  is_checked c = false ->
  (forall d, stops_at_failure (trace (k d)) (result (k d))) ->
  forall d, stops_at_failure
              (trace (bind (call respond c) (fun _ => k) d))
              (result (bind (call respond c) (fun _ => k) d)).
Proof.
  intros Hu Hk d. rewrite run_call_bind.
  destruct (respond c d) as [r0 d'].
  specialize (Hk d'). destruct (k d') as [[a d2] l]. open_run.
  intros pre c1 r1 post Heq Hc Hr.
  destruct pre as [|e pre]; cbn [app] in Heq.
  + injection Heq as Hc0 _ _. subst. congruence.
  + injection Heq as _ Heq. exact (Hk pre c1 r1 post Heq Hc Hr).
Qed.

(** The lock poll makes no checked call. *)
Lemma pll_poll_unchecked i : forall query ret0 g d,
  is_pll_query query = true ->
  Forall (fun e : event => is_checked (fst e) = false)
    (trace (pll_poll respond i query ret0 g d)).
Proof.
  induction i as [|i IH]; intros query ret0 g d Hq.
  - constructor.
  - assert (Hu : is_checked query = false)
      by (destruct query; try discriminate Hq; reflexivity).
    rewrite pll_poll_S. destruct (respond query d) as [r d1]. cbv zeta.
    destruct ((ret r =? 0) && _).
    + open_run. constructor; [assumption|constructor].
    + destruct (respond (msleep 10) d1) as [rs d2].
      pose proof (IH query (ret r)
                    (match out r with
                     | Some v => negb (v =? 0)
                     | None => g
                     end) d2 Hq) as IH'.
      destruct (pll_poll respond i query (ret r) _ d2) as [[a d3] l].
      open_run.
      constructor; [assumption|]. constructor; [reflexivity|assumption].
Qed.

Lemma stops_pll_wait query g (rest : M D Z) :
  is_pll_query query = true ->
  (forall d, stops_at_failure (trace (rest d)) (result (rest d))) ->
  forall d, stops_at_failure (trace (pll_wait respond query g rest d))
              (result (pll_wait respond query g rest d)).
Proof.
  intros Hq Hrest d. unfold pll_wait, bind.
  pose proof (pll_poll_unchecked 50 query 0 g d Hq) as Hu.
  destruct (pll_poll respond 50 query 0 g d) as [[[pr lk] d1] l1].
  unfold trace in Hu. cbn [snd] in Hu.
  assert (Hin : forall l2 res,
             stops_at_failure l2 res -> stops_at_failure (l1 ++ l2) res).
  { intros l2 res H2 pre c r post Heq Hc Hr.
    destruct (event_in_suffix _ l1 l2 pre post (c, r) Hu)
      as (pre' & _ & Hx); [cbn [fst]; congruence|exact Heq|].
    exact (H2 pre' c r post Hx Hc Hr). }
  assert (Hnil : forall res, stops_at_failure [] res).
  { intros res pre c r post Heq. destruct pre; discriminate Heq. }
  destruct (negb (pr =? 0)).
  - unfold ret_. open_run. apply Hin, Hnil.
  - destruct (negb lk).
    + unfold ret_. open_run. apply Hin, Hnil.
    + specialize (Hrest d1). destruct (rest d1) as [[a d2] l2]. open_run.
      now apply Hin.
Qed.

End StopsAtFailure.

(** X5.  A tune has no rollback and no second try: on every device, a call
    whose status the code tests (every call but the lock queries, the read
    of the signal strength and the sleeps) and that fails is the last call
    of the tune, and the tune returns the status of that call; the
    registers written before it stay as they are. *)
Theorem tune_stops_at_first_failure {D : Type}
  (respond : hw_call -> D -> reply * D)
  (params : ptx_tune_params) (tuner_locked : bool) (d : D) :
  stops_at_failure
    (trace (m1ur_chrdev_tune respond params tuner_locked d))
    (result (m1ur_chrdev_tune respond params tuner_locked d)).
Proof.
  revert d. unfold m1ur_chrdev_tune.
  destruct (system params).
  - apply stops_ret.
  - repeat apply stops_try.
    apply stops_pll_wait; [reflexivity|].
    repeat apply stops_try.
    apply stops_call; [reflexivity|]. apply stops_ret.
  - repeat apply stops_try.
    apply stops_pll_wait; [reflexivity|].
    apply stops_call; [reflexivity|].
    apply stops_try. apply stops_ret.
Qed.

(** ** A tune that returns 0 has seen the lock *)

Section LockSeen.

Context {D : Type} (respond : hw_call -> D -> reply * D).

Lemma lock_seen_cons e l : lock_seen l -> lock_seen (e :: l).
Proof.
  intros (pre & c & r & post & -> & H).
  exists (e :: pre), c, r, post. split; [reflexivity|assumption].
Qed.

Lemma lock_seen_try c (k : M D Z) :
  (forall d, result (k d) = 0 -> lock_seen (trace (k d))) ->
  forall d, result (try_ respond c k d) = 0 ->
            lock_seen (trace (try_ respond c k d)).
Proof.
  intros Hk d. rewrite run_try. destruct (respond c d) as [r d'].
  destruct (ret r =? 0) eqn:E.
  - specialize (Hk d'). destruct (k d') as [[a d2] l]. open_run.
    intros Ha. apply lock_seen_cons. auto.
  - apply Z.eqb_neq in E. open_run. intros; contradiction.
Qed.

(** The poll ends with status 0 and the lock only behind a query that
    said so. *)
Lemma pll_poll_locked i : forall query ret0 g d,
  result (pll_poll respond i query ret0 g d) = (0, true) ->
  (i = O /\ ret0 = 0 /\ g = true) \/
  exists pre r,
    trace (pll_poll respond i query ret0 g d) = pre ++ [(query, r)] /\
    ret r = 0 /\ out r <> Some 0.
Proof.
  induction i as [|i IH]; intros query ret0 g d.
  - unfold result. cbn. intros H. left.
    split; [reflexivity|]. split; congruence.
  - rewrite pll_poll_S. destruct (respond query d) as [r d1]. cbv zeta.
    set (lk := match out r with Some v => negb (v =? 0) | None => g end).
    destruct ((ret r =? 0) && lk) eqn:E.
    + open_run. intros H. right. exists [], r.
      split; [reflexivity|].
      assert (Hret : ret r = 0) by congruence.
      assert (Hlk : lk = true) by congruence.
      split; [assumption|].
      intros Ho. unfold lk in Hlk. rewrite Ho in Hlk. discriminate Hlk.
    + destruct (respond (msleep 10) d1) as [rs d2].
      specialize (IH query (ret r) lk d2).
      destruct (pll_poll respond i query (ret r) lk d2) as [[a d3] l].
      open_run. intros H.
      destruct (IH H) as [(_ & Hr & Hl)|(pre & r' & -> & Hr & Ho)].
      * rewrite Hr, Hl in E. discriminate E.
      * right. exists ((query, r) :: (msleep 10, rs) :: pre), r'.
        split; [reflexivity|]. split; assumption.
Qed.

Lemma lock_seen_pll_wait query g (rest : M D Z) :
  is_pll_query query = true -> no_pll_query rest ->
  forall d, result (pll_wait respond query g rest d) = 0 ->
            lock_seen (trace (pll_wait respond query g rest d)).
Proof.
  intros Hq Hrest d. unfold pll_wait, bind.
  pose proof (pll_poll_locked 50 query 0 g d) as Hl.
  destruct (pll_poll respond 50 query 0 g d) as [[[pr lk] d1] l1].
  unfold result, trace in Hl. cbn [fst snd] in Hl.
  destruct (negb (pr =? 0)) eqn:E.
  - unfold ret_. open_run. intros ->. discriminate E.
  - apply negb_false_iff, Z.eqb_eq in E. subst pr.
    destruct lk; cbn [negb].
    + destruct (Hl eq_refl) as [[H0 _]|(pre & r & -> & Hr & Ho)];
        [discriminate H0|].
      specialize (Hrest d1). destruct (rest d1) as [[a d2] l2]. open_run.
      intros _. exists pre, query, r, l2.
      rewrite <- app_assoc. cbn [app].
      split; [reflexivity|]. split; [assumption|]. split; [assumption|].
      split; [assumption|]. now apply count_polls_none.
    + unfold ret_. open_run. unfold EAGAIN. discriminate.
Qed.

End LockSeen.

(** X6.  A tune returns 0 only behind a lock: whenever
    [m1ur_chrdev_tune] returns 0, the tuner of the requested system has
    answered a lock query with status 0 without storing "not locked", and
    the tune made no lock query after that one. *)
Theorem tune_success_means_lock_seen {D : Type}
  (respond : hw_call -> D -> reply * D)
  (params : ptx_tune_params) (tuner_locked : bool) (d : D) :
  result (m1ur_chrdev_tune respond params tuner_locked d) = 0 ->
  lock_seen (trace (m1ur_chrdev_tune respond params tuner_locked d)).
Proof.
  revert d. unfold m1ur_chrdev_tune.
  destruct (system params).
  - intros d. unfold ret_, result, EINVAL. cbn [fst]. discriminate.
  - repeat apply lock_seen_try.
    apply lock_seen_pll_wait; [reflexivity|].
    repeat (apply no_pll_query_try; [reflexivity|]).
    apply no_pll_query_call; [reflexivity|]. apply no_pll_query_ret.
  - repeat apply lock_seen_try.
    apply lock_seen_pll_wait; [reflexivity|].
    apply no_pll_query_call; [reflexivity|].
    apply no_pll_query_try; [reflexivity|]. apply no_pll_query_ret.
Qed.

Lemma tune_success_means_lock_seen_witness :
  lock_seen
    (trace (m1ur_chrdev_tune (scripted ok)
              {| system := PTX_ISDB_T_SYSTEM; freq := 473143 |} false
              (repeat ok 11 ++ [failed; unlocked; locked]))).
Proof.
  apply tune_success_means_lock_seen. vm_compute. reflexivity.
Defined.

(** ** A tune waits for a bounded time *)

Section BoundedWait.

Context {D : Type} (respond : hw_call -> D -> reply * D).

Lemma sleep_bounded_try n c (k : M D Z) :
  (forall ms, c <> msleep ms) -> 0 <= n ->
  (forall d, total_sleep (trace (k d)) <= n) ->
  forall d, total_sleep (trace (try_ respond c k d)) <= n.
Proof.
  intros Hs Hn Hk d. rewrite run_try. destruct (respond c d) as [r d'].
  destruct (ret r =? 0).
  - specialize (Hk d'). destruct (k d') as [[a d2] l]. open_run.
    cbn [total_sleep]. destruct c; try assumption. now destruct (Hs ms).
  - open_run. cbn [total_sleep]. destruct c; try assumption.
    now destruct (Hs ms).
Qed.

Lemma sleep_bounded_call n c (k : M D Z) :
  (forall ms, c <> msleep ms) ->
  (forall d, total_sleep (trace (k d)) <= n) ->
  forall d, total_sleep (trace (bind (call respond c) (fun _ => k) d)) <= n.
Proof.
  intros Hs Hk d. rewrite run_call_bind. destruct (respond c d) as [r d'].
  specialize (Hk d'). destruct (k d') as [[a d2] l]. open_run.
  cbn [total_sleep]. destruct c; try assumption. now destruct (Hs ms).
Qed.

Lemma sleep_bounded_msleep n ms (k : M D Z) :
  (forall d, total_sleep (trace (k d)) <= n) ->
  forall d, total_sleep (trace (bind (call respond (msleep ms))
                                  (fun _ => k) d)) <= ms + n.
Proof.
  intros Hk d. rewrite run_call_bind.
  destruct (respond (msleep ms) d) as [r d'].
  specialize (Hk d'). destruct (k d') as [[a d2] l]. open_run.
  cbn [total_sleep]. lia.
Qed.

Lemma pll_poll_sleep i : forall query ret0 g d,
  is_pll_query query = true ->
  total_sleep (trace (pll_poll respond i query ret0 g d)) <= 10 * Z.of_nat i.
Proof.
  induction i as [|i IH]; intros query ret0 g d Hq.
  - cbn. lia.
  - rewrite pll_poll_S. destruct (respond query d) as [r d1]. cbv zeta.
    destruct ((ret r =? 0) && _).
    + open_run. cbn [total_sleep].
      destruct query; try discriminate Hq; lia.
    + destruct (respond (msleep 10) d1) as [rs d2].
      pose proof (IH query (ret r)
                    (match out r with
                     | Some v => negb (v =? 0)
                     | None => g
                     end) d2 Hq) as IH'.
      destruct (pll_poll respond i query (ret r) _ d2) as [[a d3] l].
      open_run. cbn [total_sleep].
      destruct query; try discriminate Hq; lia.
Qed.

Lemma sleep_bounded_pll_wait n query g (rest : M D Z) :
  is_pll_query query = true -> 0 <= n ->
  (forall d, total_sleep (trace (rest d)) <= n) ->
  forall d, total_sleep (trace (pll_wait respond query g rest d)) <= 500 + n.
Proof.
  intros Hq Hn Hrest d. unfold pll_wait, bind.
  pose proof (pll_poll_sleep 50 query 0 g d Hq) as Hs.
  destruct (pll_poll respond 50 query 0 g d) as [[[pr lk] d1] l1].
  unfold trace in Hs. cbn [snd] in Hs.
  destruct (negb (pr =? 0)).
  - unfold ret_. open_run. rewrite total_sleep_app. cbn [total_sleep]. lia.
  - destruct (negb lk).
    + unfold ret_. open_run. rewrite total_sleep_app. cbn [total_sleep]. lia.
    + specialize (Hrest d1). destruct (rest d1) as [[a d2] l2]. open_run.
      rewrite total_sleep_app. lia.
Qed.

Lemma sleep_bounded_ret n (a : Z) :
  0 <= n -> forall d : D, total_sleep (trace (ret_ a d)) <= n.
Proof. intros Hn d. exact Hn. Qed.

End BoundedWait.

(** X7.  A tune cannot hang: on every device it makes at most 50 lock
    queries, and the sleeps it asks for add up to at most 600 ms for
    ISDB-T (50 times 10 ms in the poll, 100 ms at the end) and to at most
    500 ms for ISDB-S. *)
Theorem tune_waits_at_most {D : Type}
  (respond : hw_call -> D -> reply * D)
  (params : ptx_tune_params) (tuner_locked : bool) (d : D) :
  count_polls (trace (m1ur_chrdev_tune respond params tuner_locked d)) <= 50
  /\
  total_sleep (trace (m1ur_chrdev_tune respond params tuner_locked d))
  <= match system params with
     | PTX_ISDB_T_SYSTEM => 600
     | _ => 500
     end.
Proof.
  split; [apply tune_polls_bounded|].
  revert d. unfold m1ur_chrdev_tune.
  destruct (system params).
  - apply sleep_bounded_ret. lia.
  - repeat (apply sleep_bounded_try; [discriminate|lia|]).
    apply (sleep_bounded_pll_wait respond 100); [reflexivity|lia|].
    repeat (apply sleep_bounded_try; [discriminate|lia|]).
    apply (sleep_bounded_msleep respond 0). apply sleep_bounded_ret. lia.
  - repeat (apply sleep_bounded_try; [discriminate|lia|]).
    apply (sleep_bounded_pll_wait respond 0); [reflexivity|lia|].
    apply sleep_bounded_call; [discriminate|].
    apply sleep_bounded_try; [discriminate|lia|].
    apply sleep_bounded_ret. lia.
Qed.

(** ** Starting the capture *)

(** Runs a function of the control plane one call or one test of a status
    further. *)
Ltac run_on respond :=
  repeat first
    [ progress (cbv beta iota zeta; cbn [negb]; change (0 =? 0) with true)
    | match goal with
      | |- context [ret ?r =? 0] =>
          let E := fresh "E" in
          destruct (ret r =? 0) eqn:E;
          [apply Z.eqb_eq in E|apply Z.eqb_neq in E]
      | |- context [respond ?c ?d] =>
          let r := fresh "r" in
          let d' := fresh "d" in
          destruct (respond c d) as [r d']
      end ].

(** X8.  [m1ur_chrdev_start_capture] on every device and for every
    current system: it returns 0 exactly when the purge, the enabling of
    the TS pins of the current demodulator and the start of the streaming
    all went well, and then these are its calls and the carry-over is
    empty.  When the purge fails nothing else is called.  When enabling
    the pins fails the streaming is not started and the pins are disabled.
    When the start of the streaming fails the pins are disabled after
    it.  The status returned is that of the call that failed. *)
Theorem start_capture_outcomes {D : Type}
  (respond : hw_call -> D -> reply * D)
  (current_system : ptx_system_type) (psb_purge_timeout : Z)
  (stream_ctx : m1ur_stream_context) (d : D) :
  let x := m1ur_chrdev_start_capture respond current_system
             psb_purge_timeout stream_ctx d in
  let purge := it930x_purge_psb psb_purge_timeout in
  let on := ts_pins current_system true in
  let off := ts_pins current_system false in
  let emptied := {| remain_buf := remain_buf stream_ctx; remain_len := 0 |} in
  (fst (result x) = 0 /\
   map fst (trace x) = purge :: on ++ [itedtv_bus_start_streaming] /\
   Forall (fun e => ret (snd e) = 0) (trace x) /\
   snd (result x) = emptied)
  \/
  (fst (result x) <> 0 /\
   (exists e, In e (trace x) /\ ret (snd e) = fst (result x)) /\
   ((map fst (trace x) = [purge] /\ snd (result x) = stream_ctx) \/
    (map fst (trace x) = purge :: on ++ off /\ snd (result x) = stream_ctx) \/
    (map fst (trace x) = purge :: on ++ itedtv_bus_start_streaming :: off /\
     snd (result x) = emptied))).
Proof.
  unfold m1ur_chrdev_start_capture, enable_ts_pins, bind, call, ret_,
    result, trace, ts_pins.
  destruct current_system; run_on respond; cbn [fst snd map app].
  all: try (left; split; [reflexivity|]; split; [reflexivity|];
            split; [repeat constructor; assumption|reflexivity]).
  all: right; (split; [assumption|]).
  all: split;
    [match goal with
     | |- exists e, _ /\ _ = ret ?r =>
         match goal with
         | |- context [(?c, r)] =>
             exists (c, r); split; [cbn [In]; auto 8|reflexivity]
         end
     end|].
  all: try (left; split; reflexivity).
  all: try (right; left; split; reflexivity).
  all: right; right; split; reflexivity.
Qed.

(** ** Selecting the transport stream *)

Section StreamId.

Context {D : Type} (respond : hw_call -> D -> reply * D).

Lemma tmcc_poll_S i stream_id ret0 tsid d :
  tmcc_poll respond (S i) stream_id ret0 tsid d =
  let (r, d1) := respond (tc90522_tmcc_get_tsid_s stream_id) d in
  let tsid' := match out r with Some v => u16 v | None => tsid end in
  if ((ret r =? 0) && negb (tsid' =? 0)) || (ret r =? - EINVAL)
  then ((ret r, tsid'), d1, [(tc90522_tmcc_get_tsid_s stream_id, r)])
  else
    let (rs, d2) := respond (msleep 10) d1 in
    let '(a, d3, l) := tmcc_poll respond i stream_id (ret r) tsid' d2 in
    (a, d3, (tc90522_tmcc_get_tsid_s stream_id, r) :: (msleep 10, rs) :: l).
Proof.
  cbn [tmcc_poll]. rewrite run_call_bind.
  destruct (respond (tc90522_tmcc_get_tsid_s stream_id) d) as [r d1].
  cbv zeta.
  destruct (((ret r =? 0) && _) || _); [reflexivity|].
  rewrite run_call_bind.
  destruct (respond (msleep 10) d1) as [rs d2].
  now destruct (tmcc_poll respond i stream_id (ret r) _ d2) as [[a d3] l].
Qed.

(** The check of the slot ends with status 0 and the programmed ID only
    behind a read that succeeded and stored no other ID. *)
Lemma tsid_poll_verified i : forall tsid ret0 tsid2 d,
  result (tsid_poll respond i tsid ret0 tsid2 d) = (0, tsid) ->
  (i = O /\ ret0 = 0 /\ tsid2 = tsid) \/
  exists pre r,
    trace (tsid_poll respond i tsid ret0 tsid2 d)
    = pre ++ [(tc90522_get_tsid_s, r)] /\
    ret r = 0 /\ (forall v, out r = Some v -> u16 v = tsid).
Proof.
  induction i as [|i IH]; intros tsid ret0 tsid2 d.
  - unfold result. cbn. intros H. left.
    split; [reflexivity|]. split; congruence.
  - rewrite tsid_poll_S. destruct (respond tc90522_get_tsid_s d) as [r d1].
    cbv zeta.
    set (t2 := match out r with Some v => u16 v | None => tsid2 end).
    destruct ((ret r =? 0) && (t2 =? tsid)) eqn:E.
    + open_run. intros H. right. exists [], r.
      split; [reflexivity|].
      assert (Hret : ret r = 0) by congruence.
      assert (Ht : t2 = tsid) by congruence.
      split; [assumption|].
      intros v Ho. unfold t2 in Ht. now rewrite Ho in Ht.
    + destruct (respond (msleep 10) d1) as [rs d2].
      specialize (IH tsid (ret r) t2 d2).
      destruct (tsid_poll respond i tsid (ret r) t2 d2) as [[a d3] l].
      open_run. intros H.
      destruct (IH H) as [(_ & Hr & Ht)|(pre & r' & -> & Hr & Ho)].
      * rewrite Hr, Ht, !Z.eqb_refl in E. discriminate E.
      * right.
        exists ((tc90522_get_tsid_s, r) :: (msleep 10, rs) :: pre), r'.
        split; [reflexivity|]. split; assumption.
Qed.

Lemma set_and_check_verified t tsid2 d :
  result (set_and_check_tsid respond t tsid2 d) = 0 ->
  exists w mid r,
    trace (set_and_check_tsid respond t tsid2 d)
    = (tc90522_set_tsid_s t, w) :: mid ++ [(tc90522_get_tsid_s, r)] /\
    ret w = 0 /\ ret r = 0 /\ (forall v, out r = Some v -> u16 v = t).
Proof.
  unfold set_and_check_tsid. rewrite run_try.
  destruct (respond (tc90522_set_tsid_s t) d) as [w d1].
  destruct (ret w =? 0) eqn:E.
  - apply Z.eqb_eq in E. unfold bind.
    pose proof (tsid_poll_verified 100 t 0 tsid2 d1) as Hv.
    destruct (tsid_poll respond 100 t 0 tsid2 d1) as [[[r t2] d2] l].
    unfold ret_. open_run. rewrite app_nil_r.
    destruct (t2 =? t) eqn:Et; cbn [negb].
    + apply Z.eqb_eq in Et. subst t2. intros ->.
      destruct (Hv eq_refl) as [[H0 _]|(pre & r & -> & Hr & Ho)];
        [discriminate H0|].
      exists w, pre, r. split; [reflexivity|]. split; [assumption|].
      split; assumption.
    + unfold EAGAIN. discriminate.
  - apply Z.eqb_neq in E. open_run. intros; contradiction.
Qed.

(** *** Counting calls *)

Lemma count_calls_cons p c r l :
  count_calls p ((c, r) :: l)
  = (if p c then 1 else 0) + count_calls p l.
Proof.
  unfold count_calls. cbn [filter fst].
  destruct (p c); cbn [length]; lia.
Qed.

Lemma count_calls_nonneg p l : 0 <= count_calls p l.
Proof. unfold count_calls. lia. Qed.

Lemma within_nil a b c s :
  0 <= a -> 0 <= b -> 0 <= c -> 0 <= s -> within [] a b c s.
Proof. intros. unfold within, count_calls. cbn. lia. Qed.

Lemma within_cons c r l a b w s :
  within l a b w s ->
  within ((c, r) :: l)
    ((if is_tmcc_read c then 1 else 0) + a)
    ((if is_tsid_read c then 1 else 0) + b)
    ((if is_tsid_write c then 1 else 0) + w)
    (match c with msleep ms => ms | _ => 0 end + s).
Proof.
  unfold within. rewrite !count_calls_cons. cbn [total_sleep].
  intros (H1 & H2 & H3 & H4).
  repeat split; try lia.
  destruct c; lia.
Qed.

Lemma within_app l1 l2 a1 b1 w1 s1 a2 b2 w2 s2 :
  within l1 a1 b1 w1 s1 -> within l2 a2 b2 w2 s2 ->
  within (l1 ++ l2) (a1 + a2) (b1 + b2) (w1 + w2) (s1 + s2).
Proof.
  unfold within, count_calls.
  rewrite !filter_app, !length_app, total_sleep_app. lia.
Qed.

Lemma within_le l a b w s a' b' w' s' :
  within l a b w s -> a <= a' -> b <= b' -> w <= w' -> s <= s' ->
  within l a' b' w' s'.
Proof. unfold within. lia. Qed.

Lemma tmcc_poll_within i : forall stream_id ret0 tsid d,
  within (trace (tmcc_poll respond i stream_id ret0 tsid d))
    (Z.of_nat i) 0 0 (10 * Z.of_nat i) /\
  writes_only (fun _ => False)
    (trace (tmcc_poll respond i stream_id ret0 tsid d)).
Proof.
  induction i as [|i IH]; intros stream_id ret0 tsid d.
  - split; [apply within_nil; lia|]. intros t r [].
  - rewrite tmcc_poll_S.
    destruct (respond (tc90522_tmcc_get_tsid_s stream_id) d) as [r d1].
    cbv zeta.
    destruct (((ret r =? 0) && _) || _).
    + open_run. split.
      * eapply within_le; [apply within_cons, (within_nil 0 0 0 0); lia|..];
          cbn [is_tmcc_read is_tsid_read is_tsid_write]; lia.
      * intros t r' [H|[]]. discriminate H.
    + destruct (respond (msleep 10) d1) as [rs d2].
      destruct (IH stream_id (ret r)
                  (match out r with Some v => u16 v | None => tsid end) d2)
        as [IH1 IH2].
      destruct (tmcc_poll respond i stream_id (ret r) _ d2) as [[a d3] l].
      open_run. split.
      * eapply within_le; [apply within_cons, within_cons, IH1|..];
          cbn [is_tmcc_read is_tsid_read is_tsid_write]; lia.
      * intros t r' [H|[H|H]]; try discriminate H. exact (IH2 t r' H).
Qed.

Lemma tsid_poll_within i : forall tsid ret0 tsid2 d,
  within (trace (tsid_poll respond i tsid ret0 tsid2 d))
    0 (Z.of_nat i) 0 (10 * Z.of_nat i) /\
  writes_only (fun _ => False)
    (trace (tsid_poll respond i tsid ret0 tsid2 d)).
Proof.
  induction i as [|i IH]; intros tsid ret0 tsid2 d.
  - split; [apply within_nil; lia|]. intros t r [].
  - rewrite tsid_poll_S.
    destruct (respond tc90522_get_tsid_s d) as [r d1].
    cbv zeta.
    destruct ((ret r =? 0) && _).
    + open_run. split.
      * eapply within_le; [apply within_cons, (within_nil 0 0 0 0); lia|..];
          cbn [is_tmcc_read is_tsid_read is_tsid_write]; lia.
      * intros t r' [H|[]]. discriminate H.
    + destruct (respond (msleep 10) d1) as [rs d2].
      destruct (IH tsid (ret r)
                  (match out r with Some v => u16 v | None => tsid2 end) d2)
        as [IH1 IH2].
      destruct (tsid_poll respond i tsid (ret r) _ d2) as [[a d3] l].
      open_run. split.
      * eapply within_le; [apply within_cons, within_cons, IH1|..];
          cbn [is_tmcc_read is_tsid_read is_tsid_write]; lia.
      * intros t r' [H|[H|H]]; try discriminate H. exact (IH2 t r' H).
Qed.

Lemma set_and_check_within t tsid2 d :
  within (trace (set_and_check_tsid respond t tsid2 d)) 0 100 1 1000 /\
  writes_only (fun t' => t' = t)
    (trace (set_and_check_tsid respond t tsid2 d)).
Proof.
  unfold set_and_check_tsid. rewrite run_try.
  destruct (respond (tc90522_set_tsid_s t) d) as [w d1].
  destruct (ret w =? 0).
  - unfold bind.
    destruct (tsid_poll_within 100 t 0 tsid2 d1) as [H1 H2].
    destruct (tsid_poll respond 100 t 0 tsid2 d1) as [[[r t2] d2] l].
    unfold ret_. open_run. rewrite app_nil_r. split.
    + eapply within_le; [apply within_cons, H1|..];
        cbn [is_tmcc_read is_tsid_read is_tsid_write]; lia.
    + intros t' r' [H|H]; [congruence|]. destruct (H2 t' r' H).
  - open_run. split.
    + eapply within_le; [apply within_cons, (within_nil 0 0 0 0); lia|..];
        cbn [is_tmcc_read is_tsid_read is_tsid_write]; lia.
    + intros t' r' [H|[]]. congruence.
Qed.

(** *** The check that does not see the programmed ID *)

(** The check ends with the [tsid2] that its reads left, and when that is
    not the programmed ID it has used all its attempts. *)
Lemma tsid_poll_last i : forall tsid ret0 tsid2 d,
  snd (result (tsid_poll respond i tsid ret0 tsid2 d))
  = last_tsid2 tsid2 (trace (tsid_poll respond i tsid ret0 tsid2 d)) /\
  (snd (result (tsid_poll respond i tsid ret0 tsid2 d)) <> tsid ->
   length (filter (fun e => is_tsid_read (fst e))
             (trace (tsid_poll respond i tsid ret0 tsid2 d))) = i).
Proof.
  induction i as [|i IH]; intros tsid ret0 tsid2 d.
  - split; [reflexivity|]. intros _. reflexivity.
  - rewrite tsid_poll_S. destruct (respond tc90522_get_tsid_s d) as [r d1].
    cbv zeta.
    set (t2 := match out r with Some v => u16 v | None => tsid2 end).
    destruct ((ret r =? 0) && (t2 =? tsid)) eqn:E.
    + open_run. cbn [last_tsid2]. fold t2.
      split; [reflexivity|]. intros Hne.
      apply andb_true_iff in E as [_ E]. apply Z.eqb_eq in E. contradiction.
    + destruct (respond (msleep 10) d1) as [rs d2].
      destruct (IH tsid (ret r) t2 d2) as [IH1 IH2].
      destruct (tsid_poll respond i tsid (ret r) t2 d2) as [[a d3] l].
      open_run. cbn [last_tsid2 filter fst is_tsid_read length]. fold t2.
      split; [exact IH1|]. intros Hne. now rewrite (IH2 Hne).
Qed.

(** Programming an ID and checking it: the write is the first call; when
    it went well and the reads behind it left another ID in [tsid2], the
    check has made its 100 reads and the status is -EAGAIN. *)
Lemma set_and_check_mismatch t tsid2 d :
  exists w post,
    trace (set_and_check_tsid respond t tsid2 d)
    = (tc90522_set_tsid_s t, w) :: post /\
    writes_only (fun _ => False) post /\
    (ret w = 0 -> last_tsid2 tsid2 post <> t ->
     result (set_and_check_tsid respond t tsid2 d) = - EAGAIN /\
     length (filter (fun e => is_tsid_read (fst e)) post) = 100%nat).
Proof.
  unfold set_and_check_tsid. rewrite run_try.
  destruct (respond (tc90522_set_tsid_s t) d) as [w d1].
  destruct (ret w =? 0) eqn:E.
  - unfold bind.
    destruct (tsid_poll_last 100 t 0 tsid2 d1) as [H1 H2].
    destruct (tsid_poll_within 100 t 0 tsid2 d1) as [_ H3].
    destruct (tsid_poll respond 100 t 0 tsid2 d1) as [[[r t2] d2] l].
    unfold ret_. open_run. rewrite app_nil_r.
    exists w, l. split; [reflexivity|]. split; [exact H3|].
    intros _ Hne. rewrite <- H1 in Hne.
    replace (t2 =? t) with false by cmp.
    split; [reflexivity|exact (H2 Hne)].
  - apply Z.eqb_neq in E. open_run.
    exists w, []. split; [reflexivity|]. split; [intros t' r' []|].
    intros; contradiction.
Qed.

(** The one write of a trace is found in one way only. *)
Lemma write_split (l1 : list event) : forall l2 t0 w0 pre t w post,
  writes_only (fun _ => False) l1 -> writes_only (fun _ => False) l2 ->
  l1 ++ (tc90522_set_tsid_s t0, w0) :: l2
  = pre ++ (tc90522_set_tsid_s t, w) :: post ->
  t = t0 /\ w = w0 /\ post = l2.
Proof.
  induction l1 as [|x l1 IH]; intros l2 t0 w0 pre t w post H1 H2 Heq.
  - destruct pre as [|y pre]; cbn [app] in Heq.
    + injection Heq as Ht Hw Hp. subst. repeat split.
    + injection Heq as _ Hl.
      destruct (H2 t w). rewrite Hl. apply in_or_app. right. now left.
  - destruct pre as [|y pre]; cbn [app] in Heq.
    + injection Heq as Hx _. subst x. destruct (H1 t w). now left.
    + injection Heq as _ Hl.
      apply (IH l2 t0 w0 pre t w post); [|assumption|assumption].
      intros t' r' Hin. apply (H1 t' r'). now right.
Qed.

End StreamId.

(** C10.  On every device, for a relative slot as for a literal ID: when
    [m1ur_chrdev_set_stream_id] has written the ID [t] with success and the
    reads of the check behind that write have left in [tsid2] an ID that is
    not [t], the check has used its 100 reads and the function returns
    -EAGAIN.  Nothing is asked of the status of the reads: when the last
    read failed on the bus, its error is not what the caller is told. *)
Theorem set_stream_id_reports_mismatch {D : Type}
  (respond : hw_call -> D -> reply * D)
  (current_system : ptx_system_type) (stream_id tsid tsid2 : Z) (d : D)
  (pre post : list event) (t : Z) (w : reply) :
  trace (m1ur_chrdev_set_stream_id respond current_system
           stream_id tsid tsid2 d)
  = pre ++ (tc90522_set_tsid_s t, w) :: post ->
  ret w = 0 ->
  last_tsid2 tsid2 post <> t ->
  result (m1ur_chrdev_set_stream_id respond current_system
            stream_id tsid tsid2 d) = - EAGAIN /\
  length (filter (fun e => is_tsid_read (fst e)) post) = 100%nat.
Proof.
  unfold m1ur_chrdev_set_stream_id.
  assert (Hnone : forall l : list event,
             writes_only (fun _ => False) l ->
             l = pre ++ (tc90522_set_tsid_s t, w) :: post -> False).
  { intros l Hl ->. apply (Hl t w), in_or_app. right. now left. }
  assert (Hnil : writes_only (fun _ => False) (@nil event))
    by (intros t' r' []).
  destruct current_system;
    try (intros Heq; destruct (Hnone [] Hnil Heq)).
  destruct (stream_id <? 12).
  - unfold bind.
    destruct (tmcc_poll_within respond 100 stream_id 0 tsid d) as [_ H1].
    destruct (tmcc_poll respond 100 stream_id 0 tsid d) as [[[r t1] d1] l1].
    unfold trace in H1. cbn [snd] in H1.
    destruct (negb (r =? 0)).
    { unfold ret_. open_run. rewrite app_nil_r.
      intros Heq. destruct (Hnone l1 H1 Heq). }
    destruct (t1 =? 0).
    { unfold ret_. open_run. rewrite app_nil_r.
      intros Heq. destruct (Hnone l1 H1 Heq). }
    destruct (set_and_check_mismatch respond t1 tsid2 d1)
      as (w0 & post0 & Ht & H2 & Hm).
    destruct (set_and_check_tsid respond t1 tsid2 d1) as [[a d2] l2].
    open_run. subst l2. intros Heq Hw Hne.
    destruct (write_split _ _ _ _ _ _ _ _ H1 H2 Heq) as (-> & -> & ->).
    exact (Hm Hw Hne).
  - destruct (set_and_check_mismatch respond stream_id tsid2 d)
      as (w0 & post0 & Ht & H2 & Hm).
    rewrite Ht. intros Heq Hw Hne.
    destruct (write_split [] _ _ _ _ _ _ _ Hnil H2 Heq) as (-> & -> & ->).
    exact (Hm Hw Hne).
Qed.

(** Slot 3 resolves to the ID 0x4011, which is written; every read of the
    active ID then fails on the bus and stores nothing, and the caller is
    told -EAGAIN, not -EIO. *)
Lemma set_stream_id_reports_mismatch_witness :
  ret failed = - EIO /\
  result (m1ur_chrdev_set_stream_id (scripted failed) PTX_ISDB_S_SYSTEM
            3 0 0 [{| ret := 0; out := Some 0x4011 |}; ok]) = - EAGAIN /\
  length (filter (fun e => is_tsid_read (fst e))
            (concat (repeat [(tc90522_get_tsid_s, failed); (msleep 10, ok)]
                       100))) = 100%nat.
Proof.
  split; [reflexivity|].
  apply (set_stream_id_reports_mismatch (scripted failed) PTX_ISDB_S_SYSTEM
           3 0 0 [{| ret := 0; out := Some 0x4011 |}; ok]
           [(tc90522_tmcc_get_tsid_s 3, {| ret := 0; out := Some 0x4011 |})]
           (concat (repeat [(tc90522_get_tsid_s, failed); (msleep 10, ok)]
                      100))
           0x4011 ok).
  - vm_compute. reflexivity.
  - reflexivity.
  - vm_compute. discriminate.
Defined.

(** X9.  [m1ur_chrdev_set_stream_id] returns 0 only when the demodulator
    has confirmed the transport ID: the current system is ISDB-S, an ID [t]
    was written with success, and the last call is a read of the active ID
    that returned 0 and stored no ID other than [t].  For a relative slot
    (below 12) [t] is not 0; otherwise [t] is the stream ID that was asked
    for. *)
Theorem set_stream_id_success_means_verified {D : Type}
  (respond : hw_call -> D -> reply * D)
  (current_system : ptx_system_type) (stream_id tsid tsid2 : Z) (d : D) :
  result (m1ur_chrdev_set_stream_id respond current_system
            stream_id tsid tsid2 d) = 0 ->
  current_system = PTX_ISDB_S_SYSTEM /\
  exists t pre w mid r,
    trace (m1ur_chrdev_set_stream_id respond current_system
             stream_id tsid tsid2 d)
    = pre ++ (tc90522_set_tsid_s t, w) :: mid ++ [(tc90522_get_tsid_s, r)] /\
    ret w = 0 /\ ret r = 0 /\ (forall v, out r = Some v -> u16 v = t) /\
    (stream_id < 12 -> t <> 0) /\ (12 <= stream_id -> t = stream_id).
Proof.
  unfold m1ur_chrdev_set_stream_id.
  destruct current_system;
    try (unfold ret_, result, EINVAL; cbn [fst]; discriminate).
  intros H. split; [reflexivity|].
  destruct (stream_id <? 12) eqn:E12.
  - apply Z.ltb_lt in E12. revert H. unfold bind.
    destruct (tmcc_poll respond 100 stream_id 0 tsid d) as [[[r t] d1] l1].
    destruct (negb (r =? 0)) eqn:Er.
    + unfold ret_. open_run. intros ->. discriminate Er.
    + destruct (t =? 0) eqn:Et.
      * unfold ret_, EAGAIN. open_run. discriminate.
      * apply Z.eqb_neq in Et.
        pose proof (set_and_check_verified respond t tsid2 d1) as Hv.
        destruct (set_and_check_tsid respond t tsid2 d1) as [[a d2] l2].
        open_run. intros Ha.
        destruct (Hv Ha) as (w & mid & r' & -> & Hw & Hr & Ho).
        exists t, l1, w, mid, r'.
        split; [reflexivity|]. split; [assumption|]. split; [assumption|].
        split; [assumption|]. split; [intros _; assumption|lia].
  - apply Z.ltb_ge in E12.
    destruct (set_and_check_verified respond stream_id tsid2 d H)
      as (w & mid & r' & Ht & Hw & Hr & Ho).
    exists stream_id, [], w, mid, r'.
    split; [exact Ht|]. split; [assumption|]. split; [assumption|].
    split; [assumption|]. split; [lia|reflexivity].
Qed.

Lemma set_stream_id_success_means_verified_witness :
  PTX_ISDB_S_SYSTEM = PTX_ISDB_S_SYSTEM /\
  exists t pre w mid r,
    trace (m1ur_chrdev_set_stream_id (scripted failed) PTX_ISDB_S_SYSTEM
             3 0 0
             [failed; {| ret := 0; out := Some 0 |};
              {| ret := 0; out := Some 0x4011 |}; ok;
              {| ret := 0; out := Some 0x4010 |}; failed;
              {| ret := 0; out := Some 0x4011 |}])
    = pre ++ (tc90522_set_tsid_s t, w) :: mid ++ [(tc90522_get_tsid_s, r)] /\
    ret w = 0 /\ ret r = 0 /\ (forall v, out r = Some v -> u16 v = t) /\
    (3 < 12 -> t <> 0) /\ (12 <= 3 -> t = 3).
Proof.
  apply set_stream_id_success_means_verified. vm_compute. reflexivity.
Defined.

(** X10.  [m1ur_chrdev_set_stream_id] cannot hang and writes one ID at
    most: on every device it reads the TMCC at most 100 times and the
    active ID at most 100 times, writes the ID at most once, and asks for
    at most 2000 ms of sleep.  The ID that it writes is never 0 for a
    relative slot (below 12), and is the stream ID that was asked for
    otherwise.  When the current system is not ISDB-S it makes no call. *)
Theorem set_stream_id_is_bounded {D : Type}
  (respond : hw_call -> D -> reply * D)
  (current_system : ptx_system_type) (stream_id tsid tsid2 : Z) (d : D) :
  within (trace (m1ur_chrdev_set_stream_id respond current_system
                   stream_id tsid tsid2 d)) 100 100 1 2000 /\
  writes_only (fun t => if stream_id <? 12 then t <> 0 else t = stream_id)
    (trace (m1ur_chrdev_set_stream_id respond current_system
              stream_id tsid tsid2 d)) /\
  (current_system <> PTX_ISDB_S_SYSTEM ->
   trace (m1ur_chrdev_set_stream_id respond current_system
            stream_id tsid tsid2 d) = []).
Proof.
  assert (Hnil : within [] 100 100 1 2000) by (apply within_nil; lia).
  unfold m1ur_chrdev_set_stream_id.
  destruct current_system;
    try (split; [exact Hnil|]; split; [intros t r []|reflexivity]).
  destruct (stream_id <? 12) eqn:E12.
  - unfold bind.
    destruct (tmcc_poll_within respond 100 stream_id 0 tsid d) as [H1 H2].
    destruct (tmcc_poll respond 100 stream_id 0 tsid d) as [[[r t] d1] l1].
    unfold trace in H1, H2. cbn [snd] in H1, H2.
    assert (Hstop : forall a : Z,
               within (trace (a, d1, l1 ++ [])) 100 100 1 2000 /\
               writes_only (fun t => t <> 0) (trace (a, d1, l1 ++ [])) /\
               (PTX_ISDB_S_SYSTEM <> PTX_ISDB_S_SYSTEM ->
                trace (a, d1, l1 ++ []) = [])).
    { intros a. open_run. rewrite app_nil_r.
      split; [eapply within_le; [exact H1|..]; lia|].
      split; [|congruence]. intros t' r' H. destruct (H2 t' r' H). }
    destruct (negb (r =? 0)); [apply Hstop|].
    destruct (t =? 0) eqn:Et; [apply Hstop|].
    apply Z.eqb_neq in Et.
    destruct (set_and_check_within respond t tsid2 d1) as [H3 H4].
    destruct (set_and_check_tsid respond t tsid2 d1) as [[a d2] l2].
    open_run.
    split; [eapply within_le; [exact (within_app _ _ _ _ _ _ _ _ _ _ H1 H3)
                              |..]; lia|].
    split; [|congruence].
    intros t' r' H. apply in_app_or in H as [H|H].
    + destruct (H2 t' r' H).
    + now rewrite (H4 t' r' H).
  - destruct (set_and_check_within respond stream_id tsid2 d) as [H3 H4].
    split; [eapply within_le; [exact H3|..]; lia|].
    split; [exact H4|congruence].
Qed.

(** * Power, open and close, attach and detach *)

Import Lifecycle.

(** Runs a function of these paths one call or one test of a status
    further; a status that has been tested is not tested again. *)
Ltac run_sys respond :=
  repeat first
    [ progress (cbv beta iota zeta; cbn [negb andb orb];
                change (0 =? 0) with true)
    | match goal with
      | E : ret ?r = 0 |- context [ret ?r =? 0] =>
          rewrite (proj2 (Z.eqb_eq (ret r) 0) E)
      | E : ret ?r <> 0 |- context [ret ?r =? 0] =>
          rewrite (proj2 (Z.eqb_neq (ret r) 0) E)
      | |- context [ret ?r =? 0] =>
          let E := fresh "E" in
          destruct (ret r =? 0) eqn:E;
          [apply Z.eqb_eq in E|apply Z.eqb_neq in E]
      | |- context [respond ?c ?d] =>
          let r := fresh "r" in
          let d' := fresh "d" in
          destruct (respond c d) as [r d']
      end ].

Ltac open_sys :=
  unfold returned, events, calls in *; cbn [fst snd map app] in *.

(** ** The power sequence *)

(** X11.  [m1ur_backend_set_power] on every device.  Switching on lowers
    GPIO 3, sleeps 100 ms, raises GPIO 2 and sleeps 20 ms; a GPIO write
    that fails ends the sequence with its status, and what was written
    before it is not taken back.  Switching off never fails: it makes its
    two GPIO writes without looking at their status, and makes no call at
    all on a device that is no longer available. *)
Theorem set_power_outcomes {D : Type}
  (respond : sys_call -> D -> reply * D) (available : bool) (d : D) :
  let on := m1ur_backend_set_power respond available true d in
  let off := m1ur_backend_set_power respond available false d in
  (returned on = 0 -> calls on = power_on_calls /\ all_well (events on)) /\
  (returned on <> 0 ->
   exists pre c r,
     events on = pre ++ [(c, r)] /\ ret r = returned on /\
     is_gpio_write c = true /\ all_well pre /\
     (calls on = firstn 1 power_on_calls \/
      calls on = firstn 3 power_on_calls)) /\
  returned off = 0 /\
  calls off = power_off_calls available.
Proof.
  unfold m1ur_backend_set_power, sys_try, and_then, sys, pure,
    power_on_calls, power_off_calls, all_well.
  destruct available; run_sys respond; open_sys.
  all: repeat split; try reflexivity; try congruence.
  all: try (repeat constructor; cbn [fst snd is_sleep]; congruence).
  all: try (intros _).
  all: try (exists [], (it930x_write_gpio 3 false), r;
            repeat split; try reflexivity; try constructor; auto; fail).
  all: eexists [_; _], (it930x_write_gpio 2 true), _;
    split; [reflexivity|]; split; [reflexivity|]; split; [reflexivity|];
    split; [repeat constructor; cbn [fst snd is_sleep]; congruence|];
    right; reflexivity.
Qed.

(** ** Opening a session *)

(** Splits a trace that is given call by call behind its [n]th element. *)
Ltac split_behind n :=
  match n with
  | O => exists (@nil sys_event)
  | S ?n' =>
      let rec evars k :=
        match k with
        | O => open_constr:(@nil sys_event)
        | S ?k' => let l := evars k' in open_constr:(@cons sys_event _ l)
        end in
      let body := evars n in
      exists body
  end.

(** Finds the call that failed in a trace that is given call by call. *)
Ltac find_failure :=
  first
    [ split_behind 0%nat; eexists _, _, _; split; [reflexivity|];
      split; [reflexivity|]
    | split_behind 1%nat; eexists _, _, _; split; [reflexivity|];
      split; [reflexivity|]
    | split_behind 2%nat; eexists _, _, _; split; [reflexivity|];
      split; [reflexivity|]
    | split_behind 3%nat; eexists _, _, _; split; [reflexivity|];
      split; [reflexivity|]
    | split_behind 4%nat; eexists _, _, _; split; [reflexivity|];
      split; [reflexivity|]
    | split_behind 5%nat; eexists _, _, _; split; [reflexivity|];
      split; [reflexivity|]
    | split_behind 6%nat; eexists _, _, _; split; [reflexivity|];
      split; [reflexivity|]
    | split_behind 7%nat; eexists _, _, _; split; [reflexivity|];
      split; [reflexivity|]
    | split_behind 8%nat; eexists _, _, _; split; [reflexivity|];
      split; [reflexivity|]
    | split_behind 9%nat; eexists _, _, _; split; [reflexivity|];
      split; [reflexivity|]
    | split_behind 10%nat; eexists _, _, _; split; [reflexivity|];
      split; [reflexivity|]
    | split_behind 11%nat; eexists _, _, _; split; [reflexivity|];
      split; [reflexivity|]
    | split_behind 12%nat; eexists _, _, _; split; [reflexivity|];
      split; [reflexivity|]
    | split_behind 13%nat; eexists _, _, _; split; [reflexivity|];
      split; [reflexivity|]
    | split_behind 14%nat; eexists _, _, _; split; [reflexivity|];
      split; [reflexivity|]
    | split_behind 15%nat; eexists _, _, _; split; [reflexivity|];
      split; [reflexivity|]
    | split_behind 16%nat; eexists _, _, _; split; [reflexivity|];
      split; [reflexivity|] ].

(** X12.  A session is opened in one order only: when [m1ur_chrdev_open]
    returns 0 it has switched the power on, initialised the two
    demodulators and the two tuners, written the ISDB-T table, disabled
    the TS pins of the terrestrial demodulator and put it to sleep, set
    the system of the terrestrial tuner, written the ISDB-S table,
    disabled the TS pins of the satellite demodulator and put it to sleep;
    every one of these calls returned 0, and one reference to the device
    has been taken. *)
Theorem open_success {D : Type}
  (respond : sys_call -> D -> reply * D) (m1ur : m1ur_device) (d : D) :
  fst (returned (m1ur_chrdev_open respond m1ur d)) = 0 ->
  calls (m1ur_chrdev_open respond m1ur d)
  = power_on_calls ++ chip_inits ++ demod_setup /\
  all_well (events (m1ur_chrdev_open respond m1ur d)) /\
  snd (returned (m1ur_chrdev_open respond m1ur d)) = kref_get m1ur.
Proof.
  remember (m1ur_chrdev_open respond m1ur d) as x eqn:Hx. revert Hx.
  unfold m1ur_chrdev_open, m1ur_backend_set_power, m1ur_backend_init,
    m1ur_backend_term, open_demods, sys_try, and_then, sys, pure,
    power_on_calls, chip_inits, demod_setup, all_well.
  destruct (available m1ur); run_sys respond; intros ->; open_sys;
    intros H0; try contradiction.
  all: split; [reflexivity|]; split; [|reflexivity].
  all: repeat constructor; cbn [fst snd is_sleep]; congruence.
Qed.

Lemma open_success_witness :
  calls (m1ur_chrdev_open (healthy 1) (set_kref 1 zeroed) tt)
  = power_on_calls ++ chip_inits ++ demod_setup /\
  all_well (events (m1ur_chrdev_open (healthy 1) (set_kref 1 zeroed) tt)) /\
  snd (returned (m1ur_chrdev_open (healthy 1) (set_kref 1 zeroed) tt))
  = kref_get (set_kref 1 zeroed).
Proof.
  apply open_success. reflexivity.
Defined.

(** X13.  A session that cannot be opened takes no reference, and is
    undone in part only.  When [m1ur_chrdev_open] fails, the calls up to
    the one that failed are the first calls of the order above, all of
    them returned 0 but the last, whose status is returned, and behind it
    come: the power-off after a chip whose initialisation failed (the
    chips initialised before it are not terminated); the termination of
    the four chips and the power-off after the ISDB-T table; and nothing
    after a GPIO write of the power-on or after any call behind the ISDB-T
    table, which leaves the chips initialised and the power on. *)
Theorem open_failure_undo {D : Type}
  (respond : sys_call -> D -> reply * D) (m1ur : m1ur_device) (d : D) :
  fst (returned (m1ur_chrdev_open respond m1ur d)) <> 0 ->
  snd (returned (m1ur_chrdev_open respond m1ur d)) = m1ur /\
  exists body c r tail,
    events (m1ur_chrdev_open respond m1ur d) = body ++ (c, r) :: tail /\
    ret r = fst (returned (m1ur_chrdev_open respond m1ur d)) /\
    all_well body /\
    map fst tail = open_undo (available m1ur) c /\
    exists n, map fst (body ++ [(c, r)])
              = firstn n (power_on_calls ++ chip_inits ++ demod_setup).
Proof.
  remember (m1ur_chrdev_open respond m1ur d) as x eqn:Hx. revert Hx.
  unfold m1ur_chrdev_open, m1ur_backend_set_power, m1ur_backend_init,
    m1ur_backend_term, open_demods, sys_try, and_then, sys, pure,
    power_on_calls, chip_inits, demod_setup, all_well.
  destruct (available m1ur) eqn:Ea; run_sys respond; intros ->; open_sys;
    intros H0; try contradiction.
  all: split; [reflexivity|].
  all: find_failure.
  all: split; [repeat constructor; cbn [fst snd is_sleep]; congruence|].
  all: split; [reflexivity|].
  all: cbn [map app fst].
  all: first [ exists 1%nat; reflexivity | exists 2%nat; reflexivity
             | exists 3%nat; reflexivity | exists 4%nat; reflexivity
             | exists 5%nat; reflexivity | exists 6%nat; reflexivity
             | exists 7%nat; reflexivity | exists 8%nat; reflexivity
             | exists 9%nat; reflexivity | exists 10%nat; reflexivity
             | exists 11%nat; reflexivity | exists 12%nat; reflexivity
             | exists 13%nat; reflexivity | exists 14%nat; reflexivity
             | exists 15%nat; reflexivity ].
Qed.

Lemma open_failure_undo_witness :
  snd (returned (m1ur_chrdev_open (sys_scripted ok)
                   (set_available true (set_kref 1 zeroed))
                   (repeat ok 8 ++ [failed]))) 
  = set_available true (set_kref 1 zeroed) /\
  exists body c r tail,
    events (m1ur_chrdev_open (sys_scripted ok)
              (set_available true (set_kref 1 zeroed))
              (repeat ok 8 ++ [failed]))
    = body ++ (c, r) :: tail /\
    ret r = fst (returned (m1ur_chrdev_open (sys_scripted ok)
                             (set_available true (set_kref 1 zeroed))
                             (repeat ok 8 ++ [failed]))) /\
    all_well body /\
    map fst tail
    = open_undo (available (set_available true (set_kref 1 zeroed))) c /\
    exists n, map fst (body ++ [(c, r)])
              = firstn n (power_on_calls ++ chip_inits ++ demod_setup).
Proof.
  apply open_failure_undo. vm_compute. discriminate.
Defined.

(** ** Closing a session *)

Section Closing.

Context {D : Type} (respond : sys_call -> D -> reply * D).

Lemma set_kref_kref k m1ur : kref (set_kref k m1ur) = k.
Proof. reflexivity. Qed.

Lemma set_kref_same m1ur : set_kref (kref m1ur) m1ur = m1ur.
Proof. now destruct m1ur. Qed.

(** What [m1ur_chrdev_release] does depends on the device handle only. *)
Lemma chrdev_release_run m1ur d :
  fst (returned (m1ur_chrdev_release respond m1ur d)) = 0 /\
  snd (returned (m1ur_chrdev_release respond m1ur d))
  = set_kref (kref m1ur - 1) m1ur /\
  calls (m1ur_chrdev_release respond m1ur d)
  = chip_terms ++ power_off_calls (available m1ur)
    ++ (if kref m1ur =? 1 then release_calls else []).
Proof.
  unfold m1ur_chrdev_release, m1ur_backend_term, m1ur_backend_set_power,
    kref_put, m1ur_device_release, and_then, sys, pure,
    chip_terms, power_off_calls, release_calls.
  replace (kref m1ur =? 1) with (kref m1ur - 1 =? 0)
    by (destruct (Z.eqb_spec (kref m1ur - 1) 0), (Z.eqb_spec (kref m1ur) 1);
        reflexivity || lia).
  destruct (available m1ur), (kref m1ur - 1 =? 0);
    run_sys respond; open_sys; repeat split.
Qed.

Lemma device_term_run m1ur d :
  returned (m1ur_device_term respond m1ur d)
  = set_kref (kref m1ur - 1) (set_available false m1ur) /\
  calls (m1ur_device_term respond m1ur d)
  = ptx_chrdev_group_destroy
      :: (if kref m1ur =? 1 then release_calls else []).
Proof.
  unfold m1ur_device_term, kref_put, m1ur_device_release, and_then, sys,
    pure, release_calls.
  cbn [kref set_available].
  replace (kref m1ur =? 1) with (kref m1ur - 1 =? 0)
    by (destruct (Z.eqb_spec (kref m1ur - 1) 0), (Z.eqb_spec (kref m1ur) 1);
        reflexivity || lia).
  destruct (kref m1ur - 1 =? 0); run_sys respond; open_sys; repeat split.
Qed.

End Closing.

(** X14.  Closing a session never fails and does not depend on what the
    device answers: on every device [m1ur_chrdev_release] returns 0, gives
    one reference back, terminates the two tuners and the two
    demodulators, switches the power off when the device is still
    available and touches no GPIO when it is not, and runs
    [m1ur_device_release] when the reference it gave back was the last
    one. *)
Theorem release_outcome {D : Type}
  (respond : sys_call -> D -> reply * D) (m1ur : m1ur_device) (d : D) :
  fst (returned (m1ur_chrdev_release respond m1ur d)) = 0 /\
  kref (snd (returned (m1ur_chrdev_release respond m1ur d)))
  = kref m1ur - 1 /\
  calls (m1ur_chrdev_release respond m1ur d)
  = chip_terms ++ power_off_calls (available m1ur)
    ++ (if kref m1ur =? 1 then release_calls else []) /\
  (available m1ur = false ->
   existsb is_gpio_write (calls (m1ur_chrdev_release respond m1ur d))
   = false).
Proof.
  destruct (chrdev_release_run respond m1ur d) as (H0 & Hm & Hc).
  split; [exact H0|]. split; [now rewrite Hm|]. split; [exact Hc|].
  intros Ha. rewrite Hc, Ha.
  unfold chip_terms, power_off_calls, release_calls.
  now destruct (kref m1ur =? 1).
Qed.

(** X15.  Opening and closing a session are balanced: on an attached
    device (the reference of the attach is held), a session that was opened
    with success and is then closed leaves the device handle as it was
    before, and closing it does not run the final release. *)
Theorem open_release_round_trip {D : Type}
  (respond : sys_call -> D -> reply * D) (m1ur : m1ur_device) (d : D) :
  1 <= kref m1ur ->
  fst (returned (m1ur_chrdev_open respond m1ur d)) = 0 ->
  snd (returned
         (m1ur_chrdev_release respond
            (snd (returned (m1ur_chrdev_open respond m1ur d)))
            (device_after (m1ur_chrdev_open respond m1ur d))))
  = m1ur /\
  calls (m1ur_chrdev_release respond
           (snd (returned (m1ur_chrdev_open respond m1ur d)))
           (device_after (m1ur_chrdev_open respond m1ur d)))
  = chip_terms ++ power_off_calls (available m1ur).
Proof.
  intros Hk H0.
  assert (Ho : snd (returned (m1ur_chrdev_open respond m1ur d))
               = kref_get m1ur).
  { revert H0.
    unfold m1ur_chrdev_open, m1ur_backend_set_power, m1ur_backend_init,
      m1ur_backend_term, open_demods, sys_try, and_then, sys, pure.
    destruct (available m1ur); run_sys respond; open_sys;
      intros H0; try contradiction; reflexivity. }
  rewrite Ho.
  destruct (chrdev_release_run respond (kref_get m1ur)
              (device_after (m1ur_chrdev_open respond m1ur d)))
    as (_ & Hm & Hc).
  rewrite Hm, Hc. unfold kref_get. cbn [kref set_kref available].
  replace (kref m1ur + 1 =? 1) with false by cmp.
  rewrite app_nil_r. split; [|reflexivity].
  replace (kref m1ur + 1 - 1) with (kref m1ur) by lia.
  now destruct m1ur.
Qed.

Lemma open_release_round_trip_witness :
  snd (returned
         (m1ur_chrdev_release (healthy 1)
            (snd (returned (m1ur_chrdev_open (healthy 1)
                              (set_available true (set_kref 1 zeroed)) tt)))
            (device_after (m1ur_chrdev_open (healthy 1)
                             (set_available true (set_kref 1 zeroed)) tt))))
  = set_available true (set_kref 1 zeroed) /\
  calls (m1ur_chrdev_release (healthy 1)
           (snd (returned (m1ur_chrdev_open (healthy 1)
                             (set_available true (set_kref 1 zeroed)) tt)))
           (device_after (m1ur_chrdev_open (healthy 1)
                            (set_available true (set_kref 1 zeroed)) tt)))
  = chip_terms
      ++ power_off_calls (available (set_available true (set_kref 1 zeroed))).
Proof.
  apply open_release_round_trip.
  - vm_compute. discriminate.
  - reflexivity.
Defined.

(** ** The holders of a device handle *)

Section Holders.

Context {D : Type} (respond : sys_call -> D -> reply * D).

(** Closing a session and detaching the device each give one reference
    back, and run the final release when it was the last one and only
    then. *)
Lemma operate_puts o m1ur d :
  o <> Open ->
  kref (returned (operate respond o m1ur d)) = kref m1ur - 1 /\
  exists pre,
    calls (operate respond o m1ur d)
    = pre ++ (if kref m1ur =? 1 then release_calls else []) /\
    forallb (fun c => negb (is_undo c || is_complete c)) pre = true.
Proof.
  intros Ho. destruct o; [contradiction| |].
  - destruct (chrdev_release_run respond m1ur d) as (_ & Hm & Hc).
    unfold operate, and_then.
    destruct (m1ur_chrdev_release respond m1ur d) as [[[e m'] d'] l].
    unfold pure. open_sys. rewrite app_nil_r. subst m'.
    split; [reflexivity|].
    exists (chip_terms ++ power_off_calls (available m1ur)).
    rewrite <- app_assoc. split; [exact Hc|].
    unfold chip_terms, power_off_calls. now destruct (available m1ur).
  - destruct (device_term_run respond m1ur d) as (Hm & Hc).
    unfold operate. rewrite Hm.
    split; [reflexivity|].
    exists [ptx_chrdev_group_destroy]. split; [exact Hc|reflexivity].
Qed.

End Holders.

(** X16.  The final release runs once, with the last reference.  When the
    holders of a device handle (the open sessions and the attach) give
    their references back, in any order, by closing and by detaching,
    then on every device: no call of the final release is made before the
    last holder goes, the calls of the last holder end with those of
    [m1ur_device_release] (the bridge and the bus are terminated, the
    stream context is freed, the device is put, the completion is
    signalled), and the count is 0 afterwards. *)
Theorem holders_release_once {D : Type}
  (respond : sys_call -> D -> reply * D)
  (os : list operation) (m1ur : m1ur_device) (d : D) :
  Forall (fun o => o <> Open) os -> os <> [] ->
  kref m1ur = Z.of_nat (length os) ->
  kref (returned (operate_all respond os m1ur d)) = 0 /\
  exists pre,
    calls (operate_all respond os m1ur d) = pre ++ release_calls /\
    forallb (fun c => negb (is_undo c || is_complete c)) pre = true.
Proof.
  revert m1ur d.
  induction os as [|o os IH]; intros m1ur d Hos Hne Hk; [contradiction|].
  inversion Hos as [|? ? Ho Hos']; subst.
  destruct (operate_puts respond o m1ur d Ho) as (Hm & pre & Hc & Hpre).
  cbn [operate_all]. unfold and_then.
  destruct (operate respond o m1ur d) as [[m' d'] l] eqn:Eo.
  open_sys. cbn [length] in Hk.
  destruct os as [|o' os'].
  - cbn [operate_all]. unfold pure. open_sys. rewrite app_nil_r.
    cbn [length] in Hk.
    replace (kref m1ur =? 1) with true in Hc by cmp.
    split; [lia|]. exists pre. split; assumption.
  - replace (kref m1ur =? 1) with false in Hc
      by (cbn [length] in Hk; cmp).
    rewrite app_nil_r in Hc.
    destruct (IH m' d' Hos') as (Hz & pre' & Hc' & Hpre');
      [discriminate|lia|].
    destruct (operate_all respond (o' :: os') m' d') as [[m'' d''] l'].
    open_sys. split; [exact Hz|].
    exists (pre ++ pre').
    rewrite map_app, Hc, Hc', app_assoc. split; [reflexivity|].
    rewrite forallb_app, Hpre, Hpre'. reflexivity.
Qed.

Lemma holders_release_once_witness :
  kref (returned (operate_all (healthy 1) [Close; Detach; Close]
                    (set_available true (set_kref 3 zeroed)) tt)) = 0 /\
  exists pre,
    calls (operate_all (healthy 1) [Close; Detach; Close]
             (set_available true (set_kref 3 zeroed)) tt)
    = pre ++ release_calls /\
    forallb (fun c => negb (is_undo c || is_complete c)) pre = true.
Proof.
  apply holders_release_once.
  - repeat constructor; discriminate.
  - discriminate.
  - reflexivity.
Defined.

(** ** Attaching a device *)

(** Rewrites the tests of the statuses that are known. *)
Ltac known_status :=
  repeat match goal with
         | E : ret ?r = 0 |- context [ret ?r =? 0] =>
             rewrite (proj2 (Z.eqb_eq (ret r) 0) E)
         | E : ret ?r <> 0 |- context [ret ?r =? 0] =>
             rewrite (proj2 (Z.eqb_neq (ret r) 0) E)
         end.

(** Runs a function of these paths to its end, through the tests that are
    not tests of a status as well. *)
Ltac run_sys_all respond :=
  run_sys respond;
  repeat (match goal with
          | |- context [if ?b then _ else _] => destruct b eqn:?
          end;
          run_sys respond).

(** Splits the trace of an attach that failed, given call by call, into
    the calls up to the failure and the calls that undo them. *)
Ltac split_undo k :=
  split_behind k; eexists; split; [reflexivity|];
  split;
  [unfold undo_of, went_well, status_ok, non_null;
   cbn [existsb fst snd andb orb negb map app
        is_bridge_init is_bus_init is_kzalloc];
   known_status; reflexivity|].

Ltac find_undo k fuel :=
  lazymatch fuel with
  | O => fail
  | S ?f => first [split_undo k | find_undo constr:(S k) f]
  end.

(** X17.  An attach that fails gives back what it has taken, and nothing
    else.  When [m1ur_device_init] fails with all its arguments given, the
    calls it made are the calls up to the one that failed, none of which
    gives anything back, followed by: [it930x_term] if the bridge had been
    initialised, [itedtv_bus_term] if the bus had been, [kfree] if the
    stream context had been allocated, and [put_device]; the device is not
    made available.  With an argument missing it returns -EINVAL and makes
    no call. *)
Theorem device_init_failure_unwinds {D : Type}
  (respond : sys_call -> D -> reply * D)
  (m1ur_p dev chrdev_ctx quit_completion discard_null_packets : bool)
  (tmp : Z) (system_cap : list ptx_system_type)
  (m1ur : m1ur_device) (d : D) :
  fst (returned (m1ur_device_init respond m1ur_p dev chrdev_ctx
                   quit_completion discard_null_packets tmp system_cap
                   m1ur d)) <> 0 ->
  available (snd (returned (m1ur_device_init respond m1ur_p dev chrdev_ctx
                              quit_completion discard_null_packets tmp
                              system_cap m1ur d)))
  = available m1ur /\
  if m1ur_p && dev && chrdev_ctx && quit_completion then
    exists body tail,
      events (m1ur_device_init respond m1ur_p dev chrdev_ctx
                quit_completion discard_null_packets tmp system_cap
                m1ur d) = body ++ tail /\
      map fst tail = undo_of body /\
      forallb (fun e => negb (is_undo (fst e))) body = true
  else
    fst (returned (m1ur_device_init respond m1ur_p dev chrdev_ctx
                     quit_completion discard_null_packets tmp system_cap
                     m1ur d)) = - EINVAL /\
    events (m1ur_device_init respond m1ur_p dev chrdev_ctx
              quit_completion discard_null_packets tmp system_cap
              m1ur d) = [].
Proof.
  remember (m1ur_device_init respond m1ur_p dev chrdev_ctx quit_completion
              discard_null_packets tmp system_cap m1ur d) as x eqn:Hx.
  revert Hx.
  unfold m1ur_device_init, m1ur_device_load_config, or_fail_device,
    fail_device, fail_bridge, fail_bus, fail, kref_init, and_then, sys,
    pure.
  destruct m1ur_p, dev, chrdev_ctx, quit_completion; cbn [negb orb andb];
    try (intros -> _; open_sys; repeat split; reflexivity).
  destruct discard_null_packets; run_sys_all respond; intros ->; open_sys;
    intros H0; try contradiction.
  all: split; [reflexivity|].
  all: find_undo 0%nat 20%nat.
  all: reflexivity.
Qed.

Lemma device_init_failure_unwinds_witness :
  available (snd (returned (m1ur_device_init (sys_scripted ok)
                              true true true true true 0 [] zeroed
                              [ok; {| ret := 1; out := None |}; ok; ok; ok; locked; failed])))
  = available zeroed /\
  if true && true && true && true then
    exists body tail,
      events (m1ur_device_init (sys_scripted ok)
                true true true true true 0 [] zeroed
                [ok; {| ret := 1; out := None |}; ok; ok; ok; locked; failed]) = body ++ tail /\
      map fst tail = undo_of body /\
      forallb (fun e => negb (is_undo (fst e))) body = true
  else
    fst (returned (m1ur_device_init (sys_scripted ok)
                     true true true true true 0 [] zeroed
                     [ok; {| ret := 1; out := None |}; ok; ok; ok; locked; failed])) = - EINVAL /\
    events (m1ur_device_init (sys_scripted ok)
              true true true true true 0 [] zeroed
              [ok; {| ret := 1; out := None |}; ok; ok; ok; locked; failed]) = [].
Proof.
  apply device_init_failure_unwinds. vm_compute. discriminate.
Defined.

(** X18.  An attach that succeeds: when [m1ur_device_init] returns 0, all
    its arguments were given, it has made the calls of [attach_calls] in
    that order (the PID filter for null packets only when the module
    parameter asks for it) and none that gives anything back, the device
    handle holds one reference and is available; GPIO 3 was left high and
    GPIO 2 low, the levels of a backend that is switched off. *)
Theorem device_init_success {D : Type}
  (respond : sys_call -> D -> reply * D)
  (m1ur_p dev chrdev_ctx quit_completion discard_null_packets : bool)
  (tmp : Z) (system_cap : list ptx_system_type)
  (m1ur : m1ur_device) (d : D) :
  fst (returned (m1ur_device_init respond m1ur_p dev chrdev_ctx
                   quit_completion discard_null_packets tmp system_cap
                   m1ur d)) = 0 ->
  m1ur_p && dev && chrdev_ctx && quit_completion = true /\
  kref (snd (returned (m1ur_device_init respond m1ur_p dev chrdev_ctx
                         quit_completion discard_null_packets tmp
                         system_cap m1ur d))) = 1 /\
  available (snd (returned (m1ur_device_init respond m1ur_p dev chrdev_ctx
                              quit_completion discard_null_packets tmp
                              system_cap m1ur d))) = true /\
  exists cap,
    calls (m1ur_device_init respond m1ur_p dev chrdev_ctx
             quit_completion discard_null_packets tmp system_cap m1ur d)
    = attach_calls discard_null_packets cap.
Proof.
  remember (m1ur_device_init respond m1ur_p dev chrdev_ctx quit_completion
              discard_null_packets tmp system_cap m1ur d) as x eqn:Hx.
  revert Hx.
  unfold m1ur_device_init, m1ur_device_load_config, or_fail_device,
    fail_device, fail_bridge, fail_bus, fail, kref_init, and_then, sys,
    pure, attach_calls.
  destruct m1ur_p, dev, chrdev_ctx, quit_completion; cbn [negb orb andb];
    try (intros ->; unfold EINVAL; open_sys; discriminate).
  destruct discard_null_packets; run_sys_all respond; intros ->; open_sys;
    intros H0; try contradiction; try (unfold ENOMEM in H0; discriminate H0).
  all: split; [reflexivity|]; split; [reflexivity|]; split; [reflexivity|].
  all: eexists; reflexivity.
Qed.

Lemma device_init_success_witness :
  true && true && true && true = true /\
  kref (snd (returned (m1ur_device_init (healthy 1) true true true true
                         true 0 [] zeroed tt))) = 1 /\
  available (snd (returned (m1ur_device_init (healthy 1) true true true true
                              true 0 [] zeroed tt))) = true /\
  exists cap,
    calls (m1ur_device_init (healthy 1) true true true true
             true 0 [] zeroed tt)
    = attach_calls true cap.
Proof.
  apply device_init_success. reflexivity.
Defined.

(** X19.  What an attach that succeeds has configured depends on the byte
    read from register 0x4979.  When the byte is not 0, the character
    device is registered for ISDB-T and ISDB-S and the device handle holds
    the configuration of [m1ur_device_load_config].  When the byte is 0
    ("EEPROM error"), [m1ur_device_load_config] returns 0 all the same:
    the attach goes on and succeeds, the character device is registered
    with the capabilities that the uninitialised [chrdev_config] happened
    to hold, and the inputs of the bridge and the four chips are left
    without configuration. *)
Theorem device_init_capabilities {D : Type}
  (respond : sys_call -> D -> reply * D)
  (m1ur_p dev chrdev_ctx quit_completion discard_null_packets : bool)
  (tmp : Z) (system_cap : list ptx_system_type)
  (m1ur : m1ur_device) (d : D) :
  fst (returned (m1ur_device_init respond m1ur_p dev chrdev_ctx
                   quit_completion discard_null_packets tmp system_cap
                   m1ur d)) = 0 ->
  exists r,
    In (it930x_read_reg 0x4979, r)
      (events (m1ur_device_init respond m1ur_p dev chrdev_ctx
                 quit_completion discard_null_packets tmp system_cap
                 m1ur d)) /\
    ret r = 0 /\
    if match out r with Some v => u8 v | None => u8 tmp end =? 0
    then
      In (ptx_chrdev_context_add_group system_cap)
        (calls (m1ur_device_init respond m1ur_p dev chrdev_ctx
                  quit_completion discard_null_packets tmp system_cap
                  m1ur d)) /\
      snd (returned (m1ur_device_init respond m1ur_p dev chrdev_ctx
                       quit_completion discard_null_packets tmp system_cap
                       m1ur d))
      = set_available true (kref_init m1ur)
    else
      In (ptx_chrdev_context_add_group
            [PTX_ISDB_T_SYSTEM; PTX_ISDB_S_SYSTEM])
        (calls (m1ur_device_init respond m1ur_p dev chrdev_ctx
                  quit_completion discard_null_packets tmp system_cap
                  m1ur d)) /\
      snd (returned (m1ur_device_init respond m1ur_p dev chrdev_ctx
                       quit_completion discard_null_packets tmp system_cap
                       m1ur d))
      = set_available true (configured (kref_init m1ur)).
Proof.
  remember (m1ur_device_init respond m1ur_p dev chrdev_ctx quit_completion
              discard_null_packets tmp system_cap m1ur d) as x eqn:Hx.
  revert Hx.
  unfold m1ur_device_init, m1ur_device_load_config, or_fail_device,
    fail_device, fail_bridge, fail_bus, fail, and_then, sys, pure.
  destruct m1ur_p, dev, chrdev_ctx, quit_completion; cbn [negb orb andb];
    try (intros ->; unfold EINVAL; open_sys; discriminate).
  destruct discard_null_packets; run_sys_all respond; intros ->; open_sys;
    intros H0; try contradiction; try (unfold ENOMEM in H0; discriminate H0).
  all: match goal with
       | |- context [(it930x_read_reg 18809, ?r)] => exists r
       end.
  all: split; [cbn [In]; auto 8|]; split; [assumption|].
  all: match goal with
       | E : (_ =? 0) = _ |- _ => rewrite E
       end.
  all: split; [cbn [In]; auto 20|reflexivity].
Qed.

Lemma device_init_capabilities_witness :
  exists r,
    In (it930x_read_reg 0x4979, r)
      (events (m1ur_device_init (healthy 0) true true true true false 0
                 [] zeroed tt)) /\
    ret r = 0 /\
    if match out r with Some v => u8 v | None => u8 0 end =? 0
    then
      In (ptx_chrdev_context_add_group [])
        (calls (m1ur_device_init (healthy 0) true true true true false 0
                  [] zeroed tt)) /\
      snd (returned (m1ur_device_init (healthy 0) true true true true false
                       0 [] zeroed tt))
      = set_available true (kref_init zeroed)
    else
      In (ptx_chrdev_context_add_group
            [PTX_ISDB_T_SYSTEM; PTX_ISDB_S_SYSTEM])
        (calls (m1ur_device_init (healthy 0) true true true true false 0
                  [] zeroed tt)) /\
      snd (returned (m1ur_device_init (healthy 0) true true true true false
                       0 [] zeroed tt))
      = set_available true (configured (kref_init zeroed)).
Proof.
  apply device_init_capabilities. reflexivity.
Defined.

(** ** Reading the CNR *)

(** X20.  The raw CNR of ISDB-S is 16 bits wide in a 32-bit variable.  In
    ISDB-S [m1ur_chrdev_read_cnr_raw] makes one call,
    [tc90522_get_cn_s], and returns its status; the value that the call
    stores replaces one half of the caller's [u32] and the other half keeps
    what the caller had there, so that on a little-endian machine the
    caller reads the CNR only if its variable was below 2^16 before the
    call. *)
Theorem read_cnr_raw_s_keeps_half {D : Type}
  (respond : sys_call -> D -> reply * D)
  (little_endian : bool) (value : Z) (d : D) :
  0 <= value < 2 ^ 32 ->
  exists r,
    events (m1ur_chrdev_read_cnr_raw respond little_endian
              PTX_ISDB_S_SYSTEM value d) = [(tc90522_get_cn_s, r)] /\
    fst (returned (m1ur_chrdev_read_cnr_raw respond little_endian
                     PTX_ISDB_S_SYSTEM value d)) = ret r /\
    let value' :=
      snd (returned (m1ur_chrdev_read_cnr_raw respond little_endian
                       PTX_ISDB_S_SYSTEM value d)) in
    match out r with
    | None => value' = value
    | Some v =>
        if little_endian
        then value' mod 2 ^ 16 = u16 v /\
             value' / 2 ^ 16 = value / 2 ^ 16 /\
             (value' = u16 v <-> value < 2 ^ 16)
        else value' / 2 ^ 16 = u16 v /\
             value' mod 2 ^ 16 = value mod 2 ^ 16
    end.
Proof.
  intros Hv.
  unfold m1ur_chrdev_read_cnr_raw, and_then, sys, pure.
  destruct (respond tc90522_get_cn_s d) as [r d1].
  open_sys. exists r.
  split; [reflexivity|]. split; [reflexivity|].
  cbv zeta. destruct (out r) as [v|]; [|reflexivity].
  unfold store_u16_in_u32.
  rewrite (u32_small value) by exact Hv.
  assert (Hu : 0 <= u16 v < 2 ^ 16)
    by (unfold u16; apply Z.mod_pos_bound; lia).
  revert Hv Hu. generalize (u16 v). intros c.
  change (2 ^ 32) with 4294967296. change (2 ^ 16) with 65536.
  intros Hv Hc.
  destruct little_endian.
  - split; [|split].
    + rewrite Z.add_comm, Z.mod_add by lia. apply Z.mod_small. lia.
    + rewrite Z.add_comm, Z.div_add by lia. rewrite Z.div_small; lia.
    + split; intros H.
      * assert (H0 : value / 65536 = 0) by lia.
        apply Z.div_small_iff in H0; lia.
      * rewrite (Z.div_small value) by lia. lia.
  - split.
    + rewrite Z.add_comm, Z.div_add by lia.
      rewrite Z.div_small; [lia|]. apply Z.mod_pos_bound. lia.
    + rewrite Z.add_comm, Z.mod_add by lia. apply Z.mod_mod. lia.
Qed.

Lemma read_cnr_raw_s_keeps_half_witness :
  exists r,
    events (m1ur_chrdev_read_cnr_raw (sys_scripted ok) true
              PTX_ISDB_S_SYSTEM 0xdeadbeef
              [{| ret := 0; out := Some 0x1234 |}])
    = [(tc90522_get_cn_s, r)] /\
    fst (returned (m1ur_chrdev_read_cnr_raw (sys_scripted ok) true
                     PTX_ISDB_S_SYSTEM 0xdeadbeef
                     [{| ret := 0; out := Some 0x1234 |}])) = ret r /\
    let value' :=
      snd (returned (m1ur_chrdev_read_cnr_raw (sys_scripted ok) true
                       PTX_ISDB_S_SYSTEM 0xdeadbeef
                       [{| ret := 0; out := Some 0x1234 |}])) in
    match out r with
    | None => value' = 0xdeadbeef
    | Some v =>
        if true
        then value' mod 2 ^ 16 = u16 v /\
             value' / 2 ^ 16 = 0xdeadbeef / 2 ^ 16 /\
             (value' = u16 v <-> 0xdeadbeef < 2 ^ 16)
        else value' / 2 ^ 16 = u16 v /\
             value' mod 2 ^ 16 = 0xdeadbeef mod 2 ^ 16
    end.
Proof.
  apply read_cnr_raw_s_keeps_half.
  vm_compute. split; [discriminate|reflexivity].
Defined.
